(** * Organic food traceability: ledger contract and off-chain backend

    A shallow embedding of
    - [blockchain/contracts/OrganicFoodTraceability.sol] (module [Contract]),
    - the Express controllers and middleware of [backend/src]
      (module [Backend]),
    followed by the properties of the specification that are checked
    against them. *)

From Stdlib Require Import ZArith Lia.
From stdpp Require Import gmap strings list.

Local Open Scope string_scope.
Local Open Scope list_scope.
Local Open Scope Z_scope.

(* ===================================================================== *)
(** * The ledger contract                                                 *)
(* ===================================================================== *)

Module Contract.

(** [address] and [uint256] are integers; arithmetic on counters wraps
    modulo [2^256] (OpenZeppelin's [Counters.increment] is [unchecked]). *)
Abbreviation address := Z (only parsing).
Abbreviation uint256 := Z (only parsing).

Definition UINT256_MOD : Z := 2 ^ 256.

(** The [bytes32] role identifiers.  [DEFAULT_ADMIN_ROLE] is AccessControl's
    [0x00]; the other five are [keccak256] of their own names, pairwise
    distinct, and are modelled as the constructors of an enumeration. *)
Inductive Role :=
  | DEFAULT_ADMIN_ROLE
  | ADMIN_ROLE
  | FARMER_ROLE
  | PROCESSOR_ROLE
  | DISTRIBUTOR_ROLE
  | RETAILER_ROLE.

#[global] Instance Role_eq_dec : EqDecision Role.
Proof. solve_decision. Defined.

Definition Role_to_nat (r : Role) : nat :=
  match r with
  | DEFAULT_ADMIN_ROLE => 0 | ADMIN_ROLE => 1 | FARMER_ROLE => 2
  | PROCESSOR_ROLE => 3 | DISTRIBUTOR_ROLE => 4 | RETAILER_ROLE => 5
  end%nat.

Definition Role_of_nat (n : nat) : Role :=
  match n with
  | 0 => DEFAULT_ADMIN_ROLE | 1 => ADMIN_ROLE | 2 => FARMER_ROLE
  | 3 => PROCESSOR_ROLE | 4 => DISTRIBUTOR_ROLE | _ => RETAILER_ROLE
  end%nat.

#[global] Instance Role_countable : Countable Role.
Proof. apply (inj_countable' Role_to_nat Role_of_nat). by intros []. Defined.

(** ** Structs *)

Record Location := mkLocation {
  loc_name : string;
  loc_latitude : string;
  loc_longitude : string;
  loc_additionalDetails : string
}.

Record Farmer := mkFarmer {
  f_id : address;
  f_name : string;
  f_location : Location;
  f_certifications : list string;
  f_isActive : bool
}.

Record Product := mkProduct {
  p_id : uint256;
  p_name : string;
  p_description : string;
  p_productType : string;
  p_farmerId : address;
  p_batchId : uint256;
  p_certificationIds : list uint256;
  p_createdAt : uint256;
  p_isOrganic : bool
}.

Record TraceabilityRecord := mkRecord {
  r_timestamp : uint256;
  r_handlerId : address;
  r_handlerRole : string;
  r_action : string;
  r_location : Location;
  r_notes : string
}.

Record Batch := mkBatch {
  b_id : uint256;
  b_productIds : list uint256;
  b_harvestDate : string;
  b_processingMethods : list string;
  b_handlerIds : list address;
  b_traceabilityRecords : list TraceabilityRecord;
  b_isActive : bool
}.

Record Certification := mkCertification {
  c_id : uint256;
  c_name : string;
  c_issuer : string;
  c_certificateHash : string;
  c_issueDate : uint256;
  c_expiryDate : uint256;
  c_isValid : bool
}.

(** A mapping slot that was never written reads as the all-zero struct. *)
Definition zeroLocation : Location := mkLocation "" "" "" "".

#[global] Instance Farmer_inhabited : Inhabited Farmer :=
  populate (mkFarmer 0 "" zeroLocation [] false).
#[global] Instance Product_inhabited : Inhabited Product :=
  populate (mkProduct 0 "" "" "" 0 0 [] 0 false).
#[global] Instance Batch_inhabited : Inhabited Batch :=
  populate (mkBatch 0 [] "" [] [] [] false).
#[global] Instance Certification_inhabited : Inhabited Certification :=
  populate (mkCertification 0 "" "" "" 0 0 false).

Inductive Event :=
  | FarmerRegistered (farmerId : address) (name : string) (location : Location)
  | ProductCreated (productId : uint256) (name : string) (farmerId : address)
                   (batchId : uint256)
  | BatchCreated (batchId : uint256) (creatorId : address)
                 (productIds : list uint256)
  | CertificationAdded (certificationId : uint256) (name issuer : string)
  | TraceabilityRecordAdded (batchId : uint256) (handlerId : address)
                            (action : string)
  | QRCodeRegistered (qrCodeHash : string) (productId : uint256).

(** ** Storage *)

Record State := mkState {
  roleMembers : gset (Role * address);      (* AccessControl._roles *)
  paused : bool;                            (* Pausable._paused *)
  productIdCounter : uint256;
  batchIdCounter : uint256;
  certificationIdCounter : uint256;
  farmers : gmap address Farmer;
  products : gmap uint256 Product;
  batches : gmap uint256 Batch;
  certifications : gmap uint256 Certification;
  registeredQRCodes : gset string;
  events : list Event
}.

(** The transaction context. *)
Record Msg := mkMsg { sender : address; block_timestamp : uint256 }.

(** ** Transactions

    A call either returns a value together with the new storage, or reverts
    with a reason, in which case storage is what it was before the call. *)
Inductive Result (A : Type) :=
  | Ok (a : A) (s : State)
  | Revert (reason : string).
Arguments Ok {A} a s.
Arguments Revert {A} reason.

Definition Tx (A : Type) : Type := State -> Result A.

Definition ret {A} (a : A) : Tx A := fun s => Ok a s.

Definition bind {A B} (m : Tx A) (k : A -> Tx B) : Tx B :=
  fun s => match m s with
           | Ok a s' => k a s'
           | Revert r => Revert r
           end.

Definition get : Tx State := fun s => Ok s s.
Definition modify (f : State -> State) : Tx unit := fun s => Ok tt (f s).

Definition require (cond : bool) (reason : string) : Tx unit :=
  fun s => if cond then Ok tt s else Revert reason.

Notation "x <- m ;; k" := (bind m (fun x => k))
  (at level 100, m at next level, right associativity).
Notation "m ;;; k" := (bind m (fun _ => k))
  (at level 100, right associativity).

(** *** Storage updates *)

Definition set_roleMembers (f : gset (Role * address) -> gset (Role * address))
    (s : State) : State :=
  mkState (f (roleMembers s)) (paused s) (productIdCounter s) (batchIdCounter s)
    (certificationIdCounter s) (farmers s) (products s) (batches s)
    (certifications s) (registeredQRCodes s) (events s).

Definition set_paused (b : bool) (s : State) : State :=
  mkState (roleMembers s) b (productIdCounter s) (batchIdCounter s)
    (certificationIdCounter s) (farmers s) (products s) (batches s)
    (certifications s) (registeredQRCodes s) (events s).

Definition set_productIdCounter (n : uint256) (s : State) : State :=
  mkState (roleMembers s) (paused s) n (batchIdCounter s)
    (certificationIdCounter s) (farmers s) (products s) (batches s)
    (certifications s) (registeredQRCodes s) (events s).

Definition set_batchIdCounter (n : uint256) (s : State) : State :=
  mkState (roleMembers s) (paused s) (productIdCounter s) n
    (certificationIdCounter s) (farmers s) (products s) (batches s)
    (certifications s) (registeredQRCodes s) (events s).

Definition set_certificationIdCounter (n : uint256) (s : State) : State :=
  mkState (roleMembers s) (paused s) (productIdCounter s) (batchIdCounter s)
    n (farmers s) (products s) (batches s)
    (certifications s) (registeredQRCodes s) (events s).

Definition set_farmers (f : gmap address Farmer -> gmap address Farmer)
    (s : State) : State :=
  mkState (roleMembers s) (paused s) (productIdCounter s) (batchIdCounter s)
    (certificationIdCounter s) (f (farmers s)) (products s) (batches s)
    (certifications s) (registeredQRCodes s) (events s).

Definition set_products (f : gmap uint256 Product -> gmap uint256 Product)
    (s : State) : State :=
  mkState (roleMembers s) (paused s) (productIdCounter s) (batchIdCounter s)
    (certificationIdCounter s) (farmers s) (f (products s)) (batches s)
    (certifications s) (registeredQRCodes s) (events s).

Definition set_batches (f : gmap uint256 Batch -> gmap uint256 Batch)
    (s : State) : State :=
  mkState (roleMembers s) (paused s) (productIdCounter s) (batchIdCounter s)
    (certificationIdCounter s) (farmers s) (products s) (f (batches s))
    (certifications s) (registeredQRCodes s) (events s).

Definition set_certifications
    (f : gmap uint256 Certification -> gmap uint256 Certification)
    (s : State) : State :=
  mkState (roleMembers s) (paused s) (productIdCounter s) (batchIdCounter s)
    (certificationIdCounter s) (farmers s) (products s) (batches s)
    (f (certifications s)) (registeredQRCodes s) (events s).

Definition set_registeredQRCodes (f : gset string -> gset string)
    (s : State) : State :=
  mkState (roleMembers s) (paused s) (productIdCounter s) (batchIdCounter s)
    (certificationIdCounter s) (farmers s) (products s) (batches s)
    (certifications s) (f (registeredQRCodes s)) (events s).

Definition emit (e : Event) : Tx unit :=
  modify (fun s =>
    mkState (roleMembers s) (paused s) (productIdCounter s) (batchIdCounter s)
      (certificationIdCounter s) (farmers s) (products s) (batches s)
      (certifications s) (registeredQRCodes s) (events s ++ [e])).

(** *** AccessControl and Pausable (inherited) *)

Definition hasRole (role : Role) (account : address) (s : State) : bool :=
  bool_decide ((role, account) ∈ roleMembers s).

Definition onlyRole (role : Role) (m : Msg) : Tx unit :=
  s <- get ;;
  require (hasRole role (sender m) s) "AccessControl: account is missing role".

Definition whenNotPaused : Tx unit :=
  s <- get ;; require (negb (paused s)) "Pausable: paused".

Definition _setupRole (role : Role) (account : address) : Tx unit :=
  modify (set_roleMembers (fun r => {[ (role, account) ]} ∪ r)).

(** [grantRole] of AccessControl: every role's admin role is
    [DEFAULT_ADMIN_ROLE], since the contract never calls [_setRoleAdmin]. *)
Definition grantRole (m : Msg) (role : Role) (account : address) : Tx unit :=
  onlyRole DEFAULT_ADMIN_ROLE m ;;;
  _setupRole role account.

Definition increment (n : uint256) : uint256 := (n + 1) mod UINT256_MOD.

(** *** The contract's functions *)

Definition initial : State :=
  mkState ∅ false 0 0 0 ∅ ∅ ∅ ∅ ∅ [].

Definition constructor (m : Msg) : Tx unit :=
  _setupRole DEFAULT_ADMIN_ROLE (sender m) ;;;
  _setupRole ADMIN_ROLE (sender m).

Definition pause (m : Msg) : Tx unit :=
  onlyRole ADMIN_ROLE m ;;;
  whenNotPaused ;;;
  modify (set_paused true).

Definition unpause (m : Msg) : Tx unit :=
  onlyRole ADMIN_ROLE m ;;;
  s <- get ;;
  require (paused s) "Pausable: not paused" ;;;
  modify (set_paused false).

Definition nonEmpty (str : string) : bool := negb (String.eqb str "").

Definition registerFarmer (m : Msg) (_farmerId : address) (_name : string)
    (_locationName _latitude _longitude _additionalDetails : string)
    : Tx unit :=
  onlyRole ADMIN_ROLE m ;;;
  whenNotPaused ;;;
  require (negb (_farmerId =? 0)) "Invalid farmer address" ;;;
  require (nonEmpty _name) "Name cannot be empty" ;;;
  let location :=
    mkLocation _locationName _latitude _longitude _additionalDetails in
  modify (set_farmers
            <[ _farmerId := mkFarmer _farmerId _name location [] true ]>) ;;;
  _setupRole FARMER_ROLE _farmerId ;;;
  emit (FarmerRegistered _farmerId _name location).

Definition createBatch (m : Msg) (_productIds : list uint256)
    (_harvestDate : string) (_processingMethods : list string)
    : Tx uint256 :=
  onlyRole FARMER_ROLE m ;;;
  whenNotPaused ;;;
  s <- get ;;
  let batchId := increment (batchIdCounter s) in
  modify (set_batchIdCounter batchId) ;;;
  let handlers := [sender m] in
  let initialRecord :=
    mkRecord (block_timestamp m) (sender m) "FARMER" "BATCH_CREATED"
             (f_location (farmers s !!! sender m)) "Initial batch creation" in
  let records := [initialRecord] in
  modify (set_batches
            <[ batchId := mkBatch batchId _productIds _harvestDate
                                  _processingMethods handlers records true ]>) ;;;
  emit (BatchCreated batchId (sender m) _productIds) ;;;
  ret batchId.

Definition push_productId (productId : uint256) (b : Batch) : Batch :=
  mkBatch (b_id b) (b_productIds b ++ [productId]) (b_harvestDate b)
    (b_processingMethods b) (b_handlerIds b) (b_traceabilityRecords b)
    (b_isActive b).

Definition createProduct (m : Msg) (_name _description _productType : string)
    (_batchId : uint256) (_isOrganic : bool) : Tx uint256 :=
  onlyRole FARMER_ROLE m ;;;
  whenNotPaused ;;;
  require (nonEmpty _name) "Name cannot be empty" ;;;
  s <- get ;;
  require (f_isActive (farmers s !!! sender m)) "Farmer is not active" ;;;
  newBatchId <-
    (if _batchId =? 0
     then createBatch m [] "" []
     else require (b_isActive (batches s !!! _batchId)) "Batch is not active" ;;;
          ret _batchId) ;;
  s1 <- get ;;
  let productId := increment (productIdCounter s1) in
  modify (set_productIdCounter productId) ;;;
  modify (set_products
            <[ productId := mkProduct productId _name _description _productType
                              (sender m) newBatchId [] (block_timestamp m)
                              _isOrganic ]>) ;;;
  modify (set_batches (fun bs =>
            <[ newBatchId := push_productId productId (bs !!! newBatchId) ]> bs)) ;;;
  emit (ProductCreated productId _name (sender m) newBatchId) ;;;
  ret productId.

Definition addCertification (m : Msg) (_name _issuer _certificateHash : string)
    (_issueDate _expiryDate : uint256) : Tx uint256 :=
  onlyRole ADMIN_ROLE m ;;;
  whenNotPaused ;;;
  require (nonEmpty _name) "Name cannot be empty" ;;;
  require (nonEmpty _issuer) "Issuer cannot be empty" ;;;
  require (nonEmpty _certificateHash) "Certificate hash cannot be empty" ;;;
  s <- get ;;
  let certificationId := increment (certificationIdCounter s) in
  modify (set_certificationIdCounter certificationId) ;;;
  modify (set_certifications
            <[ certificationId :=
                 mkCertification certificationId _name _issuer _certificateHash
                                 _issueDate _expiryDate true ]>) ;;;
  emit (CertificationAdded certificationId _name _issuer) ;;;
  ret certificationId.

Definition push_certificationId (certificationId : uint256) (p : Product)
    : Product :=
  mkProduct (p_id p) (p_name p) (p_description p) (p_productType p)
    (p_farmerId p) (p_batchId p) (p_certificationIds p ++ [certificationId])
    (p_createdAt p) (p_isOrganic p).

Definition addCertificationToProduct (m : Msg)
    (_productId _certificationId : uint256) : Tx unit :=
  onlyRole ADMIN_ROLE m ;;;
  whenNotPaused ;;;
  s <- get ;;
  require (p_id (products s !!! _productId) =? _productId)
          "Product does not exist" ;;;
  require (c_id (certifications s !!! _certificationId) =? _certificationId)
          "Certification does not exist" ;;;
  require (c_isValid (certifications s !!! _certificationId))
          "Certification is not valid" ;;;
  modify (set_products (fun ps =>
            <[ _productId :=
                 push_certificationId _certificationId (ps !!! _productId) ]> ps)).

(** The chain of [if]s (without [else]) that picks the handler role: each
    test that succeeds overwrites the previous choice. *)
Definition resolveHandlerRole (has : Role -> bool) : string :=
  let handlerRole := "UNKNOWN" in
  let handlerRole := if has FARMER_ROLE then "FARMER" else handlerRole in
  let handlerRole := if has PROCESSOR_ROLE then "PROCESSOR" else handlerRole in
  let handlerRole := if has DISTRIBUTOR_ROLE then "DISTRIBUTOR" else handlerRole in
  let handlerRole := if has RETAILER_ROLE then "RETAILER" else handlerRole in
  handlerRole.

(** The loop over [handlerIds] with its early [break]. *)
Fixpoint handlerExists (handlerIds : list address) (who : address) : bool :=
  match handlerIds with
  | [] => false
  | h :: rest => if h =? who then true else handlerExists rest who
  end.

Definition push_record (record : TraceabilityRecord) (b : Batch) : Batch :=
  mkBatch (b_id b) (b_productIds b) (b_harvestDate b) (b_processingMethods b)
    (b_handlerIds b) (b_traceabilityRecords b ++ [record]) (b_isActive b).

Definition push_handler (who : address) (b : Batch) : Batch :=
  mkBatch (b_id b) (b_productIds b) (b_harvestDate b) (b_processingMethods b)
    (b_handlerIds b ++ [who]) (b_traceabilityRecords b) (b_isActive b).

Definition addTraceabilityRecord (m : Msg) (_batchId : uint256)
    (_action _locationName _latitude _longitude _additionalDetails
       _notes : string) : Tx unit :=
  whenNotPaused ;;;
  s <- get ;;
  require (b_id (batches s !!! _batchId) =? _batchId) "Batch does not exist" ;;;
  require (b_isActive (batches s !!! _batchId)) "Batch is not active" ;;;
  let has := fun role => hasRole role (sender m) s in
  require (has FARMER_ROLE || has PROCESSOR_ROLE
           || has DISTRIBUTOR_ROLE || has RETAILER_ROLE) "Unauthorized role" ;;;
  let handlerRole := resolveHandlerRole has in
  let location :=
    mkLocation _locationName _latitude _longitude _additionalDetails in
  let record :=
    mkRecord (block_timestamp m) (sender m) handlerRole _action location
             _notes in
  modify (set_batches (fun bs =>
            <[ _batchId := push_record record (bs !!! _batchId) ]> bs)) ;;;
  s1 <- get ;;
  (if handlerExists (b_handlerIds (batches s1 !!! _batchId)) (sender m)
   then ret tt
   else modify (set_batches (fun bs =>
                  <[ _batchId := push_handler (sender m) (bs !!! _batchId) ]> bs))) ;;;
  emit (TraceabilityRecordAdded _batchId (sender m) _action).

Definition registerQRCode (m : Msg) (_qrCodeHash : string)
    (_productId : uint256) : Tx unit :=
  onlyRole ADMIN_ROLE m ;;;
  whenNotPaused ;;;
  require (nonEmpty _qrCodeHash) "QR code hash cannot be empty" ;;;
  s <- get ;;
  require (negb (bool_decide (_qrCodeHash ∈ registeredQRCodes s)))
          "QR code already registered" ;;;
  require (p_id (products s !!! _productId) =? _productId)
          "Product does not exist" ;;;
  modify (set_registeredQRCodes (fun q => {[ _qrCodeHash ]} ∪ q)) ;;;
  emit (QRCodeRegistered _qrCodeHash _productId).

Definition verifyQRCode (_qrCodeHash : string) (s : State) : bool :=
  bool_decide (_qrCodeHash ∈ registeredQRCodes s).

(** ** View functions *)

Definition getProduct (_productId : uint256) : Tx Product :=
  s <- get ;;
  require (p_id (products s !!! _productId) =? _productId)
          "Product does not exist" ;;;
  ret (products s !!! _productId).

Definition getBatch (_batchId : uint256) : Tx Batch :=
  s <- get ;;
  require (b_id (batches s !!! _batchId) =? _batchId) "Batch does not exist" ;;;
  ret (batches s !!! _batchId).

Definition getCertification (_certificationId : uint256) : Tx Certification :=
  s <- get ;;
  require (c_id (certifications s !!! _certificationId) =? _certificationId)
          "Certification does not exist" ;;;
  ret (certifications s !!! _certificationId).

Definition getFarmer (_farmerId : address) : Tx Farmer :=
  require (negb (_farmerId =? 0)) "Invalid farmer address" ;;;
  s <- get ;;
  require (f_id (farmers s !!! _farmerId) =? _farmerId)
          "Farmer does not exist" ;;;
  ret (farmers s !!! _farmerId).

(** ** The rest of AccessControl's public interface *)

Definition _revokeRole (role : Role) (account : address) : Tx unit :=
  modify (set_roleMembers (fun r => r ∖ {[ (role, account) ]})).

Definition revokeRole (m : Msg) (role : Role) (account : address) : Tx unit :=
  onlyRole DEFAULT_ADMIN_ROLE m ;;;
  _revokeRole role account.

Definition renounceRole (m : Msg) (role : Role) (account : address) : Tx unit :=
  require (account =? sender m)
          "AccessControl: can only renounce roles for self" ;;;
  _revokeRole role account.

(** ** Transactions as data

    The state-changing entry points of the deployed contract, with their
    arguments. *)
Inductive Call :=
  | Pause
  | Unpause
  | GrantRole (role : Role) (account : address)
  | RevokeRole (role : Role) (account : address)
  | RenounceRole (role : Role) (account : address)
  | RegisterFarmer (_farmerId : address)
      (_name _locationName _latitude _longitude _additionalDetails : string)
  | CreateProduct (_name _description _productType : string)
      (_batchId : uint256) (_isOrganic : bool)
  | CreateBatch (_productIds : list uint256) (_harvestDate : string)
      (_processingMethods : list string)
  | AddCertification (_name _issuer _certificateHash : string)
      (_issueDate _expiryDate : uint256)
  | AddCertificationToProduct (_productId _certificationId : uint256)
  | AddTraceabilityRecord (_batchId : uint256)
      (_action _locationName _latitude _longitude _additionalDetails
         _notes : string)
  | RegisterQRCode (_qrCodeHash : string) (_productId : uint256).

Definition execute (m : Msg) (c : Call) : Tx unit :=
  match c with
  | Pause => pause m
  | Unpause => unpause m
  | GrantRole role account => grantRole m role account
  | RevokeRole role account => revokeRole m role account
  | RenounceRole role account => renounceRole m role account
  | RegisterFarmer f n l la lo ad => registerFarmer m f n l la lo ad
  | CreateProduct n d t b o => createProduct m n d t b o ;;; ret tt
  | CreateBatch ps h pm => createBatch m ps h pm ;;; ret tt
  | AddCertification n i h d e => addCertification m n i h d e ;;; ret tt
  | AddCertificationToProduct p c => addCertificationToProduct m p c
  | AddTraceabilityRecord b a l la lo ad n =>
      addTraceabilityRecord m b a l la lo ad n
  | RegisterQRCode h p => registerQRCode m h p
  end.

(** The role a call demands of its sender, if any. *)
Definition requiredRole (c : Call) : option Role :=
  match c with
  | Pause | Unpause | RegisterFarmer _ _ _ _ _ _ | AddCertification _ _ _ _ _
  | AddCertificationToProduct _ _ | RegisterQRCode _ _ => Some ADMIN_ROLE
  | GrantRole _ _ | RevokeRole _ _ => Some DEFAULT_ADMIN_ROLE
  | CreateProduct _ _ _ _ _ | CreateBatch _ _ _ => Some FARMER_ROLE
  | RenounceRole _ _ | AddTraceabilityRecord _ _ _ _ _ _ _ => None
  end.

(** The calls that go through [whenNotPaused]. *)
Definition pausable (c : Call) : bool :=
  match c with
  | Unpause | GrantRole _ _ | RevokeRole _ _ | RenounceRole _ _ => false
  | _ => true
  end.

(** ** Well-formed storage *)

Definition MAX_UINT256 : Z := UINT256_MOD - 1.

Record WellFormed (s : State) : Prop := mkWellFormed {
  wf_counters :
    0 <= productIdCounter s ∧ 0 <= batchIdCounter s
    ∧ 0 <= certificationIdCounter s;
  wf_batches :
    ∀ k b, batches s !! k = Some b ->
      b_id b = k ∧ 1 <= k <= batchIdCounter s ∧ b_isActive b = true
      ∧ NoDup (b_handlerIds b) ∧ b_traceabilityRecords b ≠ [];
  wf_products :
    ∀ k p, products s !! k = Some p -> k ≠ 0 ->
      p_id p = k ∧ 1 <= k <= productIdCounter s
      ∧ ∃ b, batches s !! p_batchId p = Some b ∧ k ∈ b_productIds b;
  wf_certifications :
    ∀ k c, certifications s !! k = Some c ->
      c_id c = k ∧ 1 <= k <= certificationIdCounter s ∧ c_isValid c = true
}.

(** No counter is at its last value. *)
Definition roomLeft (s : State) : Prop :=
  productIdCounter s < MAX_UINT256 ∧ batchIdCounter s < MAX_UINT256
  ∧ certificationIdCounter s < MAX_UINT256.

End Contract.

(* ===================================================================== *)
(** * The off-chain backend                                               *)
(* ===================================================================== *)

Module Backend.

(** ** Values, documents and the store *)

(** JSON data as it arrives in request bodies. *)
#[warnings="-register-all"]
Inductive Value :=
  | VNull
  | VBool (b : bool)
  | VNum (n : Z)
  | VStr (s : string)
  | VArr (items : list Value)
  | VObj (fields : list (string * Value)).

Abbreviation ObjectId := string (only parsing).

(** Dates are milliseconds since the epoch. *)
Abbreviation Date := Z (only parsing).

Record User := mkUser { user_id : ObjectId; user_role : string }.

Record CertificationDoc := mkCertificationDoc {
  cert_id : ObjectId;
  cert_name : string;
  cert_issuer : string;
  cert_certificateHash : string;
  cert_issueDate : Date;
  cert_expiryDate : Date;
  cert_documentUrl : option string;
  cert_blockchainCertificationId : option string;
  cert_transactionHash : option string;
  cert_isValid : bool
}.

Record QrInfo := mkQrInfo {
  qi_hash : option string;
  qi_image : string;
  qi_verificationUrl : string
}.

Record ProductDoc := mkProductDoc {
  prod_id : ObjectId;
  prod_name : string;
  prod_description : string;
  prod_productType : string;
  prod_isOrganic : bool;
  prod_farmer : ObjectId;
  prod_blockchainProductId : option string;
  prod_transactionHash : option string;
  prod_harvestDate : option string;
  prod_location : Value;
  prod_certifications : list ObjectId;
  prod_batches : list ObjectId;
  (* the object the controllers assign; [productSchema] declares the path
     a String *)
  prod_qrCode : option QrInfo;
  prod_isActive : bool
}.

Record RecordDoc := mkRecordDoc {
  rec_action : string;
  rec_timestamp : Date;
  rec_location : Value;
  rec_notes : option string;
  rec_handler : ObjectId;
  (* required by [traceabilityRecordSchema]; absent from a record that was
     built without it *)
  rec_handlerRole : option string;
  rec_blockchainTransactionHash : string
}.

Record BatchDoc := mkBatchDoc {
  batch_id : ObjectId;
  batch_harvestDate : string;
  batch_processingMethods : list string;
  batch_products : list ObjectId;
  batch_blockchainBatchId : option string;
  batch_transactionHash : option string;
  batch_handlers : list ObjectId;
  batch_traceabilityRecords : list RecordDoc;
  batch_isActive : bool
}.

Record ScanInfo := mkScanInfo {
  scan_timestamp : Date;
  scan_ipAddress : string;
  scan_userAgent : string;
  scan_location : Value
}.

Record QRCodeDoc := mkQRCodeDoc {
  qr_id : ObjectId;
  qr_hash : string;
  qr_product : ObjectId;
  qr_imageUrl : string;
  qr_verificationUrl : string;
  qr_transactionHash : string;
  qr_isActive : bool;
  qr_scans : list ScanInfo
}.

(** The collections, each in insertion order. *)
Record Store := mkStore {
  st_products : list ProductDoc;
  st_batches : list BatchDoc;
  st_certifications : list CertificationDoc;
  st_qrcodes : list QRCodeDoc
}.

(** ** Responses *)

#[warnings="-register-all"]
Inductive Json :=
  | JBool (b : bool)
  | JStr (s : string)
  | JOptStr (s : option string)
  | JValue (v : Value)
  | JCertification (d : CertificationDoc)
  | JProduct (d : ProductDoc)
  | JBatch (d : BatchDoc)
  | JRecord (d : RecordDoc)
  | JQRCode (d : QRCodeDoc)
  | JArr (items : list Json)
  | JObj (fields : list (string * Json)).

Record Response := mkResponse { status : Z; body : Json }.

Fixpoint assoc (key : string) (fields : list (string * Json)) : option Json :=
  match fields with
  | [] => None
  | (k, v) :: rest => if String.eqb k key then Some v else assoc key rest
  end.

Definition jfield (key : string) (j : Json) : option Json :=
  match j with
  | JObj fields => assoc key fields
  | _ => None
  end.

(** [res.json(x)] answers with status 200. *)
Definition json (b : Json) : Response := mkResponse 200 b.

(** ** Effects of a request

    A handler runs against the store and an environment that fixes what
    its collaborators answer: the ledger adapter, the clock, the driver's
    id generator, the file system, and the store's write path. *)

Inductive Arg :=
  | AStr (s : string)
  | AOptStr (s : option string)
  | ANum (n : Z)
  | ABool (b : bool)
  | AStringified (v : Value).        (* JSON.stringify(v) *)

Record Receipt := mkReceipt {
  transactionHash : string;
  (* [result.events.<Event>.returnValues.<id>], absent when the receipt
     carries no such event *)
  returnedId : option string
}.

Inductive SendOutcome :=
  | Mined (receipt : Receipt)
  | SendFailed (message : string).

Inductive CallOutcome :=
  | Answer (isVerified : bool)
  | CallFailed (message : string).

Record Env := mkEnv {
  env_now : Date;                          (* Date.now(), new Date() *)
  env_objectId : ObjectId;                 (* _id of the document built *)
  env_digest : string;                     (* the sha256 hex digest drawn *)
  env_frontendUrl : string;                (* process.env.FRONTEND_URL *)
  env_connect : option string;             (* the set-up of a wrapper throws *)
  env_send : SendOutcome;                  (* contract.methods.<m>(..).send *)
  env_call : CallOutcome;                  (* contract.methods.<m>(..).call *)
  env_fileFault : option string;           (* mkdirSync / toFile throw *)
  env_storeFault : nat -> option string    (* the n-th store write throws *)
}.

Inductive Effect :=
  | LedgerSend (method : string) (args : list Arg)
  | LedgerCall (method : string) (args : list Arg)
  | FileWrite (path : string)
  | StoreWrite (collection : string).

Record Run := mkRun {
  run_store : Store;
  run_writes : nat;              (* store writes attempted so far *)
  run_trace : list Effect
}.

Inductive Outcome (A : Type) :=
  | Return (a : A)
  | Throw (message : string).
Arguments Return {A} a.
Arguments Throw {A} message.

Definition Async (A : Type) : Type := Env -> Run -> Outcome A * Run.

Definition ret {A} (a : A) : Async A := fun _ r => (Return a, r).

Definition throw {A} (message : string) : Async A :=
  fun _ r => (Throw message, r).

Definition bind {A B} (m : Async A) (k : A -> Async B) : Async B :=
  fun env r =>
    match m env r with
    | (Return a, r') => k a env r'
    | (Throw e, r') => (Throw e, r')
    end.

(** [try { body } catch (err) { handler }]: what the body did to the store
    before throwing stays done. *)
Definition tryCatch {A} (body : Async A) (handler : string -> Async A)
    : Async A :=
  fun env r =>
    match body env r with
    | (Return a, r') => (Return a, r')
    | (Throw e, r') => handler e env r'
    end.

Notation "x <- m ;; k" := (bind m (fun x => k))
  (at level 100, m at next level, right associativity).
Notation "m ;;; k" := (bind m (fun _ => k))
  (at level 100, right associativity).

Definition ask : Async Env := fun env r => (Return env, r).
Definition getStore : Async Store := fun _ r => (Return (run_store r), r).

Definition log (e : Effect) : Async unit :=
  fun _ r => (Return tt, mkRun (run_store r) (run_writes r) (run_trace r ++ [e])).

(** *** The ledger adapter *)

(** The set-up as the wrappers of [utils/blockchain.js] make it:
    [initWeb3()], [initContract(web3)] and [getDefaultAccount(web3)] in a
    row, each given the client. *)
Definition connect : Async unit :=
  env <- ask ;;
  match env_connect env with
  | Some message => throw message
  | None => ret tt
  end.

(** The three functions as the module exports them, for callers that
    choose the argument themselves.  [initWeb3] only builds the provider and
    the client.  [initContract] is [(web3) => new web3.eth.Contract(..)] and
    [getDefaultAccount] starts with [web3.eth.getAccounts()]: called without
    the client, each throws on reading [eth] of [undefined]. *)
Inductive Web3 := Web3Client.

Definition initWeb3 : Async Web3 := ret Web3Client.

Definition initContract (web3 : option Web3) : Async unit :=
  match web3 with
  | Some _ => ret tt
  | None => throw "Cannot read properties of undefined (reading 'eth')"
  end.

Definition getDefaultAccount (web3 : option Web3) : Async unit :=
  match web3 with
  | Some _ =>
      env <- ask ;;
      match env_connect env with
      | Some message => throw message
      | None => ret tt
      end
  | None => throw "Cannot read properties of undefined (reading 'eth')"
  end.

Definition send (method : string) (args : list Arg) : Async Receipt :=
  log (LedgerSend method args) ;;;
  env <- ask ;;
  match env_send env with
  | Mined receipt => ret receipt
  | SendFailed message => throw message
  end.

Definition call (method : string) (args : list Arg) : Async bool :=
  log (LedgerCall method args) ;;;
  env <- ask ;;
  match env_call env with
  | Answer b => ret b
  | CallFailed message => throw message
  end.

(** Reading [returnValues] of an event the receipt does not carry throws. *)
Definition returnValue (result : Receipt) : Async string :=
  match returnedId result with
  | Some id => ret id
  | None => throw "Cannot read properties of undefined"
  end.

(** *** The file system *)
Definition toFile (path : string) : Async unit :=
  log (FileWrite path) ;;;
  env <- ask ;;
  match env_fileFault env with
  | Some message => throw message
  | None => ret tt
  end.

(** *** The store *)

(** A write is attempted, counted and logged; it throws when the
    environment says so or when the store rejects it, and otherwise
    replaces the store. *)
Definition write (collection : string) (f : Store -> Outcome Store)
    : Async unit :=
  fun env r =>
    let n := run_writes r in
    let tr := run_trace r ++ [StoreWrite collection] in
    match env_storeFault env n with
    | Some message => (Throw message, mkRun (run_store r) (S n) tr)
    | None =>
        match f (run_store r) with
        | Return st' => (Return tt, mkRun st' (S n) tr)
        | Throw message => (Throw message, mkRun (run_store r) (S n) tr)
        end
    end.

Section Collection.
Context {D : Type} (key : D -> ObjectId).

Fixpoint findBy (p : D -> bool) (docs : list D) : option D :=
  match docs with
  | [] => None
  | d :: rest => if p d then Some d else findBy p rest
  end.

Definition findById (id : ObjectId) (docs : list D) : option D :=
  findBy (fun d => String.eqb (key d) id) docs.

(** Saving a new document: ids are unique in a collection. *)
Definition insertDoc (doc : D) (docs : list D) : Outcome (list D) :=
  match findById (key doc) docs with
  | Some _ => Throw "E11000 duplicate key error"
  | None => Return (docs ++ [doc])
  end.

(** Saving a document that was read before: the stored document with
    its id is replaced. *)
Fixpoint replaceDoc (doc : D) (docs : list D) : option (list D) :=
  match docs with
  | [] => None
  | d :: rest =>
      if String.eqb (key d) (key doc) then Some (doc :: rest)
      else option_map (cons d) (replaceDoc doc rest)
  end.

Definition updateDoc (doc : D) (docs : list D) : Outcome (list D) :=
  match replaceDoc doc docs with
  | Some docs' => Return docs'
  | None => Throw "No document found for query"
  end.
End Collection.

Definition includes (xs : list string) (x : string) : bool :=
  existsb (String.eqb x) xs.

Definition with_products (f : list ProductDoc -> Outcome (list ProductDoc))
    (st : Store) : Outcome Store :=
  match f (st_products st) with
  | Return l => Return (mkStore l (st_batches st) (st_certifications st)
                                (st_qrcodes st))
  | Throw e => Throw e
  end.

Definition with_batches (f : list BatchDoc -> Outcome (list BatchDoc))
    (st : Store) : Outcome Store :=
  match f (st_batches st) with
  | Return l => Return (mkStore (st_products st) l (st_certifications st)
                                (st_qrcodes st))
  | Throw e => Throw e
  end.

Definition with_certifications
    (f : list CertificationDoc -> Outcome (list CertificationDoc))
    (st : Store) : Outcome Store :=
  match f (st_certifications st) with
  | Return l => Return (mkStore (st_products st) (st_batches st) l
                                (st_qrcodes st))
  | Throw e => Throw e
  end.

Definition with_qrcodes (f : list QRCodeDoc -> Outcome (list QRCodeDoc))
    (st : Store) : Outcome Store :=
  match f (st_qrcodes st) with
  | Return l => Return (mkStore (st_products st) (st_batches st)
                                (st_certifications st) l)
  | Throw e => Throw e
  end.

(** The [hash] path of a QR code is declared [unique]. *)
Definition insertQRCode (doc : QRCodeDoc) (docs : list QRCodeDoc)
    : Outcome (list QRCodeDoc) :=
  match findBy (fun d => String.eqb (qr_hash d) (qr_hash doc)) docs with
  | Some _ => Throw "E11000 duplicate key error"
  | None => insertDoc qr_id doc docs
  end.

(** *** Validation before a save

    [doc.save()] validates what was set on the document against its schema
    and throws before anything is written when a path does not pass. *)
Definition validated (problem : option string) (f : Store -> Outcome Store)
    (st : Store) : Outcome Store :=
  match problem with
  | Some message => Throw message
  | None => f st
  end.

(** [productSchema] declares [qrCode] a String: an object set on the path
    cannot be cast. *)
Definition validateProduct (p : ProductDoc) : option string :=
  match prod_qrCode p with
  | Some _ => Some "Product validation failed: qrCode: Cast to string failed"
  | None => None
  end.

(** [traceabilityRecordSchema] requires [handlerRole], one of the four
    supply-chain roles. *)
Definition validateRecord (r : RecordDoc) : option string :=
  match rec_handlerRole r with
  | Some role =>
      if existsb (String.eqb role)
                 ["farmer"; "processor"; "distributor"; "retailer"]
      then None
      else Some "Batch validation failed: handlerRole is not a valid enum value"
  | None => Some "Batch validation failed: handlerRole is required"
  end.

Fixpoint validateRecords (records : list RecordDoc) : option string :=
  match records with
  | [] => None
  | r :: rest =>
      match validateRecord r with
      | Some message => Some message
      | None => validateRecords rest
      end
  end.

Definition validateBatch (b : BatchDoc) : option string :=
  validateRecords (batch_traceabilityRecords b).

(** ** middleware/auth.middleware.js *)

(** What [authorize] is applied to: nothing (the default [[]]), one role
    name, or an array of role names. *)
Inductive RolesArg :=
  | RolesDefault
  | RolesString (role : string)
  | RolesArray (roles : list string).

Inductive Middleware :=
  | Next
  | Respond (r : Response).

Definition message (m : string) : Json := JObj [("message", JStr m)].

(** [roles = []] by default; [if (typeof roles === 'string') roles = [roles]] *)
Definition toArray (roles : RolesArg) : list string :=
  match roles with
  | RolesDefault => []
  | RolesString role => [role]
  | RolesArray roles => roles
  end.

Definition authorize (roles : RolesArg) (user : option User) : Middleware :=
  let roles := toArray roles in
  match user with
  | None => Respond (mkResponse 401 (message "Not authenticated"))
  | Some user =>
      if negb (Nat.eqb (length roles) 0)
         && negb (includes roles (user_role user))
      then Respond (mkResponse 403
                      (message "Not authorized to access this resource"))
      else Next
  end.

(** ** Helpers shared by the controllers *)

(** [!s] for a string that may be absent. *)
Definition falsy (s : option string) : bool :=
  match s with
  | None => true
  | Some s => String.eqb s ""
  end.

Definition truthy (v : Value) : bool :=
  match v with
  | VNull => false
  | VBool b => b
  | VNum n => negb (n =? 0)
  | VStr s => negb (String.eqb s "")
  | VArr _ | VObj _ => true
  end.

Definition isEmpty {A} (l : list A) : bool :=
  match l with [] => true | _ => false end.

Definition validationErrors (errors : list Value) : Response :=
  mkResponse 400 (JObj [("errors", JValue (VArr errors))]).

Definition serverError (err : string) : Response :=
  mkResponse 500 (JObj [("message", JStr "Server error"); ("error", JStr err)]).

Definition notOwner (farmer : ObjectId) (user : User) : bool :=
  negb (String.eqb farmer (user_id user))
  && negb (String.eqb (user_role user) "admin").

(** ** controllers/certification.controller.js *)

Record CreateCertificationReq := mkCreateCertificationReq {
  cc_errors : list Value;
  cc_name : string;
  cc_issuer : string;
  cc_certificateHash : string;
  cc_issueDate : Date;
  cc_expiryDate : Date;
  cc_documentUrl : option string
}.

Definition createCertification (req : CreateCertificationReq)
    : Async Response :=
  tryCatch
    (if negb (isEmpty (cc_errors req))
     then ret (validationErrors (cc_errors req))
     else
       web3 <- initWeb3 ;;
       contract <- initContract None ;;
       account <- getDefaultAccount None ;;
       result <- send "addCertification"
                   [AStr (cc_name req); AStr (cc_issuer req);
                    AStr (cc_certificateHash req);
                    ANum (cc_issueDate req / 1000);
                    ANum (cc_expiryDate req / 1000)] ;;
       certificationId <- returnValue result ;;
       let txHash := transactionHash result in
       env <- ask ;;
       let certification :=
         mkCertificationDoc (env_objectId env) (cc_name req) (cc_issuer req)
           (cc_certificateHash req) (cc_issueDate req) (cc_expiryDate req)
           (cc_documentUrl req) (Some certificationId) (Some txHash) true in
       write "certifications"
             (with_certifications (insertDoc cert_id certification)) ;;;
       ret (mkResponse 201
              (JObj [("success", JBool true);
                     ("data", JCertification certification);
                     ("blockchainData",
                      JObj [("certificationId", JStr certificationId);
                            ("transactionHash", JStr txHash)])])))
    (fun err => ret (serverError err)).

Definition set_cert_isValid (b : bool) (c : CertificationDoc)
    : CertificationDoc :=
  mkCertificationDoc (cert_id c) (cert_name c) (cert_issuer c)
    (cert_certificateHash c) (cert_issueDate c) (cert_expiryDate c)
    (cert_documentUrl c) (cert_blockchainCertificationId c)
    (cert_transactionHash c) b.

Definition deleteCertification (id : ObjectId) : Async Response :=
  tryCatch
    (st <- getStore ;;
     match findById cert_id id (st_certifications st) with
     | None => ret (mkResponse 404 (message "Certification not found"))
     | Some certification =>
         let certification := set_cert_isValid false certification in
         write "certifications"
               (with_certifications (updateDoc cert_id certification)) ;;;
         ret (json (message "Certification marked as invalid"))
     end)
    (fun _ => ret (mkResponse 500 (message "Server error"))).

Definition verifyCertification (certificateHash : option string)
    : Async Response :=
  tryCatch
    (if falsy certificateHash
     then ret (mkResponse 400 (message "Certificate hash is required"))
     else
         let hash := default "" certificateHash in
         st <- getStore ;;
         match findBy (fun d => String.eqb (cert_certificateHash d) hash)
                      (st_certifications st) with
         | None =>
             ret (mkResponse 404
                    (JObj [("verified", JBool false);
                           ("message", JStr "Certificate not found")]))
         | Some certification =>
             env <- ask ;;
             let now := env_now env in
             let isExpired := cert_expiryDate certification <? now in
             if negb (cert_isValid certification)
             then ret (json (JObj [("verified", JBool false);
                                   ("message", JStr "Certificate has been revoked");
                                   ("certification", JCertification certification)]))
             else if isExpired
             then ret (json (JObj [("verified", JBool false);
                                   ("message", JStr "Certificate has expired");
                                   ("certification", JCertification certification)]))
             else ret (json (JObj [("verified", JBool true);
                                   ("message", JStr "Certificate is valid");
                                   ("certification", JCertification certification)]))
         end)
    (fun _ => ret (mkResponse 500 (message "Server error"))).

(** ** controllers/product.controller.js *)

Record CreateProductReq := mkCreateProductReq {
  cp_errors : list Value;
  cp_name : string;
  cp_description : string;
  cp_productType : string;
  cp_isOrganic : bool;
  cp_farmerId : option string;
  cp_harvestDate : option string;
  cp_location : Value;
  cp_user : User
}.

Definition qrDir : string := "public/qrcodes/".

Definition createProduct (req : CreateProductReq) : Async Response :=
  tryCatch
    (if negb (isEmpty (cp_errors req))
     then ret (validationErrors (cp_errors req))
     else
       web3 <- initWeb3 ;;
       contract <- initContract None ;;
       account <- getDefaultAccount None ;;
       result <- send "createProduct"
                   [AStr (cp_name req); AStr (cp_productType req);
                    ABool (cp_isOrganic req); AOptStr (cp_farmerId req);
                    AStringified (cp_location req)] ;;
       productId <- returnValue result ;;
       let txHash := transactionHash result in
       env <- ask ;;
       let _id := env_objectId env in
       let qrCodeFileName := "product_" +:+ _id +:+ ".png" in
       toFile (qrDir +:+ qrCodeFileName) ;;;
       let product :=
         mkProductDoc _id (cp_name req) (cp_description req)
           (cp_productType req) (cp_isOrganic req) (user_id (cp_user req))
           (Some productId) (Some txHash) (cp_harvestDate req)
           (cp_location req) [] []
           (Some (mkQrInfo None ("/qrcodes/" +:+ qrCodeFileName)
                    (env_frontendUrl env +:+ "/verify/" +:+ _id)))
           true in
       write "products"
             (validated (validateProduct product)
                (with_products (insertDoc prod_id product))) ;;;
       ret (mkResponse 201
              (JObj [("success", JBool true);
                     ("data", JProduct product);
                     ("blockchainData",
                      JObj [("productId", JStr productId);
                            ("transactionHash", JStr txHash)])])))
    (fun err => ret (serverError err)).

Definition set_prod_isActive (b : bool) (p : ProductDoc) : ProductDoc :=
  mkProductDoc (prod_id p) (prod_name p) (prod_description p)
    (prod_productType p) (prod_isOrganic p) (prod_farmer p)
    (prod_blockchainProductId p) (prod_transactionHash p) (prod_harvestDate p)
    (prod_location p) (prod_certifications p) (prod_batches p) (prod_qrCode p)
    b.

Definition set_prod_qrCode (q : QrInfo) (p : ProductDoc) : ProductDoc :=
  mkProductDoc (prod_id p) (prod_name p) (prod_description p)
    (prod_productType p) (prod_isOrganic p) (prod_farmer p)
    (prod_blockchainProductId p) (prod_transactionHash p) (prod_harvestDate p)
    (prod_location p) (prod_certifications p) (prod_batches p) (Some q)
    (prod_isActive p).

Definition push_prod_batch (batch : ObjectId) (p : ProductDoc) : ProductDoc :=
  mkProductDoc (prod_id p) (prod_name p) (prod_description p)
    (prod_productType p) (prod_isOrganic p) (prod_farmer p)
    (prod_blockchainProductId p) (prod_transactionHash p) (prod_harvestDate p)
    (prod_location p) (prod_certifications p) (prod_batches p ++ [batch])
    (prod_qrCode p) (prod_isActive p).

Definition deleteProduct (id : ObjectId) (user : User) : Async Response :=
  tryCatch
    (st <- getStore ;;
     match findById prod_id id (st_products st) with
     | None => ret (mkResponse 404 (message "Product not found"))
     | Some product =>
         if notOwner (prod_farmer product) user
         then ret (mkResponse 403
                     (message "Not authorized to delete this product"))
         else
           let product := set_prod_isActive false product in
           write "products" (with_products (updateDoc prod_id product)) ;;;
           ret (json (message "Product marked as inactive"))
     end)
    (fun _ => ret (mkResponse 500 (message "Server error"))).

(** ** controllers/batch.controller.js *)

Record CreateBatchReq := mkCreateBatchReq {
  cb_errors : list Value;
  cb_harvestDate : string;
  cb_processingMethods : list string;
  cb_products : option (list ObjectId);
  cb_location : Value;
  cb_user : User
}.

(** [products && products.length > 0] *)
Definition someProducts (products : option (list ObjectId)) : bool :=
  match products with
  | Some (_ :: _) => true
  | _ => false
  end.

(** [Product.countDocuments({ _id: { $in: products } })] *)
Definition countIn (products : list ObjectId) (docs : list ProductDoc) : nat :=
  length (filter (fun d => includes products (prod_id d) = true) docs).

(** [Product.updateMany({ _id: { $in: products } },
                        { $push: { batches: batch._id } })] *)
Definition pushBatchTo (products : list ObjectId) (batch : ObjectId)
    (docs : list ProductDoc) : list ProductDoc :=
  map (fun d => if includes products (prod_id d)
                then push_prod_batch batch d else d) docs.

Definition createBatch (req : CreateBatchReq) : Async Response :=
  tryCatch
    (if negb (isEmpty (cb_errors req))
     then ret (validationErrors (cb_errors req))
     else
       st <- getStore ;;
       let products := default [] (cb_products req) in
       if someProducts (cb_products req)
          && negb (Nat.eqb (countIn products (st_products st))
                           (length products))
       then ret (mkResponse 400 (message "One or more products not found"))
       else
         web3 <- initWeb3 ;;
         contract <- initContract None ;;
         account <- getDefaultAccount None ;;
         result <- send "createBatch"
                     [AStr (cb_harvestDate req);
                      AStringified (VArr (map VStr (cb_processingMethods req)));
                      AStringified (cb_location req)] ;;
         batchId <- returnValue result ;;
         let txHash := transactionHash result in
         env <- ask ;;
         let batch :=
           mkBatchDoc (env_objectId env) (cb_harvestDate req)
             (cb_processingMethods req) products (Some batchId) (Some txHash)
             [user_id (cb_user req)]
             [mkRecordDoc "Batch Created" (env_now env) (cb_location req) None
                          (user_id (cb_user req)) None txHash]
             true in
         write "batches"
               (validated (validateBatch batch)
                  (with_batches (insertDoc batch_id batch))) ;;;
         (if someProducts (cb_products req)
          then write "products"
                 (with_products
                    (fun docs => Return (pushBatchTo products (batch_id batch) docs)))
          else ret tt) ;;;
         ret (mkResponse 201
                (JObj [("success", JBool true);
                       ("data", JBatch batch);
                       ("blockchainData",
                        JObj [("batchId", JStr batchId);
                              ("transactionHash", JStr txHash)])])))
    (fun err => ret (serverError err)).

Record AddRecordReq := mkAddRecordReq {
  ar_errors : list Value;
  ar_id : ObjectId;
  ar_action : string;
  ar_location : Value;
  ar_notes : option string;
  ar_user : User
}.

Definition push_handler_record (handler : ObjectId) (record : RecordDoc)
    (b : BatchDoc) : BatchDoc :=
  mkBatchDoc (batch_id b) (batch_harvestDate b) (batch_processingMethods b)
    (batch_products b) (batch_blockchainBatchId b) (batch_transactionHash b)
    (if includes (batch_handlers b) handler
     then batch_handlers b else batch_handlers b ++ [handler])
    (batch_traceabilityRecords b ++ [record]) (batch_isActive b).

Definition addTraceabilityRecord (req : AddRecordReq) : Async Response :=
  tryCatch
    (if negb (isEmpty (ar_errors req))
     then ret (validationErrors (ar_errors req))
     else
       st <- getStore ;;
       match findById batch_id (ar_id req) (st_batches st) with
       | None => ret (mkResponse 404 (message "Batch not found"))
       | Some batch =>
           web3 <- initWeb3 ;;
           contract <- initContract None ;;
           account <- getDefaultAccount None ;;
           result <- send "addTraceabilityRecord"
                       [AOptStr (batch_blockchainBatchId batch);
                        AStr (ar_action req);
                        AStringified (ar_location req);
                        AStr (if falsy (ar_notes req) then ""
                              else default "" (ar_notes req))] ;;
           env <- ask ;;
           let traceabilityRecord :=
             mkRecordDoc (ar_action req) (env_now env) (ar_location req)
               (ar_notes req) (user_id (ar_user req)) None
               (transactionHash result) in
           let batch :=
             push_handler_record (user_id (ar_user req)) traceabilityRecord
               batch in
           write "batches"
                 (validated (validateBatch batch)
                    (with_batches (updateDoc batch_id batch))) ;;;
           ret (mkResponse 201
                  (JObj [("success", JBool true);
                         ("data", JRecord traceabilityRecord);
                         ("blockchainData",
                          JObj [("transactionHash",
                                 JStr (transactionHash result))])]))
       end)
    (fun err => ret (serverError err)).

(** ** controllers/qrcode.controller.js *)

Record GenerateQRCodeReq := mkGenerateQRCodeReq {
  gq_errors : list Value;
  gq_productId : ObjectId;
  gq_user : User
}.

Definition generateQRCode (req : GenerateQRCodeReq) : Async Response :=
  tryCatch
    (if negb (isEmpty (gq_errors req))
     then ret (validationErrors (gq_errors req))
     else
       st <- getStore ;;
       match findById prod_id (gq_productId req) (st_products st) with
       | None => ret (mkResponse 404 (message "Product not found"))
       | Some product =>
           if notOwner (prod_farmer product) (gq_user req)
           then ret (mkResponse 403
                       (message "Not authorized to generate QR code for this product"))
           else
             env <- ask ;;
             let hash := env_digest env in
             let verificationUrl := env_frontendUrl env +:+ "/verify/" +:+ hash in
             let qrCodeFileName := "qr_" +:+ hash +:+ ".png" in
             toFile (qrDir +:+ qrCodeFileName) ;;;
             web3 <- initWeb3 ;;
             contract <- initContract None ;;
             account <- getDefaultAccount None ;;
             result <- send "registerQRCode"
                         [AOptStr (prod_blockchainProductId product);
                          AStr hash] ;;
             let qrCodeModel :=
               mkQRCodeDoc (env_objectId env) hash (gq_productId req)
                 ("/qrcodes/" +:+ qrCodeFileName) verificationUrl
                 (transactionHash result) true [] in
             write "qrcodes" (with_qrcodes (insertQRCode qrCodeModel)) ;;;
             let product :=
               set_prod_qrCode
                 (mkQrInfo (Some hash) ("/qrcodes/" +:+ qrCodeFileName)
                           verificationUrl) product in
             write "products"
                   (validated (validateProduct product)
                      (with_products (updateDoc prod_id product))) ;;;
             ret (mkResponse 201
                    (JObj [("success", JBool true);
                           ("data",
                            JObj [("qrCode", JQRCode qrCodeModel);
                                  ("imageUrl",
                                   JStr ("/qrcodes/" +:+ qrCodeFileName));
                                  ("verificationUrl", JStr verificationUrl)]);
                           ("blockchainData",
                            JObj [("transactionHash",
                                   JStr (transactionHash result))])]))
       end)
    (fun err => ret (serverError err)).

Record VerifyQRCodeReq := mkVerifyQRCodeReq {
  vq_hash : string;
  vq_ip : string;
  vq_userAgent : string;
  vq_location : option Value
}.

(** [qrCode.scanHistory.push(scanInfo)]: [qrCodeSchema] declares [scans]
    and no [scanHistory], so the document has no such path and [push] is
    called on [undefined]. *)
Definition pushScanHistory (scanInfo : ScanInfo) (q : QRCodeDoc)
    : Async QRCodeDoc :=
  throw "Cannot read properties of undefined (reading 'push')".

Definition set_qr_isActive (b : bool) (q : QRCodeDoc) : QRCodeDoc :=
  mkQRCodeDoc (qr_id q) (qr_hash q) (qr_product q) (qr_imageUrl q)
    (qr_verificationUrl q) (qr_transactionHash q) b (qr_scans q).

(** The inner [try] around the ledger query: [Some] response when the
    handler returns from inside it, [None] when control falls through. *)
Definition verifyOnBlockchain (product : ProductDoc) (qrCode : QRCodeDoc)
    (hash : string) : Async (option Response) :=
  tryCatch
    (contract <- initContract None ;;
     isVerified <- call "verifyQRCode"
                     [AOptStr (prod_blockchainProductId product); AStr hash] ;;
     if negb isVerified
     then ret (Some (json (JObj [("verified", JBool false);
                                 ("message",
                                  JStr "QR code verification failed on blockchain");
                                 ("qrCode", JQRCode qrCode)])))
     else ret None)
    (fun blockchainErr =>
       ret (Some (mkResponse 500
                    (JObj [("verified", JBool false);
                           ("message", JStr "Blockchain verification failed");
                           ("error", JStr blockchainErr)])))).

Definition verifyQRCode (req : VerifyQRCodeReq) : Async Response :=
  tryCatch
    (let hash := vq_hash req in
     st <- getStore ;;
     match findBy (fun d => String.eqb (qr_hash d) hash) (st_qrcodes st) with
     | None =>
         ret (mkResponse 404 (JObj [("verified", JBool false);
                                    ("message", JStr "QR code not found")]))
     | Some qrCode =>
         if negb (qr_isActive qrCode)
         then ret (json (JObj [("verified", JBool false);
                               ("message", JStr "QR code has been deactivated");
                               ("qrCode", JQRCode qrCode)]))
         else
           match findById prod_id (qr_product qrCode) (st_products st) with
           | None =>
               ret (mkResponse 404
                      (JObj [("verified", JBool false);
                             ("message", JStr "Associated product not found")]))
           | Some product =>
               early <- verifyOnBlockchain product qrCode hash ;;
               match early with
               | Some response => ret response
               | None =>
                   env <- ask ;;
                   let scanInfo :=
                     mkScanInfo (env_now env) (vq_ip req) (vq_userAgent req)
                       (match vq_location req with
                        | Some v => if truthy v then v else VObj []
                        | None => VObj []
                        end) in
                   qrCode <- pushScanHistory scanInfo qrCode ;;
                   write "qrcodes" (with_qrcodes (updateDoc qr_id qrCode)) ;;;
                   ret (json (JObj [("verified", JBool true);
                                    ("message",
                                     JStr "QR code verified successfully");
                                    ("product", JProduct product);
                                    ("qrCode", JQRCode qrCode)]))
               end
           end
     end)
    (fun _ => ret (mkResponse 500 (message "Server error"))).

(** ** utils/blockchain.js *)

Definition registerFarmer (farmerId name locationName latitude longitude
                           additionalDetails : string) : Async Json :=
  tryCatch
    (connect ;;;
     result <- send "registerFarmer"
                 [AStr farmerId; AStr name; AStr locationName; AStr latitude;
                  AStr longitude; AStr additionalDetails] ;;
     ret (JObj [("success", JBool true);
                ("transactionHash", JStr (transactionHash result))]))
    (fun error => ret (JObj [("success", JBool false); ("error", JStr error)])).

(** ** Running a request *)

Definition start (st : Store) : Run := mkRun st 0 [].

Definition exec {A} (handler : Async A) (env : Env) (st : Store)
    : Outcome A * Run :=
  handler env (start st).

(** The controllers that write to both the ledger and the store. *)
Inductive Operation :=
  | CreateProduct (req : CreateProductReq)
  | CreateBatch (req : CreateBatchReq)
  | CreateCertification (req : CreateCertificationReq)
  | AddTraceabilityRecord (req : AddRecordReq)
  | GenerateQRCode (req : GenerateQRCodeReq).

Definition perform (op : Operation) : Async Response :=
  match op with
  | CreateProduct req => createProduct req
  | CreateBatch req => createBatch req
  | CreateCertification req => createCertification req
  | AddTraceabilityRecord req => addTraceabilityRecord req
  | GenerateQRCode req => generateQRCode req
  end.

(** In a trace, every store write comes after a ledger submission. *)
Fixpoint ledgerFirst (submitted : bool) (trace : list Effect) : bool :=
  match trace with
  | [] => true
  | LedgerSend _ _ :: rest => ledgerFirst true rest
  | StoreWrite _ :: rest => submitted && ledgerFirst submitted rest
  | _ :: rest => ledgerFirst submitted rest
  end.

Definition isStoreWrite (e : Effect) : bool :=
  match e with StoreWrite _ => true | _ => false end.

Definition isLedgerSend (e : Effect) : bool :=
  match e with LedgerSend _ _ => true | _ => false end.

(** ** middleware/auth.middleware.js, the role checks *)

Definition isAdmin (user : option User) : Middleware :=
  match user with
  | None => Respond (mkResponse 401 (message "Not authenticated"))
  | Some user =>
      if negb (String.eqb (user_role user) "admin")
      then Respond (mkResponse 403 (message "Admin access required"))
      else Next
  end.

Definition isFarmer (user : option User) : Middleware :=
  match user with
  | None => Respond (mkResponse 401 (message "Not authenticated"))
  | Some user =>
      if negb (String.eqb (user_role user) "farmer")
         && negb (String.eqb (user_role user) "admin")
      then Respond (mkResponse 403 (message "Farmer access required"))
      else Next
  end.

Definition isProcessor (user : option User) : Middleware :=
  match user with
  | None => Respond (mkResponse 401 (message "Not authenticated"))
  | Some user =>
      if negb (String.eqb (user_role user) "processor")
         && negb (String.eqb (user_role user) "admin")
      then Respond (mkResponse 403 (message "Processor access required"))
      else Next
  end.

Definition isDistributor (user : option User) : Middleware :=
  match user with
  | None => Respond (mkResponse 401 (message "Not authenticated"))
  | Some user =>
      if negb (String.eqb (user_role user) "distributor")
         && negb (String.eqb (user_role user) "admin")
      then Respond (mkResponse 403 (message "Distributor access required"))
      else Next
  end.

Definition isRetailer (user : option User) : Middleware :=
  match user with
  | None => Respond (mkResponse 401 (message "Not authenticated"))
  | Some user =>
      if negb (String.eqb (user_role user) "retailer")
         && negb (String.eqb (user_role user) "admin")
      then Respond (mkResponse 403 (message "Retailer access required"))
      else Next
  end.

Definition isStakeholder (user : option User) : Middleware :=
  match user with
  | None => Respond (mkResponse 401 (message "Not authenticated"))
  | Some user =>
      let stakeholderRoles :=
        ["admin"; "farmer"; "processor"; "distributor"; "retailer"] in
      if negb (includes stakeholderRoles (user_role user))
      then Respond (mkResponse 403 (message "Stakeholder access required"))
      else Next
  end.

(** ** controllers/certification.controller.js, updating *)


(** [if (x) field = x] for a string [x]. *)
Definition assign (new : option string) (old : string) : string :=
  if falsy new then old else default old new.


(** ** controllers/qrcode.controller.js, deactivation *)

Definition deactivateQRCode (hash : string) (user : User) : Async Response :=
  tryCatch
    (st <- getStore ;;
     match findBy (fun d => String.eqb (qr_hash d) hash) (st_qrcodes st) with
     | None => ret (mkResponse 404 (message "QR code not found"))
     | Some qrCode =>
         match findById prod_id (qr_product qrCode) (st_products st) with
         | None =>
             ret (mkResponse 404 (message "Associated product not found"))
         | Some product =>
             if notOwner (prod_farmer product) user
             then ret (mkResponse 403
                         (message "Not authorized to deactivate this QR code"))
             else
               let qrCode := set_qr_isActive false qrCode in
               write "qrcodes" (with_qrcodes (updateDoc qr_id qrCode)) ;;;
               ret (json (JObj [("success", JBool true);
                                ("message",
                                 JStr "QR code deactivated successfully");
                                ("data", JQRCode qrCode)]))
         end
     end)
    (fun _ => ret (mkResponse 500 (message "Server error"))).

(** ** controllers/product.controller.js, updating and certifications *)

Record UpdateProductReq := mkUpdateProductReq {
  up_id : ObjectId;
  up_user : User;
  up_name : option string;
  up_description : option string;
  up_productType : option string;
  up_isOrganic : option bool;
  up_harvestDate : option string;
  up_location : option Value;
  up_isActive : option bool
}.

Definition updateProduct (req : UpdateProductReq) : Async Response :=
  tryCatch
    (st <- getStore ;;
     match findById prod_id (up_id req) (st_products st) with
     | None => ret (mkResponse 404 (message "Product not found"))
     | Some p =>
         if notOwner (prod_farmer p) (up_user req)
         then ret (mkResponse 403
                     (message "Not authorized to update this product"))
         else
           let product :=
             mkProductDoc (prod_id p)
               (assign (up_name req) (prod_name p))
               (assign (up_description req) (prod_description p))
               (assign (up_productType req) (prod_productType p))
               (default (prod_isOrganic p) (up_isOrganic req))
               (prod_farmer p) (prod_blockchainProductId p)
               (prod_transactionHash p)
               (if falsy (up_harvestDate req) then prod_harvestDate p
                else up_harvestDate req)
               (match up_location req with
                | Some v => if truthy v then v else prod_location p
                | None => prod_location p
                end)
               (prod_certifications p) (prod_batches p) (prod_qrCode p)
               (default (prod_isActive p) (up_isActive req)) in
           write "products" (with_products (updateDoc prod_id product)) ;;;
           ret (json (JObj [("success", JBool true);
                            ("data", JProduct product)]))
     end)
    (fun _ => ret (mkResponse 500 (message "Server error"))).

Definition set_prod_certifications (certifications : list ObjectId)
    (p : ProductDoc) : ProductDoc :=
  mkProductDoc (prod_id p) (prod_name p) (prod_description p)
    (prod_productType p) (prod_isOrganic p) (prod_farmer p)
    (prod_blockchainProductId p) (prod_transactionHash p) (prod_harvestDate p)
    (prod_location p) certifications (prod_batches p) (prod_qrCode p)
    (prod_isActive p).

(** The inner [try] of [addCertification]: the ledger call; when it throws,
    the pushed id is popped again and the product saved once more. *)
Definition addCertificationOnBlockchain (pushed : ProductDoc)
    (certificationId : ObjectId) : Async Response :=
  tryCatch
    (web3 <- initWeb3 ;;
     contract <- initContract None ;;
     account <- getDefaultAccount None ;;
     result <- send "addCertification"
                 [AOptStr (prod_blockchainProductId pushed);
                  AStr certificationId] ;;
     ret (json (JObj [("success", JBool true);
                      ("data", JProduct pushed);
                      ("blockchainData",
                       JObj [("transactionHash",
                              JStr (transactionHash result))])])))
    (fun blockchainErr =>
       let popped :=
         set_prod_certifications (removelast (prod_certifications pushed))
                                 pushed in
       write "products" (with_products (updateDoc prod_id popped)) ;;;
       ret (mkResponse 500
              (JObj [("message",
                      JStr "Failed to add certification to blockchain");
                     ("error", JStr blockchainErr)]))).

Definition addCertification (id : ObjectId) (user : User)
    (certificationId : ObjectId) : Async Response :=
  tryCatch
    (st <- getStore ;;
     match findById prod_id id (st_products st) with
     | None => ret (mkResponse 404 (message "Product not found"))
     | Some product =>
         if notOwner (prod_farmer product) user
         then ret (mkResponse 403
                     (message "Not authorized to update this product"))
         else if includes (prod_certifications product) certificationId
         then ret (mkResponse 400
                     (message "Certification already added to this product"))
         else
           let product :=
             set_prod_certifications
               (prod_certifications product ++ [certificationId]) product in
           write "products" (with_products (updateDoc prod_id product)) ;;;
           addCertificationOnBlockchain product certificationId
     end)
    (fun _ => ret (mkResponse 500 (message "Server error"))).

(** [array.splice(array.indexOf(x), 1)] when [x] occurs in the array. *)
Fixpoint removeFirst (x : string) (l : list string) : list string :=
  match l with
  | [] => []
  | y :: rest => if String.eqb y x then rest else y :: removeFirst x rest
  end.

Definition removeCertification (id : ObjectId) (user : User)
    (certId : ObjectId) : Async Response :=
  tryCatch
    (st <- getStore ;;
     match findById prod_id id (st_products st) with
     | None => ret (mkResponse 404 (message "Product not found"))
     | Some product =>
         if notOwner (prod_farmer product) user
         then ret (mkResponse 403
                     (message "Not authorized to update this product"))
         else if negb (includes (prod_certifications product) certId)
         then ret (mkResponse 404
                     (message "Certification not found on this product"))
         else
           let product :=
             set_prod_certifications
               (removeFirst certId (prod_certifications product)) product in
           write "products" (with_products (updateDoc prod_id product)) ;;;
           ret (json (JObj [("success", JBool true);
                            ("data", JProduct product)]))
     end)
    (fun _ => ret (mkResponse 500 (message "Server error"))).

(** ** controllers/batch.controller.js, updating *)

Record UpdateBatchReq := mkUpdateBatchReq {
  ub_id : ObjectId;
  ub_user : User;
  ub_harvestDate : option string;
  ub_processingMethods : option (list string);
  ub_products : option (list ObjectId)
}.

Definition set_prod_batches (batches : list ObjectId) (p : ProductDoc)
    : ProductDoc :=
  mkProductDoc (prod_id p) (prod_name p) (prod_description p)
    (prod_productType p) (prod_isOrganic p) (prod_farmer p)
    (prod_blockchainProductId p) (prod_transactionHash p) (prod_harvestDate p)
    (prod_location p) (prod_certifications p) batches (prod_qrCode p)
    (prod_isActive p).

(** [updateMany({ batches: b, _id: { $nin: products } },
                { $pull: { batches: b } })] *)
Definition pullBatchFrom (products : list ObjectId) (batch : ObjectId)
    (docs : list ProductDoc) : list ProductDoc :=
  map (fun d =>
         if includes (prod_batches d) batch && negb (includes products (prod_id d))
         then set_prod_batches
                (filter (fun b => b ≠ batch) (prod_batches d)) d
         else d) docs.

(** [updateMany({ _id: { $in: products }, batches: { $ne: b } },
                { $push: { batches: b } })] *)
Definition pushBatchToNew (products : list ObjectId) (batch : ObjectId)
    (docs : list ProductDoc) : list ProductDoc :=
  map (fun d =>
         if includes products (prod_id d) && negb (includes (prod_batches d) batch)
         then push_prod_batch batch d
         else d) docs.

Definition updateBatch (req : UpdateBatchReq) : Async Response :=
  tryCatch
    (st <- getStore ;;
     match findById batch_id (ub_id req) (st_batches st) with
     | None => ret (mkResponse 404 (message "Batch not found"))
     | Some b =>
         let isHandler :=
           existsb (fun handler => String.eqb handler (user_id (ub_user req)))
                   (batch_handlers b) in
         if negb isHandler
            && negb (String.eqb (user_role (ub_user req)) "admin")
         then ret (mkResponse 403
                     (message "Not authorized to update this batch"))
         else
           let updated (products : list ObjectId) :=
             mkBatchDoc (batch_id b)
               (if falsy (ub_harvestDate req) then batch_harvestDate b
                else default (batch_harvestDate b) (ub_harvestDate req))
               (default (batch_processingMethods b) (ub_processingMethods req))
               products (batch_blockchainBatchId b) (batch_transactionHash b)
               (batch_handlers b) (batch_traceabilityRecords b)
               (batch_isActive b) in
           match ub_products req with
           | Some products =>
               if negb (Nat.eqb (countIn products (st_products st))
                                (length products))
               then ret (mkResponse 400
                           (message "One or more products not found"))
               else
                 write "products"
                   (with_products
                      (fun docs =>
                         Return (pullBatchFrom products (batch_id b) docs))) ;;;
                 write "products"
                   (with_products
                      (fun docs =>
                         Return (pushBatchToNew products (batch_id b) docs))) ;;;
                 write "batches"
                   (with_batches (updateDoc batch_id (updated products))) ;;;
                 ret (json (JObj [("success", JBool true);
                                  ("data", JBatch (updated products))]))
           | None =>
               write "batches"
                 (with_batches
                    (updateDoc batch_id (updated (batch_products b)))) ;;;
               ret (json (JObj [("success", JBool true);
                                ("data", JBatch (updated (batch_products b)))]))
           end
     end)
    (fun _ => ret (mkResponse 500 (message "Server error"))).

(** ** utils/blockchain.js, the other wrappers

    Each wrapper sets the adapter up, submits or queries, and turns a
    failure into [success: false]. *)
Module blockchainService.

Definition failure (error : string) : Json :=
  JObj [("success", JBool false); ("error", JStr error)].

(** [fromAddress || await getDefaultAccount(web3)] picks the sending
    account; the set-up before it is the same either way. *)
Definition createProduct (name description productType : string)
    (batchId : option Z) (isOrganic : bool) (fromAddress : option string)
    : Async Json :=
  tryCatch
    (connect ;;;
     result <- send "createProduct"
                 [AStr name; AStr description; AStr productType;
                  ANum (match batchId with
                        | Some b => if b =? 0 then 0 else b
                        | None => 0
                        end);
                  ABool isOrganic] ;;
     ret (JObj [("success", JBool true);
                ("productId", JOptStr (returnedId result));
                ("transactionHash", JStr (transactionHash result))]))
    (fun error => ret (failure error)).

Definition createBatch (productIds : option (list string))
    (harvestDate : option string) (processingMethods : option (list string))
    (fromAddress : option string) : Async Json :=
  tryCatch
    (connect ;;;
     result <- send "createBatch"
                 [AStringified (VArr (map VStr (default [] productIds)));
                  AStr (if falsy harvestDate then ""
                        else default "" harvestDate);
                  AStringified
                    (VArr (map VStr (default [] processingMethods)))] ;;
     ret (JObj [("success", JBool true);
                ("batchId", JOptStr (returnedId result));
                ("transactionHash", JStr (transactionHash result))]))
    (fun error => ret (failure error)).

Definition addCertification (name issuer certificateHash : string)
    (issueDate expiryDate : Date) : Async Json :=
  tryCatch
    (connect ;;;
     result <- send "addCertification"
                 [AStr name; AStr issuer; AStr certificateHash;
                  ANum (issueDate / 1000); ANum (expiryDate / 1000)] ;;
     ret (JObj [("success", JBool true);
                ("certificationId", JOptStr (returnedId result));
                ("transactionHash", JStr (transactionHash result))]))
    (fun error => ret (failure error)).

Definition addTraceabilityRecord (batchId action locationName latitude
                                  longitude additionalDetails notes : string)
    (fromAddress : option string) : Async Json :=
  tryCatch
    (connect ;;;
     result <- send "addTraceabilityRecord"
                 [AStr batchId; AStr action; AStr locationName; AStr latitude;
                  AStr longitude; AStr additionalDetails; AStr notes] ;;
     ret (JObj [("success", JBool true);
                ("transactionHash", JStr (transactionHash result))]))
    (fun error => ret (failure error)).

Definition registerQRCode (qrCodeHash productId : string) : Async Json :=
  tryCatch
    (connect ;;;
     result <- send "registerQRCode" [AStr qrCodeHash; AStr productId] ;;
     ret (JObj [("success", JBool true);
                ("transactionHash", JStr (transactionHash result))]))
    (fun error => ret (failure error)).

Definition verifyQRCode (qrCodeHash : string) : Async Json :=
  tryCatch
    (connect ;;;
     isRegistered <- call "verifyQRCode" [AStr qrCodeHash] ;;
     ret (JObj [("success", JBool true);
                ("isRegistered", JBool isRegistered)]))
    (fun error => ret (failure error)).

End blockchainService.

(** The wrappers, with their arguments. *)
Inductive Wrapper :=
  | WRegisterFarmer (farmerId name locationName latitude longitude
                     additionalDetails : string)
  | WCreateProduct (name description productType : string)
                   (batchId : option Z) (isOrganic : bool)
                   (fromAddress : option string)
  | WCreateBatch (productIds : option (list string))
                 (harvestDate : option string)
                 (processingMethods : option (list string))
                 (fromAddress : option string)
  | WAddCertification (name issuer certificateHash : string)
                      (issueDate expiryDate : Date)
  | WAddTraceabilityRecord (batchId action locationName latitude longitude
                            additionalDetails notes : string)
                           (fromAddress : option string)
  | WRegisterQRCode (qrCodeHash productId : string)
  | WVerifyQRCode (qrCodeHash : string).

Definition invoke (w : Wrapper) : Async Json :=
  match w with
  | WRegisterFarmer f n l la lo ad => registerFarmer f n l la lo ad
  | WCreateProduct n d t b o from =>
      blockchainService.createProduct n d t b o from
  | WCreateBatch p h m from => blockchainService.createBatch p h m from
  | WAddCertification n i h d e => blockchainService.addCertification n i h d e
  | WAddTraceabilityRecord b a l la lo ad n from =>
      blockchainService.addTraceabilityRecord b a l la lo ad n from
  | WRegisterQRCode h p => blockchainService.registerQRCode h p
  | WVerifyQRCode h => blockchainService.verifyQRCode h
  end.

(** Whether the ledger side of a wrapper goes through in [env]. *)
Definition ledgerAnswers (w : Wrapper) (env : Env) : bool :=
  match env_connect env with
  | Some _ => false
  | None =>
      match w with
      | WVerifyQRCode _ =>
          match env_call env with Answer _ => true | CallFailed _ => false end
      | _ =>
          match env_send env with Mined _ => true | SendFailed _ => false end
      end
  end.

End Backend.

(* ===================================================================== *)
(** * Concrete states and requests                                        *)
(* ===================================================================== *)

Module ContractScenario.
Import Contract.

(** The storage a call leaves behind (unchanged when it reverts). *)
Definition after {A} (t : Tx A) (s : State) : State :=
  match t s with Ok _ s' => s' | Revert _ => s end.

(** The deployer is the administrator; account 2 is a registered farmer who
    is later also granted the retailer role. *)
Definition deployer : Msg := mkMsg 1 1700000000.

Definition grower : Msg := mkMsg 2 1700000500.

Definition deployed : State := after (constructor deployer) initial.

Definition withFarmer : State :=
  after (registerFarmer deployer 2 "Green Acres" "Valley" "45.1" "7.6" "")
        deployed.

Definition withRetailingFarmer : State :=
  after (grantRole deployer RETAILER_ROLE 2) withFarmer.

Definition withBatch : State :=
  after (createBatch grower [] "2024-05-15" ["Washing"]) withRetailingFarmer.

(** One certification was issued; no product was ever created. *)
Definition withCertification : State :=
  after (addCertification deployer "USDA Organic" "USDA"
           "usda-organic-cert-hash" 1672531200 1704067200) deployed.

(** The resolver as the specification words it: first match wins in the
    order farmer, processor, distributor, retailer. *)
Definition resolveByPrecedence (has : Role -> bool) : string :=
  if has FARMER_ROLE then "FARMER"
  else if has PROCESSOR_ROLE then "PROCESSOR"
  else if has DISTRIBUTOR_ROLE then "DISTRIBUTOR"
  else if has RETAILER_ROLE then "RETAILER"
  else "UNKNOWN".

End ContractScenario.

Module BackendScenario.
Import Backend.

Definition noFault : nat -> option string := fun _ => None.
Definition receipt : Receipt := mkReceipt "0x5e1f" (Some "7").

(** The ledger node and the store answer every call they are sent. *)
Definition healthy : Env :=
  mkEnv 1710000000000 "65f0a1" "9c1d" "https://farm.example"
        None (Mined receipt) (Answer true) None noFault.
(** The ledger node rejects every transaction it is sent. *)
Definition ledgerDown : Env :=
  mkEnv 1710000000000 "65f0a1" "9c1d" "https://farm.example"
        None (SendFailed "execution reverted") (Answer true) None noFault.

Definition farmer : User := mkUser "u-farmer" "farmer".
Definition administrator : User := mkUser "u-admin" "admin".

Definition usda : CertificationDoc :=
  mkCertificationDoc "c-usda" "USDA Organic" "USDA" "usda-organic-cert-hash"
    1672531200000 1704067200000 None (Some "1") (Some "0x01") true.
(** Revoked, and past its expiry date at [env_now healthy]. *)
Definition lapsed : CertificationDoc :=
  mkCertificationDoc "c-eu" "EU Organic" "European Union" "eu-organic-cert-hash"
    1675209600000 1706745600000 None (Some "2") (Some "0x02") false.

Definition apples : ProductDoc :=
  mkProductDoc "p-apples" "Organic Apples" "Fresh organic apples" "Fruit" true
    "u-farmer" (Some "1") (Some "0x03") None (VStr "Farm A") ["c-usda"] []
    None true.

Definition label : QRCodeDoc :=
  mkQRCodeDoc "q-1" "a3f9" "p-apples" "/qrcodes/qr_a3f9.png"
    "https://farm.example/verify/a3f9" "0x04" true [].
Definition withdrawn : QRCodeDoc :=
  mkQRCodeDoc "q-2" "b771" "p-apples" "/qrcodes/qr_b771.png"
    "https://farm.example/verify/b771" "0x05" false [].

Definition seeded : Store :=
  mkStore [apples] [] [usda; lapsed] [label; withdrawn].

Definition issueRequest : CreateCertificationReq :=
  mkCreateCertificationReq [] "Fair Trade" "Fair Trade International"
    "fair-trade-cert-hash" 1677628800000 1709251200000 None.

Definition scanLabel : VerifyQRCodeReq :=
  mkVerifyQRCodeReq "a3f9" "10.0.0.7" "curl" None.

Definition scanWithdrawn : VerifyQRCodeReq :=
  mkVerifyQRCodeReq "b771" "10.0.0.7" "curl" None.

(** The rule of the specification: admin, or any required capability. *)
Definition specAuthorize (capabilities requiredSet : list string) : bool :=
  includes capabilities "admin" || existsb (includes requiredSet) capabilities.

(** The order of checks as the specification words it: expiry first. *)
Definition specVerdict (now : Date) (c : CertificationDoc) : string :=
  if cert_expiryDate c <? now then "expired"
  else if negb (cert_isValid c) then "revoked"
  else "verified".

(** A response that carries [verified] and [message]. *)
Definition answers (r : Response) (code : Z) (verified : bool) (msg : string)
    : Prop :=
  status r = code
  ∧ jfield "verified" (body r) = Some (JBool verified)
  ∧ jfield "message" (body r) = Some (JStr msg).

(** The ledger call fails: the adapter cannot be set up, or the submission
    is rejected. *)
Definition ledgerFails (env : Env) : Prop :=
  is_Some (env_connect env) ∨ ∃ message, env_send env = SendFailed message.



End BackendScenario.

Module ContractOutcome.
Import Contract.

(** The batch a successful [addTraceabilityRecord] leaves in its slot. *)
Definition recorded (m : Msg) (s : State) (b : Batch)
    (action locationName latitude longitude additionalDetails notes : string)
    : Batch :=
  mkBatch (b_id b) (b_productIds b) (b_harvestDate b) (b_processingMethods b)
    (if handlerExists (b_handlerIds b) (sender m)
     then b_handlerIds b else b_handlerIds b ++ [sender m])
    (b_traceabilityRecords b ++
       [mkRecord (block_timestamp m) (sender m)
          (resolveHandlerRole (fun role => hasRole role (sender m) s))
          action (mkLocation locationName latitude longitude additionalDetails)
          notes])
    (b_isActive b).

(** Nothing recorded in [s] is lost in [s']: logs, handler lists, product
    lists and attached certifications only grow at their end, an issued
    certification stays as it is, a registered QR code stays registered. *)
Definition keepsHistory (s s' : State) : Prop :=
  (∀ k, b_traceabilityRecords (batches s !!! k)
          `prefix_of` b_traceabilityRecords (batches s' !!! k)
        ∧ b_handlerIds (batches s !!! k)
            `prefix_of` b_handlerIds (batches s' !!! k)
        ∧ b_productIds (batches s !!! k)
            `prefix_of` b_productIds (batches s' !!! k)
        ∧ p_certificationIds (products s !!! k)
            `prefix_of` p_certificationIds (products s' !!! k)
        ∧ (c_isValid (certifications s !!! k) = true ->
           certifications s' !!! k = certifications s !!! k))
  ∧ registeredQRCodes s ⊆ registeredQRCodes s'.

End ContractOutcome.

Module ContractCases.
Import Contract ContractScenario.

(** The administrator paused the contract after registering the farmer. *)
Definition pausedContract : State := after (pause deployer) withFarmer.

(** The farmer created a first product, and with it a first batch. *)
Definition withProduct : State :=
  after (createProduct grower "Organic Apples" "Fresh" "Fruit" 0 true)
        withFarmer.

(** A certification was issued after the first product was created. *)
Definition withIssued : State :=
  after (addCertification deployer "USDA Organic" "USDA"
           "usda-organic-cert-hash" 1672531200 1704067200) withProduct.

End ContractCases.

Module BackendCases.
Import Backend BackendScenario.

Definition processor : User := mkUser "u-processor" "processor".

(** A batch the farmer created, with no product in it yet. *)
Definition crate : BatchDoc :=
  mkBatchDoc "b-crate" "2024-03-01" ["washing"] [] (Some "1") (Some "0x06")
    ["u-farmer"]
    [mkRecordDoc "Batch Created" 1709251200000 (VStr "Farm A") None
       "u-farmer" (Some "farmer") "0x06"]
    true.

Definition stocked : Store :=
  mkStore [apples] [crate] [usda; lapsed] [label; withdrawn].

End BackendCases.

(* ===================================================================== *)
(** * Properties of the contract                                          *)
(* ===================================================================== *)

Module ContractProps.
Import Contract ContractScenario.

Ltac tx_unfold :=
  cbv [bind ret get modify require onlyRole whenNotPaused emit _setupRole].

Lemma nonEmpty_true (str : string) : str ≠ "" -> nonEmpty str = true.
Proof.
  intros H. unfold nonEmpty. apply negb_true_iff. by apply String.eqb_neq.
Qed.

Lemma createBatch_ok m s ids date methods :
  hasRole FARMER_ROLE (sender m) s = true ->
  paused s = false ->
  createBatch m ids date methods s =
    Ok (increment (batchIdCounter s))
       (mkState (roleMembers s) false (productIdCounter s)
          (increment (batchIdCounter s)) (certificationIdCounter s) (farmers s)
          (products s)
          (<[ increment (batchIdCounter s) :=
                mkBatch (increment (batchIdCounter s)) ids date methods
                  [sender m]
                  [mkRecord (block_timestamp m) (sender m) "FARMER"
                     "BATCH_CREATED" (f_location (farmers s !!! sender m))
                     "Initial batch creation"] true ]> (batches s))
          (certifications s) (registeredQRCodes s)
          (events s ++ [BatchCreated (increment (batchIdCounter s)) (sender m) ids])).
Proof.
  intros Hrole Hp. unfold createBatch. tx_unfold.
  rewrite Hrole. simpl. rewrite Hp. simpl. rewrite Hp. reflexivity.
Qed.

(** C8. When an active farmer calls [createProduct] with no batch id
    ([_batchId = 0]) on the unpaused contract with a non-empty name, the call
    succeeds, a new batch is created in the same transaction under the next
    batch id, the product list of that batch is exactly the new product, and
    the product's batch reference is that batch. *)
Theorem createProduct_without_batch m s name description productType isOrganic :
  hasRole FARMER_ROLE (sender m) s = true ->
  paused s = false ->
  name ≠ "" ->
  f_isActive (farmers s !!! sender m) = true ->
  ∃ productId s',
    createProduct m name description productType 0 isOrganic s = Ok productId s'
    ∧ productId = increment (productIdCounter s)
    ∧ batchIdCounter s' = increment (batchIdCounter s)
    ∧ p_batchId (products s' !!! productId) = increment (batchIdCounter s)
    ∧ batches s' !! increment (batchIdCounter s) =
        Some (mkBatch (increment (batchIdCounter s)) [productId] "" [] [sender m]
                [mkRecord (block_timestamp m) (sender m) "FARMER" "BATCH_CREATED"
                   (f_location (farmers s !!! sender m)) "Initial batch creation"]
                true).
Proof.
  intros Hrole Hp Hname Hactive.
  unfold createProduct.
  cbv [bind get require onlyRole whenNotPaused].
  rewrite Hrole; simpl. rewrite Hp; simpl.
  rewrite (nonEmpty_true _ Hname), Hactive; simpl.
  rewrite (createBatch_ok _ _ _ _ _ Hrole Hp).
  tx_unfold. simpl.
  eexists _, _. split; [reflexivity|]. simpl.
  repeat split.
  - by rewrite lookup_total_insert_eq.
  - rewrite lookup_insert_eq, lookup_total_insert_eq. reflexivity.
Qed.

Lemma createProduct_without_batch_witness :
  ∃ productId s',
    createProduct grower "Organic Apples" "Fresh" "Fruit" 0 true withFarmer
      = Ok productId s'
    ∧ productId = 1
    ∧ batchIdCounter s' = 1
    ∧ p_batchId (products s' !!! productId) = 1
    ∧ b_productIds (batches s' !!! 1) = [productId].
Proof.
  destruct (createProduct_without_batch grower withFarmer "Organic Apples"
              "Fresh" "Fruit" true)
    as (productId & s' & Hcall & Hid & Hcounter & Hbatch & Hlist).
  - vm_compute. reflexivity.
  - reflexivity.
  - discriminate.
  - vm_compute. reflexivity.
  - exists productId, s'. rewrite Hcall.
    split; [reflexivity|]. split; [exact Hid|]. split; [exact Hcounter|].
    split; [exact Hbatch|].
    rewrite lookup_total_alt.
    change (increment (batchIdCounter withFarmer)) with 1 in Hlist.
    rewrite Hlist. reflexivity.
Defined.

(** The role recorded is the last one, in the order farmer, processor,
    distributor, retailer, that the sender holds. *)
Lemma resolveHandlerRole_last (has : Role -> bool) :
  resolveHandlerRole has =
    if has RETAILER_ROLE then "RETAILER"
    else if has DISTRIBUTOR_ROLE then "DISTRIBUTOR"
    else if has PROCESSOR_ROLE then "PROCESSOR"
    else if has FARMER_ROLE then "FARMER"
    else "UNKNOWN".
Proof.
  unfold resolveHandlerRole.
  by destruct (has RETAILER_ROLE), (has DISTRIBUTOR_ROLE),
       (has PROCESSOR_ROLE), (has FARMER_ROLE).
Qed.

(** C4 (as the contract has it). A sender holding at least one of the
    farmer, processor, distributor and retailer roles appends exactly one
    record to an existing active batch, and the handler role written in it
    follows the precedence retailer > distributor > processor > farmer: the
    last test that succeeds decides.  The role is "FARMER" exactly when the
    sender holds the farmer role and none of the other three. *)
Theorem addTraceabilityRecord_handler_role m s batchId action locationName
    latitude longitude additionalDetails notes :
  paused s = false ->
  b_id (batches s !!! batchId) = batchId ->
  b_isActive (batches s !!! batchId) = true ->
  hasRole FARMER_ROLE (sender m) s || hasRole PROCESSOR_ROLE (sender m) s
    || hasRole DISTRIBUTOR_ROLE (sender m) s
    || hasRole RETAILER_ROLE (sender m) s = true ->
  ∃ s' record,
    addTraceabilityRecord m batchId action locationName latitude longitude
      additionalDetails notes s = Ok tt s'
    ∧ b_traceabilityRecords (batches s' !!! batchId) =
        b_traceabilityRecords (batches s !!! batchId) ++ [record]
    ∧ r_handlerId record = sender m
    ∧ r_handlerRole record =
        (if hasRole RETAILER_ROLE (sender m) s then "RETAILER"
         else if hasRole DISTRIBUTOR_ROLE (sender m) s then "DISTRIBUTOR"
         else if hasRole PROCESSOR_ROLE (sender m) s then "PROCESSOR"
         else "FARMER")
    ∧ (r_handlerRole record = "FARMER" <->
         hasRole FARMER_ROLE (sender m) s = true
         ∧ hasRole PROCESSOR_ROLE (sender m) s = false
         ∧ hasRole DISTRIBUTOR_ROLE (sender m) s = false
         ∧ hasRole RETAILER_ROLE (sender m) s = false).
Proof.
  intros Hp Hid Hactive Hrole.
  unfold addTraceabilityRecord. tx_unfold.
  rewrite Hp; simpl. rewrite Hid, Z.eqb_refl, Hactive, Hrole; simpl.
  rewrite lookup_total_insert_eq.
  set (record := mkRecord _ _ _ _ _ _).
  assert (Hrec : ∀ s',
    b_traceabilityRecords (batches s' !!! batchId) =
      b_traceabilityRecords (batches s !!! batchId) ++ [record] ->
    b_traceabilityRecords (batches s' !!! batchId) =
      b_traceabilityRecords (batches s !!! batchId) ++ [record]
    ∧ r_handlerId record = sender m
    ∧ r_handlerRole record =
        (if hasRole RETAILER_ROLE (sender m) s then "RETAILER"
         else if hasRole DISTRIBUTOR_ROLE (sender m) s then "DISTRIBUTOR"
         else if hasRole PROCESSOR_ROLE (sender m) s then "PROCESSOR"
         else "FARMER")
    ∧ (r_handlerRole record = "FARMER" <->
         hasRole FARMER_ROLE (sender m) s = true
         ∧ hasRole PROCESSOR_ROLE (sender m) s = false
         ∧ hasRole DISTRIBUTOR_ROLE (sender m) s = false
         ∧ hasRole RETAILER_ROLE (sender m) s = false)).
  { intros s' Hs'. split; [exact Hs'|]. split; [reflexivity|].
    subst record. cbn [r_handlerRole]. rewrite resolveHandlerRole_last.
    destruct (hasRole RETAILER_ROLE (sender m) s),
      (hasRole DISTRIBUTOR_ROLE (sender m) s),
      (hasRole PROCESSOR_ROLE (sender m) s),
      (hasRole FARMER_ROLE (sender m) s); try discriminate Hrole;
      (split; [reflexivity|]); split; try (intros H; discriminate H);
      try (intros (? & ? & ? & ?); discriminate); auto. }
  destruct (handlerExists _ _); simpl.
  - eexists _, record. split; [reflexivity|]. apply Hrec. simpl.
    by rewrite lookup_total_insert_eq.
  - eexists _, record. split; [reflexivity|]. apply Hrec. simpl.
    by rewrite !lookup_total_insert_eq.
Qed.

Lemma addTraceabilityRecord_handler_role_witness :
  ∃ s' record,
    addTraceabilityRecord grower 1 "HARVESTED" "Valley" "45.1" "7.6" "" "ripe"
      withBatch = Ok tt s'
    ∧ b_traceabilityRecords (batches s' !!! 1) =
        b_traceabilityRecords (batches withBatch !!! 1) ++ [record]
    ∧ r_handlerRole record = "RETAILER".
Proof.
  destruct (addTraceabilityRecord_handler_role grower withBatch 1 "HARVESTED"
              "Valley" "45.1" "7.6" "" "ripe")
    as (s' & record & Hcall & Hrecords & _ & Hrole & _).
  - reflexivity.
  - vm_compute. reflexivity.
  - vm_compute. reflexivity.
  - vm_compute. reflexivity.
  - exists s', record. split; [exact Hcall|]. split; [exact Hrecords|].
    rewrite Hrole. vm_compute. reflexivity.
Defined.

(** C4, counterexample.  Account 2 holds both the farmer and the retailer
    role; first-match precedence would answer "FARMER", the record written
    by the contract says "RETAILER". *)
Lemma addTraceabilityRecord_farmer_and_retailer :
  hasRole FARMER_ROLE (sender grower) withBatch = true
  ∧ hasRole RETAILER_ROLE (sender grower) withBatch = true
  ∧ resolveByPrecedence (fun role => hasRole role (sender grower) withBatch)
      = "FARMER"
  ∧ match addTraceabilityRecord grower 1 "HARVESTED" "Valley" "45.1" "7.6" ""
            "ripe" withBatch with
    | Ok _ s' =>
        r_handlerRole <$> last (b_traceabilityRecords (batches s' !!! 1))
    | Revert _ => None
    end = Some "RETAILER".
Proof. vm_compute. repeat split; reflexivity. Qed.

(** C5.  Attaching to an id that was never allocated.  No product exists
    (the product counter is 0), certification 1 is valid; the existence test
    [products[0].id == 0] passes on the empty slot, the call succeeds and
    certification 1 is pushed onto the list of product 0.  For certification
    id 0, equally unknown, the call is rejected as "not valid" rather than
    as non-existent. *)
Lemma addCertificationToProduct_product_zero :
  productIdCounter withCertification = 0
  ∧ products withCertification !! 0 = None
  ∧ c_isValid (certifications withCertification !!! 1) = true
  ∧ match addCertificationToProduct deployer 0 1 withCertification with
    | Ok _ s' => p_certificationIds <$> products s' !! 0
    | Revert _ => None
    end = Some [1]
  ∧ certifications withCertification !! 0 = None
  ∧ addCertificationToProduct deployer 0 0 withCertification
      = Revert "Certification is not valid".
Proof. vm_compute. repeat split; reflexivity. Qed.

(** An invalid certification is never attached: the call reverts, and a
    reverted call leaves storage as it was. *)
Lemma addCertificationToProduct_requires_valid m s productId certificationId :
  c_isValid (certifications s !!! certificationId) = false ->
  ∃ reason,
    addCertificationToProduct m productId certificationId s = Revert reason.
Proof.
  intros Hinvalid. unfold addCertificationToProduct. tx_unfold.
  destruct (hasRole ADMIN_ROLE (sender m) s); simpl; [|eauto].
  destruct (paused s); simpl; [eauto|].
  destruct (_ =? productId); simpl; [|eauto].
  destruct (_ =? certificationId); simpl; [|eauto].
  rewrite Hinvalid. simpl. eauto.
Qed.

(** For every id other than 0 the existence tests do reject an empty
    slot. *)
Lemma addCertificationToProduct_unknown_nonzero m s productId certificationId :
  productId ≠ 0 ->
  products s !! productId = None ∨ certificationId ≠ 0
                                   ∧ certifications s !! certificationId = None ->
  ∃ reason,
    addCertificationToProduct m productId certificationId s = Revert reason.
Proof.
  intros Hp Hmissing. unfold addCertificationToProduct. tx_unfold.
  destruct (hasRole ADMIN_ROLE (sender m) s); simpl; [|eauto].
  destruct (paused s); simpl; [eauto|].
  destruct Hmissing as [Hnone | [Hc Hnone]].
  - rewrite lookup_total_alt, Hnone.
    destruct productId; [done| |]; simpl; eauto.
  - destruct (_ =? productId); simpl; [|eauto].
    rewrite lookup_total_alt, Hnone.
    destruct certificationId; [done| |]; simpl; eauto.
Qed.
End ContractProps.

(* ===================================================================== *)
(** * Properties of the backend                                           *)
(* ===================================================================== *)

Module BackendProps.
Import Backend BackendScenario.

Ltac run :=
  cbv [exec start perform tryCatch bind ret throw ask getStore log connect
       initWeb3 initContract getDefaultAccount pushScanHistory validated
       send call returnValue toFile write];
  cbn [run_store run_writes run_trace].

Ltac step :=
  match goal with
  | |- context [match ?x with _ => _ end] =>
      lazymatch x with
      | context [match _ with _ => _ end] => fail
      | _ => destruct x eqn:?
      end
  end.

Lemma includes_elem_of (xs : list string) (x : string) :
  includes xs x = true <-> x ∈ xs.
Proof.
  unfold includes. rewrite existsb_exists. split.
  - intros (y & Hin & Heq). apply String.eqb_eq in Heq. subst y.
    by apply list_elem_of_In.
  - intros Hin. exists x. split; [by apply list_elem_of_In|apply String.eqb_refl].
Qed.

(** C9 (as the middleware has it). For an authenticated principal,
    [authorize] lets the request through if and only if the list of allowed
    roles is empty or contains the principal's role; the role "admin" is
    treated like any other. *)
Theorem authorize_allows (roles : RolesArg) (user : User) :
  authorize roles (Some user) = Next
  <-> toArray roles = [] ∨ user_role user ∈ toArray roles.
Proof.
  unfold authorize. rewrite <- includes_elem_of.
  destruct (toArray roles) as [|r rs].
  - simpl. split; [intros _; by left|done].
  - destruct (includes (r :: rs) (user_role user)); simpl.
    + split; [intros _; by right|done].
    + split; [discriminate|]. intros [H|H]; discriminate H.
Qed.

Lemma authorize_allows_witness :
  authorize (RolesArray ["farmer"; "processor"; "admin"]) (Some administrator)
  = Next.
Proof.
  apply (authorize_allows (RolesArray ["farmer"; "processor"; "admin"])
           administrator).
  right. apply includes_elem_of. reflexivity.
Defined.

(** C9, counterexample.  An administrator asks for a resource reserved to
    farmers and processors: the rule of the specification allows, the
    middleware answers 403. *)
Lemma authorize_admin_denied :
  specAuthorize [user_role administrator] ["farmer"; "processor"] = true
  ∧ authorize (RolesArray ["farmer"; "processor"]) (Some administrator)
    = Respond (mkResponse 403 (message "Not authorized to access this resource")).
Proof. split; reflexivity. Qed.


(** *** Collections *)
Section CollectionFacts.
Context {D : Type} (key : D -> string).

Lemma findBy_Some (p : D -> bool) (docs : list D) (d : D) :
  findBy p docs = Some d -> d ∈ docs ∧ p d = true.
Proof.
  induction docs as [|x docs IH]; simpl; [discriminate|].
  destruct (p x) eqn:Hp.
  - intros [= ->]. split; [apply list_elem_of_here|exact Hp].
  - intros H. destruct (IH H). split; [by apply list_elem_of_further|done].
Qed.

Lemma findBy_None (p : D -> bool) (docs : list D) :
  findBy p docs = None <-> ∀ d, d ∈ docs -> p d = false.
Proof.
  induction docs as [|x docs IH]; simpl.
  - split; [intros _ d Hd; by apply elem_of_nil in Hd|done].
  - destruct (p x) eqn:Hp.
    + split; [discriminate|]. intros H.
      specialize (H x (list_elem_of_here _ _)). congruence.
    + rewrite IH. split.
      * intros H d Hd. apply elem_of_cons in Hd as [->|Hd]; auto.
      * intros H d Hd. apply H. by apply list_elem_of_further.
Qed.

Lemma findById_key (id : string) (docs : list D) (d : D) :
  findById key id docs = Some d -> key d = id.
Proof.
  intros H. apply findBy_Some in H as [_ H]. by apply String.eqb_eq.
Qed.


End CollectionFacts.

(** *** Certification verification *)

Lemma verifyCertification_requires_hash (hash : option string) (env : Env)
    (st : Store) :
  falsy hash = true ->
  exec (verifyCertification hash) env st
  = (Return (mkResponse 400 (message "Certificate hash is required")), start st).
Proof. intros H. unfold verifyCertification. run. by rewrite H. Qed.

(** C3 (as the controller has it). For a non-empty hash the request is
    answered without touching the store or the ledger: 404 "not found" when
    no certification carries the hash; otherwise "revoked" when [isValid] is
    false, whatever the expiry date; otherwise "expired" when the expiry date
    is before now; otherwise verified.  Exactly one reason is reported. *)
Theorem verifyCertification_verdict (hash : string) (env : Env) (st : Store) :
  hash ≠ "" ->
  ∃ r, exec (verifyCertification (Some hash)) env st = (Return r, start st)
    ∧ match findBy (fun d => String.eqb (cert_certificateHash d) hash)
                   (st_certifications st) with
      | None => answers r 404 false "Certificate not found"
      | Some c =>
          (cert_isValid c = false ->
             answers r 200 false "Certificate has been revoked")
          ∧ (cert_isValid c = true -> cert_expiryDate c < env_now env ->
             answers r 200 false "Certificate has expired")
          ∧ (cert_isValid c = true -> env_now env <= cert_expiryDate c ->
             answers r 200 true "Certificate is valid")
      end.
Proof.
  intros Hhash. unfold verifyCertification. run. simpl.
  apply String.eqb_neq in Hhash. rewrite Hhash.
  destruct (findBy _ _) as [c|].
  - destruct (cert_isValid c); simpl.
    + destruct (Z.ltb_spec (cert_expiryDate c) (env_now env)).
      * eexists. split; [reflexivity|]. repeat split; (discriminate || lia || auto).
      * eexists. split; [reflexivity|]. repeat split; (discriminate || lia || auto).
    + eexists. split; [reflexivity|]. repeat split; (discriminate || auto).
  - eexists. split; [reflexivity|]. repeat split.
Qed.

Lemma verifyCertification_verdict_witness :
  ∃ r, exec (verifyCertification (Some "usda-organic-cert-hash")) healthy seeded
       = (Return r, start seeded)
    ∧ answers r 200 false "Certificate has expired".
Proof.
  destruct (verifyCertification_verdict "usda-organic-cert-hash" healthy seeded)
    as (r & Hrun & Hcase); [discriminate|].
  exists r. split; [exact Hrun|].
  simpl in Hcase. apply Hcase; reflexivity.
Defined.

(** C3, counterexample.  A certification that is both revoked and past its
    expiry date: expiry-first would report "expired", the controller reports
    "revoked". *)
Lemma verifyCertification_revoked_and_expired :
  cert_isValid lapsed = false
  ∧ cert_expiryDate lapsed < env_now healthy
  ∧ specVerdict (env_now healthy) lapsed = "expired"
  ∧ fst (exec (verifyCertification (Some "eu-organic-cert-hash")) healthy seeded)
    = Return (json (JObj [("verified", JBool false);
                          ("message", JStr "Certificate has been revoked");
                          ("certification", JCertification lapsed)])).
Proof. repeat split; reflexivity. Qed.

(** *** QR code verification *)

(** C7. A hash with no QR record is answered 404 with [verified: false] and
    "QR code not found"; a hash whose record is inactive is answered with
    [verified: false] and "QR code has been deactivated".  In both cases the
    handler returns with an empty effect trace: the ledger is not queried,
    whatever it would have answered, and the store is not written. *)
Theorem verifyQRCode_unknown_or_deactivated (req : VerifyQRCodeReq) (env : Env)
    (st : Store) :
  let found := findBy (fun d => String.eqb (qr_hash d) (vq_hash req))
                      (st_qrcodes st) in
  found = None ∨ (∃ q, found = Some q ∧ qr_isActive q = false) ->
  ∃ r, exec (verifyQRCode req) env st = (Return r, start st)
    ∧ run_trace (snd (exec (verifyQRCode req) env st)) = []
    ∧ match found with
      | None => answers r 404 false "QR code not found"
      | Some q => answers r 200 false "QR code has been deactivated"
                  ∧ jfield "qrCode" (body r) = Some (JQRCode q)
      end.
Proof.
  intros found H. subst found. unfold verifyQRCode. run. simpl.
  destruct H as [-> | (q & -> & Hq)].
  - eexists. split; [reflexivity|]. repeat split.
  - rewrite Hq. simpl. eexists. split; [reflexivity|]. repeat split.
Qed.

Lemma verifyQRCode_unknown_or_deactivated_witness :
  env_call healthy = Answer true
  ∧ ∃ r, exec (verifyQRCode scanWithdrawn) healthy seeded
         = (Return r, start seeded)
      ∧ answers r 200 false "QR code has been deactivated".
Proof.
  split; [reflexivity|].
  destruct (verifyQRCode_unknown_or_deactivated scanWithdrawn healthy seeded)
    as (r & Hrun & _ & Hcase).
  - right. exists withdrawn. split; reflexivity.
  - exists r. split; [exact Hrun|]. simpl in Hcase. apply Hcase.
Defined.


(** *** Soft deletion *)




(** *** Ledger first, store second *)

Ltac leaf :=
  simpl in *; intros; repeat split; auto; try discriminate; try congruence.

(** C2. In every run of the five controllers that write to both sides
    (product, batch and certification creation, traceability append, QR
    registration), each store write comes after a ledger submission; and
    when the ledger call fails no store write is attempted and the store is
    exactly what it was.  Farmer registration, which [utils/blockchain.js]
    carries out, submits to the ledger and never writes to the store; on a
    ledger failure it reports [success: false]. *)
Theorem ledger_failure_is_atomic :
  (∀ (op : Operation) (env : Env) (st : Store),
     let out := exec (perform op) env st in
     ledgerFirst false (run_trace (snd out)) = true
     ∧ (ledgerFails env ->
        run_store (snd out) = st
        ∧ run_writes (snd out) = 0%nat
        ∧ filter (fun e => isStoreWrite e = true) (run_trace (snd out)) = []))
  ∧ (∀ (farmerId name locationName latitude longitude additionalDetails : string)
       (env : Env) (st : Store),
       let out := exec (registerFarmer farmerId name locationName latitude
                          longitude additionalDetails) env st in
       run_store (snd out) = st
       ∧ run_writes (snd out) = 0%nat
       ∧ (ledgerFails env ->
          ∃ message,
            fst out = Return (JObj [("success", JBool false);
                                    ("error", JStr message)]))).
Proof.
  split.
  - intros op env st out. subst out. split.
    + destruct op as [req|req|req|req|req]; run;
        [unfold createProduct | unfold createBatch | unfold createCertification
        | unfold addTraceabilityRecord | unfold generateQRCode];
        run; repeat step; reflexivity.
    + intros [[message Hfail] | [message Hfail]];
        destruct op as [req|req|req|req|req]; run;
        [unfold createProduct | unfold createBatch | unfold createCertification
        | unfold addTraceabilityRecord | unfold generateQRCode
        | unfold createProduct | unfold createBatch | unfold createCertification
        | unfold addTraceabilityRecord | unfold generateQRCode];
        run; rewrite ?Hfail; repeat step; leaf.
  - intros farmerId name locationName latitude longitude additionalDetails
      env st out. subst out. unfold registerFarmer. run.
    split; [repeat step; reflexivity|]. split; [repeat step; reflexivity|].
    intros [[message Hfail] | [message Hfail]]; rewrite Hfail.
    + eexists. reflexivity.
    + destruct (env_connect env); eexists; reflexivity.
Qed.

Lemma ledger_failure_is_atomic_witness :
  ledgerFails ledgerDown
  ∧ run_store (snd (exec (perform (CreateCertification issueRequest))
                      ledgerDown seeded)) = seeded
  ∧ fst (exec (perform (CreateCertification issueRequest)) ledgerDown seeded)
    = Return (serverError
                "Cannot read properties of undefined (reading 'eth')").
Proof.
  assert (Hfails : ledgerFails ledgerDown) by (right; eexists; reflexivity).
  split; [exact Hfails|].
  destruct ledger_failure_is_atomic as [Hops _].
  destruct (Hops (CreateCertification issueRequest) ledgerDown seeded)
    as [_ Hatomic].
  destruct (Hatomic Hfails) as (Hstore & _ & _).
  split; [exact Hstore|reflexivity].
Defined.

End BackendProps.

(* ===================================================================== *)
(** * Further properties of the contract                                  *)
(* ===================================================================== *)

Module ContractExtra.
Import Contract ContractScenario ContractOutcome ContractCases.

#[local] Arguments nonEmpty : simpl never.
#[local] Arguments hasRole : simpl never.
#[local] Arguments increment : simpl never.
#[local] Arguments resolveHandlerRole : simpl never.

Ltac tx_unfold_in H :=
  cbv [execute pause unpause grantRole revokeRole renounceRole registerFarmer
       createProduct createBatch addCertification addCertificationToProduct
       addTraceabilityRecord registerQRCode getProduct getBatch
       getCertification getFarmer _revokeRole bind ret get modify require
       onlyRole whenNotPaused emit _setupRole] in H.

Ltac tx_unfold_goal :=
  cbv [execute pause unpause grantRole revokeRole renounceRole registerFarmer
       createProduct createBatch addCertification addCertificationToProduct
       addTraceabilityRecord registerQRCode getProduct getBatch
       getCertification getFarmer _revokeRole bind ret get modify require
       onlyRole whenNotPaused emit _setupRole].

(** Every test a successful call went through, as hypotheses. *)
Ltac tx_inv H :=
  tx_unfold_in H;
  repeat match type of H with
         | context [if ?b then _ else _] =>
             destruct b eqn:?; cbv beta iota zeta in H; try discriminate H
         end;
  simplify_eq.

(** X1. While the contract is paused, every entry point that goes through
    whenNotPaused reverts, whoever the sender is and whatever the arguments:
    pause, registerFarmer, createProduct, createBatch, addCertification,
    addCertificationToProduct, addTraceabilityRecord and registerQRCode.
    Only unpause and the role administration are left. *)
Theorem paused_contract_rejects (m : Msg) (c : Call) (s : State) :
  paused s = true ->
  pausable c = true ->
  ∃ reason, execute m c s = Revert reason.
Proof.
  intros Hp Hc. destruct c; try discriminate Hc; tx_unfold_goal; rewrite ?Hp; cbn [negb];
    repeat match goal with
           | |- context [if ?b then _ else _] =>
               destruct b eqn:?; cbv beta iota zeta; rewrite ?Hp; cbn [negb]
           end; eauto.
Qed.

Lemma paused_contract_rejects_witness :
  paused pausedContract = true
  ∧ ∃ reason,
      execute grower (CreateBatch [] "2024-05-15" ["Washing"]) pausedContract
      = Revert reason.
Proof.
  split; [reflexivity|].
  apply (paused_contract_rejects grower (CreateBatch [] "2024-05-15" ["Washing"])
           pausedContract); reflexivity.
Defined.

(** X2. A call whose sender lacks the role its onlyRole modifier names
    (ADMIN_ROLE for pause, unpause, registerFarmer, addCertification,
    addCertificationToProduct and registerQRCode; FARMER_ROLE for
    createProduct and createBatch; DEFAULT_ADMIN_ROLE for grantRole and
    revokeRole) reverts with the access-control error, whatever the pause
    flag and the arguments are. *)
Theorem missing_role_rejects (m : Msg) (c : Call) (s : State) (role : Role) :
  requiredRole c = Some role ->
  hasRole role (sender m) s = false ->
  execute m c s = Revert "AccessControl: account is missing role".
Proof.
  intros Hc Hrole.
  destruct c; simpl in Hc; try discriminate Hc; injection Hc as <-;
    tx_unfold_goal; rewrite Hrole; reflexivity.
Qed.

Lemma missing_role_rejects_witness :
  hasRole ADMIN_ROLE (sender grower) withFarmer = false
  ∧ execute grower (AddCertification "USDA Organic" "USDA" "hash" 1 2) withFarmer
    = Revert "AccessControl: account is missing role".
Proof.
  split; [vm_compute; reflexivity|].
  apply (missing_role_rejects grower
           (AddCertification "USDA Organic" "USDA" "hash" 1 2) withFarmer
           ADMIN_ROLE); [reflexivity|vm_compute; reflexivity].
Defined.

(** *** Well-formed storage is kept *)

Lemma increment_room (n : Z) : 0 <= n -> n < MAX_UINT256 -> increment n = n + 1.
Proof.
  intros H0 H1. unfold increment, MAX_UINT256 in *.
  apply Z.mod_small. lia.
Qed.

Lemma WellFormed_ext (s s' : State) :
  productIdCounter s' = productIdCounter s ->
  batchIdCounter s' = batchIdCounter s ->
  certificationIdCounter s' = certificationIdCounter s ->
  products s' = products s ->
  batches s' = batches s ->
  certifications s' = certifications s ->
  WellFormed s -> WellFormed s'.
Proof.
  intros Hp Hb Hc Hps Hbs Hcs [H1 H2 H3 H4].
  constructor; rewrite ?Hp, ?Hb, ?Hc, ?Hps, ?Hbs, ?Hcs; assumption.
Qed.

Lemma WellFormed_initial : WellFormed initial.
Proof.
  constructor; simpl; [lia| | |]; intros k x H; by rewrite lookup_empty in H.
Qed.

(** A slot whose flag reads [true] was written. *)
Lemma active_batch_stored (s : State) (k : Z) :
  b_isActive (batches s !!! k) = true ->
  batches s !! k = Some (batches s !!! k).
Proof.
  rewrite lookup_total_alt. destruct (batches s !! k); [done|discriminate].
Qed.

Lemma WellFormed_createBatch m ids date methods s bid s' :
  WellFormed s -> roomLeft s ->
  createBatch m ids date methods s = Ok bid s' ->
  WellFormed s'
  ∧ bid = batchIdCounter s + 1
  ∧ batches s !! bid = None
  ∧ batches s' =
      <[ bid := mkBatch bid ids date methods [sender m]
                  [mkRecord (block_timestamp m) (sender m) "FARMER"
                     "BATCH_CREATED" (f_location (farmers s !!! sender m))
                     "Initial batch creation"] true ]> (batches s)
  ∧ products s' = products s
  ∧ productIdCounter s' = productIdCounter s
  ∧ certifications s' = certifications s
  ∧ registeredQRCodes s' = registeredQRCodes s.
Proof.
  intros [Hc Hb Hp Hcert] (Hr1 & Hr2 & Hr3) H. tx_inv H.
  rewrite (increment_room (batchIdCounter s)) by lia.
  assert (Hfresh : batches s !! (batchIdCounter s + 1) = None).
  { destruct (batches s !! (batchIdCounter s + 1)) as [b|] eqn:E; [|done].
    apply Hb in E. lia. }
  split; [|repeat split; auto].
  constructor; simpl.
  - lia.
  - intros k b. rewrite lookup_insert. case_decide as Hk.
    + intros [= <-]. subst k. simpl. repeat split; try lia.
      * apply NoDup_singleton.
      * discriminate.
    + intros E. apply Hb in E. intuition lia.
  - intros k p E Hk. destruct (Hp k p E Hk) as (H1 & H2 & b & Hb1 & Hb2).
    repeat split; auto; try lia. exists b. split; [|done].
    rewrite lookup_insert_ne; [done|]. apply Hb in Hb1. lia.
  - exact Hcert.
Qed.

(** What a successful [createProduct] went through and what it stored. *)
Lemma createProduct_inv m n d t bid0 o s pid s' :
  createProduct m n d t bid0 o s = Ok pid s' ->
  hasRole FARMER_ROLE (sender m) s = true
  ∧ paused s = false
  ∧ f_isActive (farmers s !!! sender m) = true
  ∧ ∃ s1 bid,
      (bid0 = 0 ∧ createBatch m [] "" [] s = Ok bid s1
       ∨ bid0 ≠ 0 ∧ b_isActive (batches s !!! bid0) = true
         ∧ bid = bid0 ∧ s1 = s)
      ∧ pid = increment (productIdCounter s1)
      ∧ s' = mkState (roleMembers s1) (paused s1) pid (batchIdCounter s1)
               (certificationIdCounter s1) (farmers s1)
               (<[ pid := mkProduct pid n d t (sender m) bid []
                            (block_timestamp m) o ]> (products s1))
               (<[ bid := push_productId pid (batches s1 !!! bid) ]>
                  (batches s1))
               (certifications s1) (registeredQRCodes s1)
               (events s1 ++ [ProductCreated pid n (sender m) bid]).
Proof.
  intros H. unfold createProduct in H.
  cbv [bind get require onlyRole whenNotPaused ret modify emit] in H.
  destruct (hasRole FARMER_ROLE (sender m) s) eqn:Hrole;
    cbv beta iota zeta in H; [|discriminate].
  destruct (paused s) eqn:Hp; cbv beta iota zeta in H; [discriminate|].
  simpl negb in H. cbv beta iota zeta in H.
  destruct (nonEmpty n); cbv beta iota zeta in H; [|discriminate].
  destruct (f_isActive (farmers s !!! sender m)) eqn:Hact;
    cbv beta iota zeta in H; [|discriminate].
  repeat split; auto.
  destruct (Z.eqb_spec bid0 0) as [->|Hne]; cbv beta iota zeta in H.
  - destruct (createBatch m [] "" [] s) as [bid s1|] eqn:Hcb; [|discriminate].
    simplify_eq. exists s1, bid. split; [by left|]. split; reflexivity.
  - destruct (b_isActive (batches s !!! bid0)) eqn:Hb;
      cbv beta iota zeta in H; [|discriminate].
    simplify_eq. exists s, bid0. split; [by right|]. split; reflexivity.
Qed.

(** Storing a new product in a batch that exists keeps storage
    well-formed. *)
Lemma WellFormed_store_product (s1 : State) (bid : Z) (b : Batch) (p : Product)
    (e : Event) :
  WellFormed s1 ->
  productIdCounter s1 < MAX_UINT256 ->
  batches s1 !! bid = Some b ->
  p_id p = productIdCounter s1 + 1 ->
  p_batchId p = bid ->
  WellFormed
    (mkState (roleMembers s1) (paused s1) (productIdCounter s1 + 1)
       (batchIdCounter s1) (certificationIdCounter s1) (farmers s1)
       (<[ productIdCounter s1 + 1 := p ]> (products s1))
       (<[ bid := push_productId (productIdCounter s1 + 1)
                    (batches s1 !!! bid) ]> (batches s1))
       (certifications s1) (registeredQRCodes s1) (events s1 ++ [e])).
Proof.
  intros [Hc Hb Hp Hcert] Hroom Hbid Hpid Hpb.
  rewrite lookup_total_alt, Hbid. simpl.
  constructor; simpl.
  - lia.
  - intros k b'. rewrite lookup_insert. case_decide as Hk.
    + intros [= <-]. subst k. apply Hb in Hbid. simpl. exact Hbid.
    + apply Hb.
  - intros k p'. rewrite lookup_insert. case_decide as Hk.
    + intros [= <-] _. subst k. rewrite Hpid, Hpb. repeat split; try lia.
      rewrite lookup_insert_eq. eexists. split; [reflexivity|].
      simpl. apply elem_of_app. right. apply list_elem_of_here.
    + intros E Hk0. destruct (Hp k p' E Hk0) as (H1 & H2 & b' & Hb1 & Hb2).
      repeat split; auto; try lia.
      rewrite lookup_insert. case_decide as Hkb.
      * eexists. split; [reflexivity|]. simpl.
        rewrite Hkb in Hbid. rewrite Hbid in Hb1. injection Hb1 as ->.
        apply elem_of_app. by left.
      * by exists b'.
  - exact Hcert.
Qed.

Lemma WellFormed_createProduct m n d t bid0 o s pid s' :
  WellFormed s -> roomLeft s ->
  createProduct m n d t bid0 o s = Ok pid s' ->
  WellFormed s'.
Proof.
  intros Hwf Hroom H.
  apply createProduct_inv in H
    as (_ & _ & _ & s1 & bid & Hbatch & -> & ->).
  destruct Hbatch as [[-> Hcb] | (Hne & Hact & -> & ->)].
  - destruct (WellFormed_createBatch _ _ _ _ _ _ _ Hwf Hroom Hcb)
      as (Hwf1 & -> & _ & Hbs & Hps & Hpc & _).
    destruct Hroom as (Hr1 & _).
    rewrite (increment_room (productIdCounter s1))
      by (rewrite Hpc; destruct Hwf as [Hc _ _ _]; lia).
    eapply WellFormed_store_product; eauto; try lia.
    rewrite Hbs. apply lookup_insert_eq.
  - destruct Hroom as (Hr1 & _).
    rewrite (increment_room (productIdCounter s))
      by (destruct Hwf as [Hc _ _ _]; lia).
    eapply WellFormed_store_product; eauto.
    by apply active_batch_stored.
Qed.

Lemma handlerExists_elem_of (handlerIds : list Z) (who : Z) :
  handlerExists handlerIds who = true <-> who ∈ handlerIds.
Proof.
  induction handlerIds as [|h rest IH]; simpl.
  - split; [discriminate|]. intros H. by apply elem_of_nil in H.
  - destruct (Z.eqb_spec h who) as [->|Hne].
    + split; [intros _; apply list_elem_of_here|done].
    + rewrite IH. split.
      * intros H. by apply list_elem_of_further.
      * intros H. apply elem_of_cons in H as [->|H]; [done|exact H].
Qed.

Lemma addTraceabilityRecord_inv m bid a l la lo ad n s s' :
  addTraceabilityRecord m bid a l la lo ad n s = Ok tt s' ->
  paused s = false
  ∧ ∃ b, batches s !! bid = Some b
      ∧ b_id b = bid ∧ b_isActive b = true
      ∧ s' = mkState (roleMembers s) (paused s) (productIdCounter s)
               (batchIdCounter s) (certificationIdCounter s) (farmers s)
               (products s)
               (<[ bid := recorded m s b a l la lo ad n ]> (batches s))
               (certifications s) (registeredQRCodes s)
               (events s ++ [TraceabilityRecordAdded bid (sender m) a]).
Proof.
  intros H. unfold addTraceabilityRecord in H.
  cbv [bind get require whenNotPaused ret modify emit] in H.
  destruct (paused s) eqn:Hp; cbv beta iota zeta in H; [discriminate|].
  simpl negb in H. cbv beta iota zeta in H.
  destruct (Z.eqb_spec (b_id (batches s !!! bid)) bid) as [Hid|];
    cbv beta iota zeta in H; [|discriminate].
  destruct (b_isActive (batches s !!! bid)) eqn:Hact;
    cbv beta iota zeta in H; [|discriminate].
  destruct (_ || _); cbv beta iota zeta in H; [|discriminate].
  split; [reflexivity|].
  pose proof (active_batch_stored _ _ Hact) as Hb.
  exists (batches s !!! bid). split; [exact Hb|]. split; [exact Hid|].
  split; [exact Hact|].
  simpl in H. rewrite lookup_total_insert_eq in H. simpl in H.
  unfold recorded.
  destruct (handlerExists (b_handlerIds (batches s !!! bid)) (sender m));
    simpl in H; simplify_eq; simpl; rewrite Hp.
  - reflexivity.
  - rewrite lookup_total_insert_eq, insert_insert_eq. reflexivity.
Qed.

Lemma addCertificationToProduct_inv m pid cid s s' :
  addCertificationToProduct m pid cid s = Ok tt s' ->
  p_id (products s !!! pid) = pid
  ∧ c_id (certifications s !!! cid) = cid
  ∧ c_isValid (certifications s !!! cid) = true
  ∧ s' = mkState (roleMembers s) (paused s) (productIdCounter s)
           (batchIdCounter s) (certificationIdCounter s) (farmers s)
           (<[ pid := push_certificationId cid (products s !!! pid) ]>
              (products s))
           (batches s) (certifications s) (registeredQRCodes s) (events s).
Proof.
  intros H. tx_inv H.
  repeat match goal with
         | H : (_ =? _) = true |- _ => apply Z.eqb_eq in H
         end.
  repeat split; auto.
Qed.

(** *** Every transaction keeps storage well-formed *)

(** X3. As long as no id counter is at its last value, every successful
    transaction keeps the storage well-formed: each stored batch,
    certification and product (other than key 0) carries its own key as id,
    the key lies between 1 and the matching counter, stored batches are
    active with no duplicate handler and at least one record, every
    product's batch exists and lists the product, and stored certifications
    are valid. *)
Theorem execute_keeps_well_formed (m : Msg) (c : Call) (s s' : State) :
  WellFormed s -> roomLeft s ->
  execute m c s = Ok tt s' ->
  WellFormed s'.
Proof.
  intros Hwf Hroom H. destruct c.
  - (* pause *) tx_inv H. by apply (WellFormed_ext s).
  - tx_inv H. by apply (WellFormed_ext s).
  - tx_inv H. by apply (WellFormed_ext s).
  - tx_inv H. by apply (WellFormed_ext s).
  - tx_inv H. by apply (WellFormed_ext s).
  - (* registerFarmer *) tx_inv H. by apply (WellFormed_ext s).
  - (* createProduct *)
    unfold execute in H. cbv [bind ret] in H.
    destruct (createProduct _ _ _ _ _ _ s) as [pid s1|] eqn:Hcp; [|discriminate].
    simplify_eq. eapply WellFormed_createProduct; eauto.
  - (* createBatch *)
    unfold execute in H. cbv [bind ret] in H.
    destruct (createBatch _ _ _ _ s) as [bid s1|] eqn:Hcb; [|discriminate].
    simplify_eq. by eapply WellFormed_createBatch.
  - (* addCertification *)
    destruct Hwf as [Hc Hb Hp Hcert]. destruct Hroom as (_ & _ & Hr).
    tx_inv H. rewrite (increment_room (certificationIdCounter s)) by lia.
    constructor; simpl; auto; [lia|].
    intros k c. rewrite lookup_insert. case_decide as Hk.
    + intros [= <-]. subst k. simpl. repeat split; lia.
    + intros E. apply Hcert in E. intuition lia.
  - (* addCertificationToProduct *)
    destruct Hwf as [Hc Hb Hp Hcert].
    apply addCertificationToProduct_inv in H as (Hid & _ & _ & ->).
    constructor; simpl; auto.
    intros k p. rewrite lookup_insert. case_decide as Hk.
    + intros [= <-] Hk0. subst k.
      assert (Hst : products s !! _productId = Some (products s !!! _productId)).
      { rewrite lookup_total_alt in Hid |- *.
        destruct (products s !! _productId); [done|]. simpl in Hid. congruence. }
      apply (Hp _ _ Hst Hk0).
    + apply Hp.
  - (* addTraceabilityRecord *)
    destruct Hwf as [Hc Hb Hp Hcert].
    apply addTraceabilityRecord_inv in H as (_ & b & Hst & Hid & Hact & ->).
    constructor; simpl; auto.
    + intros k b'. rewrite lookup_insert. case_decide as Hk.
      * intros [= <-]. subst k.
        destruct (Hb _ _ Hst) as (H1 & H2 & H3 & H4 & H5).
        unfold recorded; simpl. repeat split; auto; try lia.
        -- destruct (handlerExists (b_handlerIds b) (sender m)) eqn:He; [done|].
           apply NoDup_app. split; [done|]. split; [|apply NoDup_singleton].
           intros x Hx Hx'. apply list_elem_of_singleton in Hx' as ->.
           apply handlerExists_elem_of in Hx. congruence.
        -- intros Hnil. by apply app_eq_nil in Hnil as [_ ?].
      * apply Hb.
    + intros k p E Hk0. destruct (Hp k p E Hk0) as (H1 & H2 & b' & Hb1 & Hb2).
      repeat split; auto; try lia.
      rewrite lookup_insert. case_decide as Hkb.
      * eexists. split; [reflexivity|]. unfold recorded; simpl.
        rewrite Hkb in Hst. rewrite Hst in Hb1. by injection Hb1 as ->.
      * by exists b'.
  - (* registerQRCode *) tx_inv H. by apply (WellFormed_ext s).
Qed.

Lemma WellFormed_withFarmer : WellFormed withFarmer.
Proof. apply (WellFormed_ext initial); [reflexivity..|apply WellFormed_initial]. Qed.

Lemma roomLeft_withFarmer : roomLeft withFarmer.
Proof. repeat split; vm_compute; reflexivity. Qed.

Lemma execute_keeps_well_formed_witness :
  ∃ s', execute grower (CreateProduct "Organic Apples" "Fresh" "Fruit" 0 true)
          withFarmer = Ok tt s'
    ∧ WellFormed s'.
Proof.
  destruct (execute grower (CreateProduct "Organic Apples" "Fresh" "Fruit" 0 true)
              withFarmer) as [[] s'|] eqn:E; [|vm_compute in E; discriminate E].
  exists s'. split; [reflexivity|].
  exact (execute_keeps_well_formed grower _ withFarmer s'
           WellFormed_withFarmer roomLeft_withFarmer E).
Defined.

(** *** Nothing recorded is lost *)

Lemma keepsHistory_same (s s' : State) :
  batches s' = batches s -> products s' = products s ->
  certifications s' = certifications s ->
  registeredQRCodes s ⊆ registeredQRCodes s' ->
  keepsHistory s s'.
Proof.
  intros Hb Hp Hc Hq. split; [|exact Hq].
  intros k. rewrite Hb, Hp, Hc. repeat split; reflexivity.
Qed.

Lemma keepsHistory_trans (s s1 s' : State) :
  keepsHistory s s1 -> keepsHistory s1 s' -> keepsHistory s s'.
Proof.
  intros [H1 Hq1] [H2 Hq2]. split; [|by etrans].
  intros k. destruct (H1 k) as (A1 & B1 & C1 & D1 & E1).
  destruct (H2 k) as (A2 & B2 & C2 & D2 & E2).
  repeat split; try (etrans; eassumption).
  intros Hv. rewrite E2; [by apply E1|]. rewrite E1; done.
Qed.

Lemma keepsHistory_createBatch m ids date methods s bid s' :
  WellFormed s -> roomLeft s ->
  createBatch m ids date methods s = Ok bid s' ->
  keepsHistory s s'.
Proof.
  intros Hwf Hroom H.
  destruct (WellFormed_createBatch _ _ _ _ _ _ _ Hwf Hroom H)
    as (_ & _ & Hfresh & Hbs & Hps & _ & Hcs & Hqs).
  split; [|by rewrite Hqs].
  intros k. rewrite Hbs, Hps, Hcs.
  destruct (decide (k = bid)) as [->|Hne].
  - rewrite lookup_total_insert_eq, (lookup_total_alt (batches s)), Hfresh.
    simpl. repeat split; try apply prefix_nil; reflexivity.
  - rewrite lookup_total_insert_ne by done. repeat split; reflexivity.
Qed.

(** X4. No successful transaction rewrites what was recorded (from
    well-formed storage with room in the counters): for every batch the
    traceability records, the handler ids and the product ids after the call
    are those before it with entries added at the end, a product's
    certification ids only grow at the end, an issued certification is left
    as it is, and a registered QR code stays registered. *)
Theorem execute_keeps_history (m : Msg) (c : Call) (s s' : State) :
  WellFormed s -> roomLeft s ->
  execute m c s = Ok tt s' ->
  keepsHistory s s'.
Proof.
  intros Hwf Hroom H. destruct c.
  - tx_inv H. by apply keepsHistory_same.
  - tx_inv H. by apply keepsHistory_same.
  - tx_inv H. by apply keepsHistory_same.
  - tx_inv H. by apply keepsHistory_same.
  - tx_inv H. by apply keepsHistory_same.
  - tx_inv H. by apply keepsHistory_same.
  - (* createProduct *)
    unfold execute in H. cbv [bind ret] in H.
    destruct (createProduct _ _ _ _ _ _ s) as [pid s2|] eqn:Hcp; [|discriminate].
    simplify_eq.
    apply createProduct_inv in Hcp
      as (_ & _ & _ & s1 & bid & Hbatch & -> & ->).
    assert (H1 : keepsHistory s s1 ∧ WellFormed s1
                 ∧ productIdCounter s1 = productIdCounter s).
    { destruct Hbatch as [[-> Hcb] | (Hne & Hact & -> & ->)].
      - split; [by eapply keepsHistory_createBatch|].
        by destruct (WellFormed_createBatch _ _ _ _ _ _ _ Hwf Hroom Hcb)
          as (? & _ & _ & _ & _ & ? & _).
      - split; [by apply keepsHistory_same|done]. }
    destruct H1 as (Hk1 & Hwf1 & Hpc).
    apply (keepsHistory_trans _ s1); [exact Hk1|].
    assert (Hfresh : products s1 !! increment (productIdCounter s1) = None).
    { destruct Hwf1 as [Hc1 _ Hp1 _]. destruct Hroom as (Hr & _).
      rewrite increment_room by lia.
      destruct (products s1 !! (productIdCounter s1 + 1)) as [p|] eqn:E; [|done].
      apply Hp1 in E; lia. }
    split; [|done]. intros k. simpl. repeat split.
    + destruct (decide (k = bid)) as [->|Hne].
      * rewrite lookup_total_insert_eq. reflexivity.
      * rewrite lookup_total_insert_ne by done. reflexivity.
    + destruct (decide (k = bid)) as [->|Hne].
      * rewrite lookup_total_insert_eq. reflexivity.
      * rewrite lookup_total_insert_ne by done. reflexivity.
    + destruct (decide (k = bid)) as [->|Hne].
      * rewrite lookup_total_insert_eq. simpl. by apply prefix_app_r.
      * rewrite lookup_total_insert_ne by done. reflexivity.
    + destruct (decide (k = increment (productIdCounter s1))) as [->|Hne].
      * rewrite lookup_total_insert_eq, lookup_total_alt, Hfresh. simpl.
        reflexivity.
      * rewrite lookup_total_insert_ne by done. reflexivity.
  - (* createBatch *)
    unfold execute in H. cbv [bind ret] in H.
    destruct (createBatch _ _ _ _ s) as [bid s1|] eqn:Hcb; [|discriminate].
    simplify_eq. by eapply keepsHistory_createBatch.
  - (* addCertification *)
    destruct Hwf as [Hc Hb Hp Hcert]. destruct Hroom as (_ & _ & Hr).
    tx_inv H. split; [|done]. intros k. simpl.
    repeat split; try reflexivity.
    rewrite increment_room by lia.
    destruct (decide (k = certificationIdCounter s + 1)) as [->|Hne].
    + rewrite (lookup_total_alt (certifications s)).
      destruct (certifications s !! _) as [c|] eqn:E; [|discriminate].
      apply Hcert in E. lia.
    + by rewrite lookup_total_insert_ne.
  - (* addCertificationToProduct *)
    apply addCertificationToProduct_inv in H as (_ & _ & _ & ->).
    split; [|done]. intros k. simpl. repeat split; try reflexivity.
    destruct (decide (k = _productId)) as [->|Hne].
    + rewrite lookup_total_insert_eq. simpl. by apply prefix_app_r.
    + by rewrite lookup_total_insert_ne.
  - (* addTraceabilityRecord *)
    apply addTraceabilityRecord_inv in H as (_ & b & Hst & _ & _ & ->).
    split; [|done]. intros k. simpl.
    destruct (decide (k = _batchId)) as [->|Hne].
    + rewrite lookup_total_insert_eq, (lookup_total_alt (batches s)), Hst.
      unfold recorded; simpl. repeat split; try reflexivity.
      * by apply prefix_app_r.
      * destruct (handlerExists _ _); [reflexivity|by apply prefix_app_r].
    + rewrite lookup_total_insert_ne by done. repeat split; reflexivity.
  - (* registerQRCode *)
    tx_inv H. apply keepsHistory_same; simpl; auto. set_solver.
Qed.

Lemma execute_keeps_history_witness :
  ∃ s', execute grower (CreateProduct "Organic Apples" "Fresh" "Fruit" 0 true)
          withFarmer = Ok tt s'
    ∧ keepsHistory withFarmer s'.
Proof.
  destruct (execute grower (CreateProduct "Organic Apples" "Fresh" "Fruit" 0 true)
              withFarmer) as [[] s'|] eqn:E; [|vm_compute in E; discriminate E].
  exists s'. split; [reflexivity|].
  exact (execute_keeps_history grower _ withFarmer s'
           WellFormed_withFarmer roomLeft_withFarmer E).
Defined.

(** *** The QR registry *)

(** X5. registerQRCode by an admin on the unpaused contract, with a
    non-empty hash that is not yet registered and a product that exists,
    succeeds; afterwards verifyQRCode answers true for that hash and what it
    answered before for every other hash, and registering the same hash
    again reverts with 'QR code already registered' whatever product is
    named. *)
Theorem registerQRCode_registers (m : Msg) (hash : string) (productId : Z)
    (s : State) :
  hasRole ADMIN_ROLE (sender m) s = true ->
  paused s = false ->
  hash ≠ "" ->
  verifyQRCode hash s = false ->
  p_id (products s !!! productId) = productId ->
  ∃ s', registerQRCode m hash productId s = Ok tt s'
    ∧ verifyQRCode hash s' = true
    ∧ (∀ other, other ≠ hash -> verifyQRCode other s' = verifyQRCode other s)
    ∧ (∀ m' productId',
         hasRole ADMIN_ROLE (sender m') s' = true ->
         registerQRCode m' hash productId' s'
         = Revert "QR code already registered").
Proof.
  intros Hrole Hp Hne Hnew Hprod. unfold verifyQRCode in *.
  tx_unfold_goal. rewrite Hrole, Hp. simpl.
  assert (Hn : nonEmpty hash = true).
  { unfold nonEmpty. apply negb_true_iff. by apply String.eqb_neq. }
  rewrite Hn, Hnew, Hprod, Z.eqb_refl. simpl.
  eexists. split; [reflexivity|]. simpl. repeat split.
  - apply bool_decide_eq_true. set_solver.
  - intros other Hother. apply bool_decide_ext.
    rewrite elem_of_union, elem_of_singleton.
    split; [intros [?|?]; done|by right].
  - intros m' productId' Hrole'.
    replace (hasRole ADMIN_ROLE (sender m') s) with true in Hrole'
      by (symmetry; exact Hrole').
    assert (Hr : hasRole ADMIN_ROLE (sender m') s = true) by exact Hrole'.
    clear Hrole'. unfold hasRole in Hr. unfold hasRole. simpl.
    rewrite Hr. simpl. rewrite Hp. simpl.
    rewrite (bool_decide_eq_true_2 (hash ∈ {[hash]} ∪ registeredQRCodes s))
      by set_solver.
    reflexivity.
Qed.

Lemma registerQRCode_registers_witness :
  ∃ s', registerQRCode deployer "a3f9" 1 withProduct = Ok tt s'
    ∧ verifyQRCode "a3f9" s' = true.
Proof.
  destruct (registerQRCode_registers deployer "a3f9" 1 withProduct)
    as (s' & Hcall & Hverified & _); try (vm_compute; reflexivity).
  - discriminate.
  - exists s'. split; [exact Hcall|exact Hverified].
Defined.

(** *** A batch and its first record *)

Lemma addTraceabilityRecord_ok m bid a l la lo ad n s b :
  paused s = false ->
  batches s !! bid = Some b ->
  b_id b = bid ->
  b_isActive b = true ->
  hasRole FARMER_ROLE (sender m) s || hasRole PROCESSOR_ROLE (sender m) s
    || hasRole DISTRIBUTOR_ROLE (sender m) s
    || hasRole RETAILER_ROLE (sender m) s = true ->
  addTraceabilityRecord m bid a l la lo ad n s
  = Ok tt (mkState (roleMembers s) (paused s) (productIdCounter s)
             (batchIdCounter s) (certificationIdCounter s) (farmers s)
             (products s)
             (<[ bid := recorded m s b a l la lo ad n ]> (batches s))
             (certifications s) (registeredQRCodes s)
             (events s ++ [TraceabilityRecordAdded bid (sender m) a])).
Proof.
  intros Hp Hst Hid Hact Hrole.
  assert (E : batches s !!! bid = b) by (by rewrite lookup_total_alt, Hst).
  unfold addTraceabilityRecord.
  cbv [bind get require whenNotPaused ret modify emit].
  rewrite Hp. cbn [negb]. cbv beta iota zeta.
  rewrite E, Hid, Z.eqb_refl, Hact, Hrole. simpl.
  rewrite lookup_total_insert_eq. simpl. unfold recorded. rewrite ?Hp, ?E.
  destruct (handlerExists (b_handlerIds b) (sender m)); simpl;
    rewrite ?Hp, ?E.
  - reflexivity.
  - rewrite lookup_total_insert_eq, insert_insert_eq. reflexivity.
Qed.

(** X6. After a farmer creates a batch on the unpaused contract, the batch
    has that farmer as its only handler and one record; a traceability
    record added to it by the same account succeeds, leaves the handler list
    at that single entry (no duplicate) and gives two records,
    'BATCH_CREATED' followed by the new action. *)
Theorem createBatch_then_record (m1 m2 : Msg) (ids : list Z) (date : string)
    (methods : list string) (a l la lo ad n : string) (s : State) :
  hasRole FARMER_ROLE (sender m1) s = true ->
  paused s = false ->
  sender m2 = sender m1 ->
  ∃ bid s1 s2,
    createBatch m1 ids date methods s = Ok bid s1
    ∧ b_handlerIds (batches s1 !!! bid) = [sender m1]
    ∧ length (b_traceabilityRecords (batches s1 !!! bid)) = 1%nat
    ∧ addTraceabilityRecord m2 bid a l la lo ad n s1 = Ok tt s2
    ∧ b_handlerIds (batches s2 !!! bid) = [sender m1]
    ∧ length (b_traceabilityRecords (batches s2 !!! bid)) = 2%nat
    ∧ r_action <$> b_traceabilityRecords (batches s2 !!! bid)
      = ["BATCH_CREATED"; a].
Proof.
  intros Hrole Hp Hsender.
  eexists _, _, _. split; [by apply ContractProps.createBatch_ok|].
  cbn [batches]. rewrite lookup_total_insert_eq. cbn [b_handlerIds b_traceabilityRecords].
  split; [reflexivity|]. split; [reflexivity|].
  split.
  - eapply addTraceabilityRecord_ok.
    + reflexivity.
    + cbn [batches]. apply lookup_insert_eq.
    + reflexivity.
    + reflexivity.
    + unfold hasRole in *. cbn [roleMembers]. rewrite Hsender, Hrole.
      reflexivity.
  - cbn [batches]. rewrite lookup_total_insert_eq.
    unfold recorded. cbn [b_handlerIds b_traceabilityRecords].
    rewrite Hsender. cbn [handlerExists]. rewrite Z.eqb_refl.
    repeat split.
Qed.

Lemma createBatch_then_record_witness :
  ∃ bid s1 s2,
    createBatch grower [] "2024-05-15" ["Washing"] withFarmer = Ok bid s1
    ∧ addTraceabilityRecord grower bid "HARVESTED" "Valley" "45.1" "7.6" ""
        "ripe" s1 = Ok tt s2
    ∧ b_handlerIds (batches s2 !!! bid) = [sender grower]
    ∧ length (b_traceabilityRecords (batches s2 !!! bid)) = 2%nat.
Proof.
  destruct (createBatch_then_record grower grower [] "2024-05-15" ["Washing"]
              "HARVESTED" "Valley" "45.1" "7.6" "" "ripe" withFarmer)
    as (bid & s1 & s2 & H1 & _ & _ & H2 & H3 & H4 & _).
  - vm_compute. reflexivity.
  - reflexivity.
  - reflexivity.
  - exists bid, s1, s2. repeat split; assumption.
Defined.

(** *** The handler list of a batch *)

(** X7. A successful addTraceabilityRecord appends exactly one record to the
    batch and appends the sender to the batch's handler list only if the
    sender was not listed yet, so the sender is a handler afterwards; every
    other batch, all products and all certifications are unchanged. *)
Theorem addTraceabilityRecord_handlers (m : Msg) (bid : Z)
    (a l la lo ad n : string) (s s' : State) :
  addTraceabilityRecord m bid a l la lo ad n s = Ok tt s' ->
  b_handlerIds (batches s' !!! bid)
    = (if bool_decide (sender m ∈ b_handlerIds (batches s !!! bid))
       then b_handlerIds (batches s !!! bid)
       else b_handlerIds (batches s !!! bid) ++ [sender m])
  ∧ sender m ∈ b_handlerIds (batches s' !!! bid)
  ∧ length (b_traceabilityRecords (batches s' !!! bid))
    = S (length (b_traceabilityRecords (batches s !!! bid)))
  ∧ (∀ other, other ≠ bid -> batches s' !! other = batches s !! other)
  ∧ products s' = products s
  ∧ certifications s' = certifications s.
Proof.
  intros H. apply addTraceabilityRecord_inv in H as (_ & b & Hst & _ & _ & ->).
  simpl. rewrite lookup_total_insert_eq, (lookup_total_alt (batches s)), Hst.
  unfold recorded; simpl.
  destruct (handlerExists (b_handlerIds b) (sender m)) eqn:He.
  - pose proof (proj1 (handlerExists_elem_of _ _) He) as Hin.
    rewrite bool_decide_eq_true_2 by done.
    repeat split; auto.
    + rewrite length_app. simpl. lia.
    + intros other Hother. by rewrite lookup_insert_ne.
  - assert (Hnin : sender m ∉ b_handlerIds b).
    { intros Hin. apply handlerExists_elem_of in Hin. congruence. }
    rewrite bool_decide_eq_false_2 by done.
    repeat split; auto.
    + apply elem_of_app. right. apply list_elem_of_here.
    + rewrite length_app. simpl. lia.
    + intros other Hother. by rewrite lookup_insert_ne.
Qed.

Lemma addTraceabilityRecord_handlers_witness :
  ∃ s', addTraceabilityRecord grower 1 "HARVESTED" "Valley" "45.1" "7.6" ""
          "ripe" withBatch = Ok tt s'
    ∧ sender grower ∈ b_handlerIds (batches s' !!! 1)
    ∧ length (b_traceabilityRecords (batches s' !!! 1))
      = S (length (b_traceabilityRecords (batches withBatch !!! 1))).
Proof.
  destruct (addTraceabilityRecord grower 1 "HARVESTED" "Valley" "45.1" "7.6" ""
              "ripe" withBatch) as [[] s'|] eqn:E;
    [|vm_compute in E; discriminate E].
  exists s'. split; [reflexivity|].
  destruct (addTraceabilityRecord_handlers grower 1 "HARVESTED" "Valley" "45.1"
              "7.6" "" "ripe" withBatch s' E) as (_ & Hin & Hlen & _).
  split; [exact Hin|exact Hlen].
Defined.

(** *** A product for a batch that exists *)

(** X8. createProduct with a non-zero batch id, called by an active farmer
    with a non-empty name on the unpaused contract: if that batch is active
    the call succeeds, creates no batch, returns the next product id, stores
    the batch id on the product and appends the product id to the batch's
    product list; if the batch is unknown or inactive it reverts with 'Batch
    is not active'. *)
Theorem createProduct_in_batch (m : Msg) (name description productType : string)
    (batchId : Z) (isOrganic : bool) (s : State) :
  hasRole FARMER_ROLE (sender m) s = true ->
  paused s = false ->
  name ≠ "" ->
  f_isActive (farmers s !!! sender m) = true ->
  batchId ≠ 0 ->
  if b_isActive (batches s !!! batchId)
  then ∃ productId s',
         createProduct m name description productType batchId isOrganic s
         = Ok productId s'
         ∧ productId = increment (productIdCounter s)
         ∧ batchIdCounter s' = batchIdCounter s
         ∧ p_batchId (products s' !!! productId) = batchId
         ∧ b_productIds (batches s' !!! batchId)
           = b_productIds (batches s !!! batchId) ++ [productId]
  else createProduct m name description productType batchId isOrganic s
       = Revert "Batch is not active".
Proof.
  intros Hrole Hp Hname Hactive Hb.
  assert (Hn : nonEmpty name = true).
  { unfold nonEmpty. apply negb_true_iff. by apply String.eqb_neq. }
  unfold createProduct.
  cbv [bind get require onlyRole whenNotPaused ret modify emit].
  rewrite Hrole, Hp. simpl. rewrite Hn, Hactive. simpl.
  destruct (Z.eqb_spec batchId 0) as [|_]; [done|].
  destruct (b_isActive (batches s !!! batchId)); simpl; [|reflexivity].
  eexists _, _. split; [reflexivity|]. simpl. repeat split.
  - by rewrite lookup_total_insert_eq.
  - by rewrite lookup_total_insert_eq.
Qed.

Lemma createProduct_in_batch_witness :
  ∃ productId s',
    createProduct grower "Organic Pears" "Fresh" "Fruit" 1 true withBatch
    = Ok productId s'
    ∧ b_productIds (batches s' !!! 1)
      = b_productIds (batches withBatch !!! 1) ++ [productId].
Proof.
  pose proof (createProduct_in_batch grower "Organic Pears" "Fresh" "Fruit" 1
                true withBatch) as H.
  replace (b_isActive (batches withBatch !!! 1)) with true in H
    by (vm_compute; reflexivity).
  destruct H as (productId & s' & Hcall & _ & _ & _ & Hlist);
    try (vm_compute; reflexivity); try discriminate.
  exists productId, s'. split; [exact Hcall|exact Hlist].
Defined.

(** *** Registration makes a farmer *)

Lemma createProduct_succeeds m n d t o s :
  hasRole FARMER_ROLE (sender m) s = true ->
  paused s = false ->
  n ≠ "" ->
  f_isActive (farmers s !!! sender m) = true ->
  ∃ productId s', createProduct m n d t 0 o s = Ok productId s'.
Proof.
  intros Hrole Hp Hname Hactive.
  unfold createProduct.
  cbv [bind get require onlyRole whenNotPaused].
  rewrite Hrole; simpl. rewrite Hp; simpl.
  rewrite (ContractProps.nonEmpty_true _ Hname), Hactive; simpl.
  rewrite (ContractProps.createBatch_ok _ _ _ _ _ Hrole Hp).
  cbv [bind ret get modify emit]. eexists _, _. reflexivity.
Qed.

(** X9. registerFarmer by an admin on the unpaused contract with a non-zero
    address and a non-empty name succeeds; getFarmer then returns the farmer
    as registered (active, no product listed), the address holds
    FARMER_ROLE, and a createProduct by that address with a non-empty name
    and no batch id succeeds. *)
Theorem registerFarmer_enables (m : Msg) (farmerId : Z)
    (name locationName latitude longitude additionalDetails : string)
    (s : State) :
  hasRole ADMIN_ROLE (sender m) s = true ->
  paused s = false ->
  farmerId ≠ 0 ->
  name ≠ "" ->
  ∃ s', registerFarmer m farmerId name locationName latitude longitude
          additionalDetails s = Ok tt s'
    ∧ getFarmer farmerId s'
      = Ok (mkFarmer farmerId name
              (mkLocation locationName latitude longitude additionalDetails)
              [] true) s'
    ∧ hasRole FARMER_ROLE farmerId s' = true
    ∧ ∀ m' productName description productType isOrganic,
        sender m' = farmerId -> productName ≠ "" ->
        ∃ productId s'',
          createProduct m' productName description productType 0 isOrganic s'
          = Ok productId s''.
Proof.
  intros Hrole Hp Hf Hname.
  unfold registerFarmer.
  cbv [bind get require onlyRole whenNotPaused ret modify emit _setupRole].
  rewrite Hrole, Hp. simpl.
  destruct (Z.eqb_spec farmerId 0) as [|_]; [done|]. simpl.
  rewrite (ContractProps.nonEmpty_true _ Hname).
  eexists. split; [reflexivity|].
  assert (Hfr : ∀ st, roleMembers st = {[(FARMER_ROLE, farmerId)]} ∪ roleMembers s ->
                 hasRole FARMER_ROLE farmerId st = true).
  { intros st Hst. unfold hasRole. rewrite Hst.
    apply bool_decide_eq_true. apply elem_of_union_l.
    by apply elem_of_singleton. }
  split; [|split].
  - unfold getFarmer. cbv [bind get require ret].
    destruct (Z.eqb_spec farmerId 0) as [|_]; [done|]. simpl.
    rewrite lookup_total_insert_eq. simpl. by rewrite Z.eqb_refl.
  - by apply Hfr.
  - intros m' productName description productType isOrganic Hs Hpn.
    apply createProduct_succeeds; auto.
    + rewrite Hs. by apply Hfr.
    + simpl. rewrite Hs. by rewrite lookup_total_insert_eq.
Qed.

Lemma registerFarmer_enables_witness :
  ∃ s', registerFarmer deployer 2 "Green Acres" "Valley" "45.1" "7.6" ""
          deployed = Ok tt s'
    ∧ hasRole FARMER_ROLE 2 s' = true.
Proof.
  destruct (registerFarmer_enables deployer 2 "Green Acres" "Valley" "45.1"
              "7.6" "" deployed) as (s' & Hcall & _ & Hrole & _);
    try (vm_compute; reflexivity); try discriminate.
  exists s'. split; [exact Hcall|exact Hrole].
Defined.

(** *** Reading back what was created *)

(** X10. After a successful createProduct without batch id, getProduct of
    the returned id gives the product with the fields passed, the sender as
    farmer, the block time as creation time and no certification; getBatch
    of the product's batch succeeds, and that batch lists exactly this
    product, has the sender as its only handler and is active. *)
Theorem created_product_read_back (m : Msg)
    (name description productType : string) (isOrganic : bool) (s : State)
    (productId : Z) (s' : State) :
  createProduct m name description productType 0 isOrganic s
    = Ok productId s' ->
  ∃ batchId b,
    getProduct productId s'
      = Ok (mkProduct productId name description productType (sender m)
              batchId [] (block_timestamp m) isOrganic) s'
    ∧ getBatch batchId s' = Ok b s'
    ∧ b_productIds b = [productId]
    ∧ b_handlerIds b = [sender m]
    ∧ b_isActive b = true.
Proof.
  intros H. apply createProduct_inv in H
    as (Hrole & Hp & _ & s1 & bid & Hcase & Hpid & ->).
  destruct Hcase as [[_ Hcb] | [Hne _]]; [|done].
  rewrite (ContractProps.createBatch_ok _ _ _ _ _ Hrole Hp) in Hcb.
  injection Hcb as <- <-.
  eexists _, _. split.
  - unfold getProduct. cbv [bind get require ret]. cbn [products].
    rewrite lookup_total_insert_eq. cbn [p_id]. rewrite Z.eqb_refl.
    reflexivity.
  - unfold getBatch. cbv [bind get require ret]. cbn [batches].
    rewrite !lookup_total_insert_eq. cbn [b_id push_productId].
    rewrite Z.eqb_refl. repeat split.
Qed.

Lemma created_product_read_back_witness :
  ∃ batchId b,
    getProduct 1 withProduct
      = Ok (mkProduct 1 "Organic Apples" "Fresh" "Fruit" 2 batchId []
              1700000500 true) withProduct
    ∧ getBatch batchId withProduct = Ok b withProduct
    ∧ b_productIds b = [1]
    ∧ b_handlerIds b = [2]
    ∧ b_isActive b = true.
Proof.
  apply (created_product_read_back grower "Organic Apples" "Fresh" "Fruit"
           true withFarmer 1 withProduct).
  vm_compute. reflexivity.
Defined.

(** *** Attaching a certification twice *)

(** X11. addCertificationToProduct does not look at what is already
    attached: attaching the same valid certification to the same existing
    product twice succeeds both times, and getProduct then lists the
    certification id twice at the end of the product's certification ids. *)
Theorem addCertificationToProduct_repeats (m : Msg) (productId certificationId : Z)
    (s : State) :
  hasRole ADMIN_ROLE (sender m) s = true ->
  paused s = false ->
  p_id (products s !!! productId) = productId ->
  c_id (certifications s !!! certificationId) = certificationId ->
  c_isValid (certifications s !!! certificationId) = true ->
  ∃ s1 s2 p,
    addCertificationToProduct m productId certificationId s = Ok tt s1
    ∧ addCertificationToProduct m productId certificationId s1 = Ok tt s2
    ∧ getProduct productId s2 = Ok p s2
    ∧ p_certificationIds p
      = p_certificationIds (products s !!! productId)
        ++ [certificationId; certificationId].
Proof.
  intros Hrole Hp Hpid Hcid Hvalid.
  assert (Hstep : ∀ st,
            hasRole ADMIN_ROLE (sender m) st = true ->
            paused st = false ->
            p_id (products st !!! productId) = productId ->
            certifications st = certifications s ->
            addCertificationToProduct m productId certificationId st
            = Ok tt (set_products
                       <[ productId :=
                            push_certificationId certificationId
                              (products st !!! productId) ]> st)).
  { intros st Hr Hps Hid Hc. unfold addCertificationToProduct.
    cbv [bind get require onlyRole whenNotPaused ret modify].
    rewrite Hr, Hps. cbn [negb]. rewrite Hid, Hc, Hcid, Hvalid, !Z.eqb_refl.
    reflexivity. }
  eexists _, _, _. split; [apply Hstep; done|].
  split; [apply Hstep; try done|].
  { cbn [set_products products]. rewrite lookup_total_insert_eq.
    exact Hpid. }
  split.
  - unfold getProduct. cbv [bind get require ret].
    cbn [set_products products]. rewrite !lookup_total_insert_eq.
    cbn [p_id push_certificationId]. rewrite Hpid, Z.eqb_refl. reflexivity.
  - cbn [p_certificationIds push_certificationId]. by rewrite <- app_assoc.
Qed.

Lemma addCertificationToProduct_repeats_witness :
  ∃ s1 s2 p,
    addCertificationToProduct deployer 1 1 withIssued = Ok tt s1
    ∧ addCertificationToProduct deployer 1 1 s1 = Ok tt s2
    ∧ getProduct 1 s2 = Ok p s2
    ∧ p_certificationIds p = [1; 1].
Proof.
  apply (addCertificationToProduct_repeats deployer 1 1 withIssued);
    vm_compute; reflexivity.
Defined.

(** *** An issued certification *)

(** X12. After a successful addCertification, getCertification of the
    returned id gives the certification with the fields passed, marked
    valid; no product is changed; and an admin's addCertificationToProduct
    of that id to any existing product then succeeds and puts the id at the
    end of the product's certification ids. *)
Theorem issued_certification_read_back (m : Msg)
    (name issuer certificateHash : string) (issueDate expiryDate : Z)
    (s : State) (certificationId : Z) (s' : State) :
  addCertification m name issuer certificateHash issueDate expiryDate s
    = Ok certificationId s' ->
  getCertification certificationId s'
    = Ok (mkCertification certificationId name issuer certificateHash
            issueDate expiryDate true) s'
  ∧ products s' = products s
  ∧ ∀ m' productId,
      hasRole ADMIN_ROLE (sender m') s' = true ->
      p_id (products s' !!! productId) = productId ->
      ∃ s'',
        addCertificationToProduct m' productId certificationId s' = Ok tt s''
        ∧ p_certificationIds (products s'' !!! productId)
          = p_certificationIds (products s !!! productId) ++ [certificationId].
Proof.
  intros H. unfold addCertification in H.
  cbv [bind get require onlyRole whenNotPaused ret modify emit] in H.
  destruct (hasRole ADMIN_ROLE (sender m) s) eqn:Hrole;
    cbv beta iota zeta in H; [|discriminate].
  destruct (paused s) eqn:Hp; cbv beta iota zeta in H; [discriminate|].
  simpl negb in H. cbv beta iota zeta in H.
  destruct (nonEmpty name); cbv beta iota zeta in H; [|discriminate].
  destruct (nonEmpty issuer); cbv beta iota zeta in H; [|discriminate].
  destruct (nonEmpty certificateHash); cbv beta iota zeta in H;
    [|discriminate].
  injection H as <- <-.
  split; [|split; [reflexivity|]].
  - unfold getCertification. cbv [bind get require ret].
    cbn [certifications set_certifications set_certificationIdCounter].
    rewrite lookup_total_insert_eq. cbn [c_id]. rewrite Z.eqb_refl.
    reflexivity.
  - intros m' productId Hrole' Hpid.
    unfold addCertificationToProduct.
    cbv [bind get require onlyRole whenNotPaused ret modify].
    rewrite Hrole'.
    cbn [paused products certifications set_certifications
         set_certificationIdCounter set_products] in *.
    rewrite Hp. cbn [negb]. cbv beta iota. cbn [products certifications].
    rewrite Hpid, Z.eqb_refl. cbv beta iota. cbn [certifications].
    rewrite lookup_total_insert_eq. cbn [c_id c_isValid].
    rewrite Z.eqb_refl. cbv beta iota.
    eexists. split; [reflexivity|].
    cbn [products set_products]. rewrite lookup_total_insert_eq.
    reflexivity.
Qed.

Lemma issued_certification_read_back_witness :
  getCertification 1 withIssued
  = Ok (mkCertification 1 "USDA Organic" "USDA" "usda-organic-cert-hash"
          1672531200 1704067200 true) withIssued.
Proof.
  apply (issued_certification_read_back deployer "USDA Organic" "USDA"
           "usda-organic-cert-hash" 1672531200 1704067200 withProduct 1
           withIssued).
  vm_compute. reflexivity.
Defined.

End ContractExtra.

(* ===================================================================== *)
(** * Further properties of the backend                                   *)
(* ===================================================================== *)

Module BackendExtra.
Import Backend BackendScenario BackendCases.

Ltac unfold_run :=
  cbv [exec start tryCatch bind ret throw ask getStore log connect initWeb3
       initContract getDefaultAccount pushScanHistory validated send call
       returnValue toFile write];
  cbn [run_store run_writes run_trace st_products st_batches st_certifications
       st_qrcodes].

Ltac branch :=
  match goal with
  | |- context [match ?x with _ => _ end] =>
      lazymatch x with
      | context [match _ with _ => _ end] => fail
      | _ => destruct x eqn:?
      end
  end.

(** *** The role checks *)

(** X13. For an authenticated user, isAdmin lets through exactly the role
    'admin'; isFarmer, isProcessor, isDistributor and isRetailer let through
    exactly their own role or 'admin'; isStakeholder decides as
    authorize(['admin','farmer','processor','distributor','retailer']) and
    isFarmer as authorize(['farmer','admin']). *)
Theorem role_checks (user : User) :
  (isAdmin (Some user) = Next <-> user_role user = "admin")
  ∧ (isFarmer (Some user) = Next
     <-> user_role user = "farmer" ∨ user_role user = "admin")
  ∧ (isProcessor (Some user) = Next
     <-> user_role user = "processor" ∨ user_role user = "admin")
  ∧ (isDistributor (Some user) = Next
     <-> user_role user = "distributor" ∨ user_role user = "admin")
  ∧ (isRetailer (Some user) = Next
     <-> user_role user = "retailer" ∨ user_role user = "admin")
  ∧ (isStakeholder (Some user) = Next
     <-> authorize
           (RolesArray ["admin"; "farmer"; "processor"; "distributor";
                        "retailer"]) (Some user) = Next)
  ∧ (isFarmer (Some user) = Next
     <-> authorize (RolesArray ["farmer"; "admin"]) (Some user) = Next).
Proof.
  unfold isAdmin, isFarmer, isProcessor, isDistributor, isRetailer,
    isStakeholder, authorize, toArray, includes. cbn [existsb length Nat.eqb negb andb].
  rewrite !(String.eqb_sym (user_role user)).
  repeat split; intros H;
    repeat match goal with
           | |- context [String.eqb ?a ?b] =>
               destruct (String.eqb_spec a b)
           | H : context [String.eqb ?a ?b] |- _ =>
               destruct (String.eqb_spec a b)
           end; simpl in *; auto; try discriminate; try congruence;
    try (destruct H; congruence).
Qed.

Lemma role_checks_witness :
  isFarmer (Some administrator) = Next
  ∧ isStakeholder (Some farmer) = Next.
Proof.
  destruct (role_checks administrator) as (_ & Hfarmer & _).
  destruct (role_checks farmer) as (_ & _ & _ & _ & _ & Hstake & _).
  split.
  - apply Hfarmer. right. reflexivity.
  - apply Hstake. reflexivity.
Defined.

(** *** Collections: saving what was read *)
Section ReplaceFacts.
Context {D : Type} (key : D -> string).

Lemma replaceDoc_keys (doc : D) (docs docs' : list D) :
  replaceDoc key doc docs = Some docs' -> key <$> docs' = key <$> docs.
Proof.
  revert docs'. induction docs as [|x docs IH]; intros docs'; simpl;
    [discriminate|].
  destruct (String.eqb_spec (key x) (key doc)) as [E|E].
  - intros [= <-]. simpl. by rewrite E.
  - destruct (replaceDoc key doc docs) as [l|]; simpl; [|discriminate].
    intros [= <-]. rewrite !fmap_cons. f_equal. by apply IH.
Qed.

(** The document read by id, and found first by [p], is still found by
    both after it is saved with an update that [p] accepts. *)
Lemma replaceDoc_refind (p : D -> bool) (id : string) (docs : list D)
    (d d' : D) :
  findById key id docs = Some d ->
  findBy p docs = Some d ->
  key d' = id ->
  p d' = true ->
  ∃ docs', replaceDoc key d' docs = Some docs'
    ∧ findBy p docs' = Some d'
    ∧ findById key id docs' = Some d'.
Proof.
  intros Hid Hp Hkey Hpd'. subst id.
  induction docs as [|x docs IH]; [discriminate|].
  unfold findById in *. simpl in *.
  destruct (String.eqb_spec (key x) (key d')) as [E|E].
  - eexists. split; [reflexivity|]. simpl.
    rewrite Hpd'. split; [reflexivity|]. by rewrite String.eqb_refl.
  - destruct (p x) eqn:Hpx.
    + injection Hp as ->. apply BackendProps.findBy_Some in Hid as [_ Hid].
      apply String.eqb_eq in Hid. congruence.
    + destruct (IH Hid Hp) as (l & Hl & H1 & H2).
      rewrite Hl. eexists. split; [reflexivity|]. simpl.
      rewrite Hpx. apply String.eqb_neq in E. rewrite E. done.
Qed.

Lemma replaceDoc_reread (id : string) (docs : list D) (d d' : D) :
  findById key id docs = Some d ->
  key d' = id ->
  ∃ docs', replaceDoc key d' docs = Some docs'
    ∧ findById key id docs' = Some d'.
Proof.
  intros Hid Hkey.
  destruct (replaceDoc_refind (fun x => String.eqb (key x) id) id docs d d')
    as (docs' & H1 & _ & H2); auto.
  - rewrite Hkey. apply String.eqb_refl.
  - by exists docs'.
Qed.



Lemma findById_unique (d : D) (docs : list D) :
  NoDup (key <$> docs) -> d ∈ docs -> findById key (key d) docs = Some d.
Proof.
  induction docs as [|x docs IH]; intros Hnd Hin.
  - by apply elem_of_nil in Hin.
  - rewrite fmap_cons in Hnd. apply NoDup_cons in Hnd as [Hx Hnd].
    unfold findById in *. simpl.
    destruct (String.eqb_spec (key x) (key d)) as [E|E].
    + apply elem_of_cons in Hin as [->|Hin]; [done|].
      exfalso. apply Hx. rewrite E. apply list_elem_of_fmap. by exists d.
    + apply elem_of_cons in Hin as [->|Hin]; [done|]. by apply IH.
Qed.

End ReplaceFacts.

Lemma replaceDoc_lookup {D} (key : D -> ObjectId) (d' : D)
    (docs docs' : list D) (id : ObjectId) :
  replaceDoc key d' docs = Some docs' ->
  findById key id docs'
  = if String.eqb id (key d') then Some d' else findById key id docs.
Proof.
  revert docs'. unfold findById.
  induction docs as [|x docs IH]; intros docs'; simpl; [discriminate|].
  destruct (String.eqb_spec (key x) (key d')) as [E|E].
  - intros [= <-]. simpl. rewrite (String.eqb_sym id).
    destruct (String.eqb_spec (key d') id) as [E'|E'].
    + reflexivity.
    + rewrite E. apply String.eqb_neq in E'. by rewrite E'.
  - destruct (replaceDoc key d' docs) as [l|]; simpl; [|discriminate].
    intros [= <-]. simpl. rewrite (IH l eq_refl).
    destruct (String.eqb_spec (key x) id) as [E'|E']; [|done].
    subst id. apply String.eqb_neq in E. by rewrite E.
Qed.

(** *** Revocation shows in verification *)

(** X14. After deleteCertification succeeds on a certification that is the
    one its non-empty hash finds, verifyCertification of that hash answers
    200 with verified = false and 'Certificate has been revoked', whatever
    the expiry date and the time of the request. *)
Theorem deleted_certification_is_revoked (id : string) (env1 env2 : Env)
    (st : Store) (d : CertificationDoc) :
  findById cert_id id (st_certifications st) = Some d ->
  findBy (fun c => String.eqb (cert_certificateHash c) (cert_certificateHash d))
         (st_certifications st) = Some d ->
  cert_certificateHash d ≠ "" ->
  env_storeFault env1 0 = None ->
  let st' := run_store (snd (exec (deleteCertification id) env1 st)) in
  fst (exec (deleteCertification id) env1 st)
    = Return (json (message "Certification marked as invalid"))
  ∧ ∃ r, fst (exec (verifyCertification (Some (cert_certificateHash d)))
                 env2 st') = Return r
      ∧ answers r 200 false "Certificate has been revoked".
Proof.
  intros Hid Hhash Hne Hfault st'. subst st'.
  destruct (replaceDoc_refind cert_id _ id _ d (set_cert_isValid false d)
              Hid Hhash) as (docs' & Hrep & Hfind & _).
  { by apply (BackendProps.findById_key cert_id) in Hid. }
  { simpl. apply String.eqb_refl. }
  unfold deleteCertification. unfold_run. simpl.
  rewrite Hid. simpl. rewrite Hfault.
  unfold with_certifications, updateDoc. rewrite Hrep. simpl.
  split; [reflexivity|].
  unfold verifyCertification. unfold_run. simpl.
  apply String.eqb_neq in Hne. rewrite Hne. simpl. rewrite Hfind. simpl.
  eexists. split; [reflexivity|]. repeat split.
Qed.

Lemma deleted_certification_is_revoked_witness :
  cert_isValid usda = true
  ∧ ∃ r, fst (exec (verifyCertification (Some "usda-organic-cert-hash")) healthy
                 (run_store (snd (exec (deleteCertification "c-usda") healthy
                                    seeded)))) = Return r
      ∧ answers r 200 false "Certificate has been revoked".
Proof.
  split; [reflexivity|].
  destruct (deleted_certification_is_revoked "c-usda" healthy healthy seeded usda)
    as (_ & r & Hrun & Hanswer); try reflexivity; try discriminate.
  exists r. split; [exact Hrun|exact Hanswer].
Defined.

(** *** Deleting and restoring a certification *)



(** *** Deactivation shows in verification *)

(** X16. After the product's owner or an admin deactivates a QR code
    (document ids being unique), verifyQRCode for its hash answers 200 with
    verified = false and 'QR code has been deactivated', without querying
    the ledger and without writing, whatever the ledger would answer. *)
Theorem deactivated_code_never_verifies (hash : string) (user : User)
    (env1 env2 : Env) (st : Store) (q : QRCodeDoc) (p : ProductDoc)
    (req : VerifyQRCodeReq) :
  NoDup (qr_id <$> st_qrcodes st) ->
  findBy (fun d => String.eqb (qr_hash d) hash) (st_qrcodes st) = Some q ->
  findById prod_id (qr_product q) (st_products st) = Some p ->
  notOwner (prod_farmer p) user = false ->
  env_storeFault env1 0 = None ->
  vq_hash req = hash ->
  let out1 := exec (deactivateQRCode hash user) env1 st in
  let st1 := run_store (snd out1) in
  (∃ r1, fst out1 = Return r1 ∧ status r1 = 200)
  ∧ ∃ r2, exec (verifyQRCode req) env2 st1 = (Return r2, start st1)
      ∧ answers r2 200 false "QR code has been deactivated".
Proof.
  intros Hnd Hq Hp Howner Hfault Hreq out1 st1. subst st1 out1.
  pose proof (BackendProps.findBy_Some _ _ _ Hq) as [Hin Hhash].
  pose proof (findById_unique qr_id q _ Hnd Hin) as Hid.
  destruct (replaceDoc_refind qr_id (fun d => String.eqb (qr_hash d) hash)
              (qr_id q) (st_qrcodes st) q (set_qr_isActive false q))
    as (docs' & Hrep & Hfind & _); auto.
  unfold deactivateQRCode. unfold_run. simpl.
  rewrite Hq. simpl. rewrite Hp. simpl. rewrite Howner. simpl. rewrite Hfault.
  unfold with_qrcodes, updateDoc. rewrite Hrep. simpl.
  split; [eexists; split; reflexivity|].
  unfold verifyQRCode. unfold_run. simpl. rewrite Hreq, Hfind. simpl.
  eexists. split; [reflexivity|]. repeat split.
Qed.

(** *** What verification leaves in the store *)

Lemma with_qrcodes_update (d : QRCodeDoc) (st st' : Store) :
  with_qrcodes (updateDoc qr_id d) st = Return st' ->
  st_products st' = st_products st
  ∧ st_batches st' = st_batches st
  ∧ st_certifications st' = st_certifications st
  ∧ qr_id <$> st_qrcodes st' = qr_id <$> st_qrcodes st.
Proof.
  unfold with_qrcodes, updateDoc.
  destruct (replaceDoc qr_id d (st_qrcodes st)) as [l|] eqn:E; [|discriminate].
  intros [= <-]. simpl. repeat split. by apply (replaceDoc_keys qr_id d).
Qed.

(** X17. verifyQRCode always answers; it never changes products, batches or
    certifications and never adds or removes a QR code document. The store
    changes at all only in a request answered with verified = true, and that
    answer needs the ledger to have answered true. *)
Theorem verifyQRCode_writes_only_when_verified (req : VerifyQRCodeReq)
    (env : Env) (st : Store) :
  let out := exec (verifyQRCode req) env st in
  ∃ r, fst out = Return r
    ∧ st_products (run_store (snd out)) = st_products st
    ∧ st_batches (run_store (snd out)) = st_batches st
    ∧ st_certifications (run_store (snd out)) = st_certifications st
    ∧ qr_id <$> st_qrcodes (run_store (snd out)) = qr_id <$> st_qrcodes st
    ∧ (run_store (snd out) = st
       ∨ answers r 200 true "QR code verified successfully"
         ∧ env_call env = Answer true).
Proof.
  intros out. subst out.
  unfold verifyQRCode, verifyOnBlockchain. unfold_run.
  repeat (branch; simpl);
    try match goal with
        | H : with_qrcodes _ _ = Return _ |- _ =>
            destruct (with_qrcodes_update _ _ _ H) as (? & ? & ? & ?)
        end;
    eexists; (split; [reflexivity|]); simpl; repeat split; auto;
    try (left; reflexivity).
  all: right; split; [repeat split|];
    match goal with H : negb ?b = false |- Answer ?b = _ =>
      destruct b; [reflexivity | discriminate H] end.
Qed.


Lemma deactivated_code_never_verifies_witness :
  ∃ r2, exec (verifyQRCode scanLabel) healthy
          (run_store (snd (exec (deactivateQRCode "a3f9" farmer) healthy
                             seeded)))
        = (Return r2,
           start (run_store (snd (exec (deactivateQRCode "a3f9" farmer)
                                    healthy seeded))))
      ∧ answers r2 200 false "QR code has been deactivated".
Proof.
  refine (proj2 (deactivated_code_never_verifies "a3f9" farmer healthy healthy
                   seeded label apples scanLabel _ eq_refl eq_refl eq_refl
                   eq_refl eq_refl)).
  simpl. apply NoDup_cons. split; [|apply NoDup_singleton].
  intros Hin%list_elem_of_singleton. discriminate Hin.
Defined.


(** *** Generating a code *)

(** X19. generateQRCode by the product's farmer or an admin never gets
    past the ledger set-up: the image file is written first, then the set-up
    throws, and the answer is the generic 500 with that error (or with the
    file system's error when the file cannot be written). No QR code
    document is stored and nothing is submitted to the ledger; a file that
    was written stays behind. *)
Theorem generateQRCode_leaves_file (req : GenerateQRCodeReq) (env : Env)
    (st : Store) (p : ProductDoc) :
  gq_errors req = [] ->
  findById prod_id (gq_productId req) (st_products st) = Some p ->
  notOwner (prod_farmer p) (gq_user req) = false ->
  exec (generateQRCode req) env st
  = (Return
       (serverError
          (default "Cannot read properties of undefined (reading 'eth')"
             (env_fileFault env))),
     mkRun st 0
       [FileWrite (qrDir +:+ ("qr_" +:+ env_digest env +:+ ".png"))]).
Proof.
  intros Herr Hp Howner.
  unfold generateQRCode. unfold_run. simpl.
  rewrite Herr. simpl. rewrite Hp. simpl. rewrite Howner. simpl.
  by destruct (env_fileFault env).
Qed.

Lemma generateQRCode_leaves_file_witness :
  exec (generateQRCode (mkGenerateQRCodeReq [] "p-apples" farmer)) healthy
    seeded
  = (Return (serverError
               "Cannot read properties of undefined (reading 'eth')"),
     mkRun seeded 0 [FileWrite "public/qrcodes/qr_9c1d.png"]).
Proof.
  exact (generateQRCode_leaves_file (mkGenerateQRCodeReq [] "p-apples" farmer)
           healthy seeded apples eq_refl eq_refl eq_refl).
Defined.

(** *** Effects need the owner *)

(** X21. A user who is neither the product's farmer nor an admin gets 403
    from generateQRCode, deactivateQRCode (for a code of that product),
    updateProduct, deleteProduct, addCertification and removeCertification,
    and none of them writes to the store, writes a file or calls the ledger
    in that case. *)
Theorem owner_only_effects (user : User) (env : Env) (st : Store)
    (p : ProductDoc) :
  findById prod_id (prod_id p) (st_products st) = Some p ->
  notOwner (prod_farmer p) user = true ->
  (∀ q hash,
      findBy (fun d => String.eqb (qr_hash d) hash) (st_qrcodes st) = Some q ->
      qr_product q = prod_id p ->
      exec (deactivateQRCode hash user) env st
      = (Return (mkResponse 403
                   (message "Not authorized to deactivate this QR code")),
         start st))
  ∧ exec (generateQRCode (mkGenerateQRCodeReq [] (prod_id p) user)) env st
    = (Return (mkResponse 403
                 (message "Not authorized to generate QR code for this product")),
       start st)
  ∧ (∀ req, up_id req = prod_id p -> up_user req = user ->
      exec (updateProduct req) env st
      = (Return (mkResponse 403
                   (message "Not authorized to update this product")),
         start st))
  ∧ exec (deleteProduct (prod_id p) user) env st
    = (Return (mkResponse 403
                 (message "Not authorized to delete this product")),
       start st)
  ∧ (∀ c, exec (addCertification (prod_id p) user c) env st
      = (Return (mkResponse 403
                   (message "Not authorized to update this product")),
         start st))
  ∧ (∀ c, exec (removeCertification (prod_id p) user c) env st
      = (Return (mkResponse 403
                   (message "Not authorized to update this product")),
         start st)).
Proof.
  intros Hp Howner. repeat split.
  - intros q hash Hq Hqp. unfold deactivateQRCode. unfold_run. simpl.
    rewrite Hq. simpl. rewrite Hqp, Hp. simpl. by rewrite Howner.
  - unfold generateQRCode. unfold_run. simpl. rewrite Hp. simpl.
    by rewrite Howner.
  - intros req Hid Hu. unfold updateProduct. unfold_run. simpl.
    rewrite Hid, Hp. simpl. by rewrite Hu, Howner.
  - unfold deleteProduct. unfold_run. simpl. rewrite Hp. simpl.
    by rewrite Howner.
  - intros c. unfold addCertification. unfold_run. simpl. rewrite Hp. simpl.
    by rewrite Howner.
  - intros c. unfold removeCertification. unfold_run. simpl. rewrite Hp. simpl.
    by rewrite Howner.
Qed.

Lemma owner_only_effects_witness :
  exec (generateQRCode (mkGenerateQRCodeReq [] "p-apples" processor)) healthy
    seeded
  = (Return (mkResponse 403
               (message "Not authorized to generate QR code for this product")),
     start seeded).
Proof.
  exact (proj1 (proj2 (owner_only_effects processor healthy seeded apples
                         eq_refl eq_refl))).
Defined.

(** *** Certifications of a product *)



Lemma removeFirst_split (x : string) (l : list string) :
  includes l x = true ->
  ∃ l1 l2, l = l1 ++ (x :: l2) ∧ (x ∉ l1) ∧ removeFirst x l = l1 ++ l2.
Proof.
  unfold includes. induction l as [|y l IH]; simpl; [discriminate|].
  rewrite (String.eqb_sym x y).
  destruct (String.eqb_spec y x) as [->|Hne].
  - intros _. exists [], l. split; [reflexivity|].
    split; [apply not_elem_of_nil|reflexivity].
  - simpl. intros H. destruct (IH H) as (l1 & l2 & -> & Hnot & ->).
    exists (y :: l1), l2. split; [reflexivity|]. split; [|reflexivity].
    intros Hin. apply elem_of_cons in Hin as [Heq|Hin]; [congruence|done].
Qed.




(** X23. removeCertification by the product's farmer or an admin takes out
    exactly the first occurrence of the certification id: the ids before and
    after it keep their order, the answer carries the product with that
    list, the stored product is replaced by it and every other product is
    unchanged. An id the product does not list is answered 404
    'Certification not found on this product' without effect, and
    addCertification of an id the product already lists is refused with 400
    without effect. *)
Theorem removeCertification_removes_first (id : ObjectId) (user : User)
    (c : ObjectId) (env : Env) (st : Store) (p : ProductDoc) :
  findById prod_id id (st_products st) = Some p ->
  notOwner (prod_farmer p) user = false ->
  let out := exec (removeCertification id user c) env st in
  if includes (prod_certifications p) c
  then
    exec (addCertification id user c) env st
    = (Return (mkResponse 400
                 (message "Certification already added to this product")),
       start st)
    ∧ (env_storeFault env 0 = None ->
       ∃ l1 l2,
         prod_certifications p = l1 ++ (c :: l2)
         ∧ (c ∉ l1)
         ∧ fst out
           = Return (json (JObj [("success", JBool true);
                                 ("data",
                                  JProduct (set_prod_certifications (l1 ++ l2)
                                              p))]))
         ∧ ∀ other,
             findById prod_id other (st_products (run_store (snd out)))
             = if String.eqb other id
               then Some (set_prod_certifications (l1 ++ l2) p)
               else findById prod_id other (st_products st))
  else
    out = (Return (mkResponse 404
                     (message "Certification not found on this product")),
           start st).
Proof.
  intros Hp Howner out. subst out.
  pose proof (BackendProps.findById_key prod_id _ _ _ Hp) as Hkey.
  destruct (includes (prod_certifications p) c) eqn:Hin.
  - split.
    + unfold addCertification. unfold_run. simpl. rewrite Hp. simpl.
      rewrite Howner. simpl. by rewrite Hin.
    + intros Hw.
      destruct (removeFirst_split c _ Hin) as (l1 & l2 & Hl & Hnot & Hrem).
      exists l1, l2. split; [exact Hl|]. split; [exact Hnot|].
      destruct (replaceDoc_reread prod_id id (st_products st) p
                  (set_prod_certifications (l1 ++ l2) p))
        as (ps' & Hrep & _); [exact Hp|exact Hkey|].
      unfold removeCertification. unfold_run. simpl. rewrite Hp. simpl.
      rewrite Howner. simpl. rewrite Hin. simpl. rewrite Hw, Hrem.
      unfold with_products, updateDoc. simpl. rewrite Hrep. simpl.
      split; [reflexivity|]. intros other.
      rewrite (replaceDoc_lookup prod_id _ _ _ other Hrep).
      cbn [prod_id set_prod_certifications]. by rewrite Hkey.
  - unfold removeCertification. unfold_run. simpl. rewrite Hp. simpl.
    rewrite Howner. simpl. by rewrite Hin.
Qed.

Lemma removeCertification_removes_first_witness :
  ∃ l1 l2,
    prod_certifications apples = l1 ++ ("c-usda" :: l2)
    ∧ ("c-usda" ∉ l1)
    ∧ fst (exec (removeCertification "p-apples" farmer "c-usda") healthy
             seeded)
      = Return (json (JObj [("success", JBool true);
                            ("data",
                             JProduct (set_prod_certifications (l1 ++ l2)
                                         apples))])).
Proof.
  destruct (proj2 (removeCertification_removes_first "p-apples" farmer
                     "c-usda" healthy seeded apples eq_refl eq_refl) eq_refl)
    as (l1 & l2 & Hl & Hnot & Hout & _).
  exists l1, l2. split; [exact Hl|]. split; [exact Hnot|exact Hout].
Defined.

(** *** Batches and their products *)

Section MapFacts.
Context {D : Type} (key : D -> ObjectId).

Lemma findById_is_Some (id : ObjectId) (docs : list D) :
  is_Some (findById key id docs) <-> id ∈ key <$> docs.
Proof.
  unfold findById. induction docs as [|x docs IH]; simpl.
  - split; [by intros [? ?]|by intros ?%elem_of_nil].
  - rewrite elem_of_cons. destruct (String.eqb_spec (key x) id) as [->|Hne].
    + split; [by left|by eexists].
    + rewrite IH. split; [by right|]. by intros [?|?].
Qed.

End MapFacts.

Lemma countIn_fmap (products : list ObjectId) (docs : list ProductDoc) :
  countIn products docs
  = length (filter (fun x => includes products x = true) (prod_id <$> docs)).
Proof.
  unfold countIn. induction docs as [|d docs IH]; [done|].
  rewrite fmap_cons, !filter_cons.
  destruct (decide (includes products (prod_id d) = true)); simpl;
    by rewrite IH.
Qed.

(** The count of stored products among [products] equals the length of
    [products] exactly when they are distinct and all stored. *)
Lemma countIn_length (products : list ObjectId) (docs : list ProductDoc) :
  NoDup (prod_id <$> docs) ->
  countIn products docs = length products
  <-> NoDup products ∧ ∀ x, x ∈ products -> x ∈ prod_id <$> docs.
Proof.
  intros Hnd. rewrite countIn_fmap.
  set (S := filter (fun x => includes products x = true) (prod_id <$> docs)).
  assert (HndS : NoDup S) by (by apply NoDup_filter).
  assert (Hsub : S ⊆+ products).
  { apply NoDup_submseteq; [exact HndS|]. intros x Hx.
    apply list_elem_of_filter in Hx as [Hx _].
    by apply BackendProps.includes_elem_of. }
  split.
  - intros Hlen.
    assert (Hperm : S ≡ₚ products).
    { apply submseteq_length_Permutation; [exact Hsub|]. by rewrite Hlen. }
    split; [by rewrite <- Hperm|].
    intros x Hx. rewrite <- Hperm in Hx.
    by apply list_elem_of_filter in Hx as [_ Hx].
  - intros [Hndp Hall].
    assert (Hsup : products ⊆+ S).
    { apply NoDup_submseteq; [exact Hndp|]. intros x Hx.
      apply list_elem_of_filter. split; [|by apply Hall].
      by apply BackendProps.includes_elem_of. }
    apply submseteq_length in Hsub. apply submseteq_length in Hsup.
    by apply Nat.le_antisymm.
Qed.

(** X24. With unique product ids in the store, the batch controller's
    createBatch with a non-empty product list answers 400 'One or more
    products not found' without any effect unless the listed ids are
    pairwise distinct and all stored; in particular a list that names an
    existing product twice is rejected. *)
Theorem createBatch_rejects_products (req : CreateBatchReq) (env : Env)
    (st : Store) (products : list ObjectId) :
  cb_errors req = [] ->
  cb_products req = Some products ->
  products ≠ [] ->
  NoDup (prod_id <$> st_products st) ->
  ¬ (NoDup products
     ∧ ∀ x, x ∈ products -> is_Some (findById prod_id x (st_products st))) ->
  exec (createBatch req) env st
  = (Return (mkResponse 400 (message "One or more products not found")),
     start st).
Proof.
  intros Herr Hprods Hne Hnd Hbad.
  unfold createBatch. unfold_run. simpl. rewrite Herr, Hprods. simpl.
  destruct products as [|x products]; [done|]. simpl.
  destruct (Nat.eqb_spec (countIn (x :: products) (st_products st))
              (length (x :: products))) as [Heq|Hneq].
  - exfalso. apply Hbad. apply countIn_length in Heq as [H1 H2]; [|done].
    split; [done|]. intros y Hy. by apply findById_is_Some, H2.
  - simpl in Hneq. destruct (Nat.eqb_spec (countIn (x :: products) (st_products st))
                               (S (length products))); [done|reflexivity].
Qed.

Lemma createBatch_rejects_products_witness :
  exec (createBatch (mkCreateBatchReq [] "2024-03-01" ["washing"]
                       (Some ["p-apples"; "p-apples"]) (VStr "Farm A")
                       farmer)) healthy seeded
  = (Return (mkResponse 400 (message "One or more products not found")),
     start seeded).
Proof.
  apply (createBatch_rejects_products _ healthy seeded
           ["p-apples"; "p-apples"]); try reflexivity.
  - discriminate.
  - apply NoDup_singleton.
  - intros [Hnd _]. apply NoDup_cons in Hnd as [Hnotin _].
    apply Hnotin, list_elem_of_here.
Defined.

Lemma some_handler (handlers : list ObjectId) (id : ObjectId) :
  existsb (fun handler => String.eqb handler id) handlers = true
  <-> id ∈ handlers.
Proof.
  rewrite existsb_exists. split.
  - intros (y & Hin & Heq). apply String.eqb_eq in Heq. subst y.
    by apply list_elem_of_In.
  - intros Hin. exists id. split; [by apply list_elem_of_In|].
    apply String.eqb_refl.
Qed.

(** X25. For a stored batch, updateBatch answers 403 'Not authorized to
    update this batch' without effect when the caller is neither one of the
    batch's handlers nor an admin; for a handler or an admin, a product list
    that is not made of pairwise distinct stored ids is answered 400 'One or
    more products not found' without effect. *)
Theorem updateBatch_rejects (req : UpdateBatchReq) (env : Env) (st : Store)
    (b : BatchDoc) :
  findById batch_id (ub_id req) (st_batches st) = Some b ->
  let out := exec (updateBatch req) env st in
  let handles :=
    user_id (ub_user req) ∈ batch_handlers b
    ∨ user_role (ub_user req) = "admin" in
  (¬ handles ->
   out = (Return (mkResponse 403
                    (message "Not authorized to update this batch")),
          start st))
  ∧ (handles ->
     ∀ products,
       ub_products req = Some products ->
       NoDup (prod_id <$> st_products st) ->
       ¬ (NoDup products
          ∧ ∀ x, x ∈ products ->
                 is_Some (findById prod_id x (st_products st))) ->
       out = (Return (mkResponse 400
                        (message "One or more products not found")),
              start st)).
Proof.
  intros Hb out handles. subst out handles.
  unfold updateBatch. unfold_run. rewrite Hb.
  destruct (existsb _ (batch_handlers b)) eqn:His.
  - apply some_handler in His. split; [intros Hno; destruct Hno; by left|].
    intros _ products Hprods Hnd Hbad. cbn [negb andb]. rewrite Hprods.
    cbn [run_store].
    destruct (Nat.eqb_spec (countIn products (st_products st))
                (length products)) as [Heq|Hneq]; [|reflexivity].
    exfalso. apply Hbad. apply countIn_length in Heq as [H1 H2]; [|done].
    split; [done|]. intros y Hy. by apply findById_is_Some, H2.
  - destruct (String.eqb_spec (user_role (ub_user req)) "admin") as [Ha|Ha].
    + split; [intros Hno; destruct Hno; by right|].
      intros _ products Hprods Hnd Hbad. cbn [negb andb]. rewrite Hprods.
      cbn [run_store].
      destruct (Nat.eqb_spec (countIn products (st_products st))
                  (length products)) as [Heq|Hneq]; [|reflexivity].
      exfalso. apply Hbad. apply countIn_length in Heq as [H1 H2]; [|done].
      split; [done|]. intros y Hy. by apply findById_is_Some, H2.
    + split; [reflexivity|]. intros [Hin|Hadmin]; [|done].
      apply some_handler in Hin. congruence.
Qed.

Lemma updateBatch_rejects_witness :
  exec (updateBatch (mkUpdateBatchReq "b-crate" processor None None None))
    healthy stocked
  = (Return (mkResponse 403 (message "Not authorized to update this batch")),
     start stocked).
Proof.
  refine (proj1 (updateBatch_rejects
                   (mkUpdateBatchReq "b-crate" processor None None None)
                   healthy stocked crate eq_refl) _).
  intros [Hin|Hadmin]; [|discriminate Hadmin].
  apply list_elem_of_singleton in Hin. discriminate Hin.
Defined.

(** *** What the controllers cannot do *)


(** X26. None of the five controllers that write to both the ledger and
    the store (createProduct, createBatch, createCertification,
    addTraceabilityRecord, generateQRCode) can create anything: in every run
    the store is unchanged, no store write is attempted, nothing is
    submitted to the ledger (the only effect a run can have is the image
    file of generateQRCode) and the answer is never 201. A createCertification
    request that passes validation is answered 500 'Server error' with the
    error of initContract called without the client. *)
Theorem controllers_never_submit :
  (∀ (op : Operation) (env : Env) (st : Store),
     let out := exec (perform op) env st in
     run_store (snd out) = st
     ∧ run_writes (snd out) = 0%nat
     ∧ (∀ e, e ∈ run_trace (snd out) -> ∃ path, e = FileWrite path)
     ∧ ∃ r, fst out = Return r ∧ status r ≠ 201)
  ∧ (∀ (req : CreateCertificationReq) (env : Env) (st : Store),
       cc_errors req = [] ->
       exec (createCertification req) env st
       = (Return (serverError
                    "Cannot read properties of undefined (reading 'eth')"),
          start st)).
Proof.
  split.
  - intros op env st out. subst out.
    destruct op as [req|req|req|req|req]; cbn [perform];
      [unfold createProduct | unfold createBatch | unfold createCertification
      | unfold addTraceabilityRecord | unfold generateQRCode];
      unfold_run; repeat (branch; simpl);
      (split; [reflexivity|]); (split; [reflexivity|]);
      (split; [|eexists; split; [reflexivity|discriminate]]);
      intros e He; simpl in He;
      repeat match goal with
             | H : _ ∈ [] |- _ => by apply elem_of_nil in H
             | H : _ ∈ _ :: _ |- _ => apply elem_of_cons in H as [->|H]
             end; by eexists.
  - intros req env st Herr. unfold createCertification. unfold_run.
    by rewrite Herr.
Qed.

Lemma controllers_never_submit_witness :
  exec (createCertification issueRequest) healthy seeded
  = (Return (serverError
               "Cannot read properties of undefined (reading 'eth')"),
     start seeded).
Proof.
  exact (proj2 controllers_never_submit issueRequest healthy seeded eq_refl).
Defined.

(** *** The ledger wrappers *)

(** X27. Each wrapper of utils/blockchain.js (registerFarmer, createProduct,
    createBatch, addCertification, addTraceabilityRecord, registerQRCode,
    verifyQRCode) always returns an object and never throws: success is true
    exactly when the adapter set-up and the ledger call went through,
    otherwise the result is {success: false, error: <message>}; the store is
    never written and at most one ledger call is made. *)
Theorem wrappers_report_failure (w : Wrapper) (env : Env) (st : Store) :
  let out := exec (invoke w) env st in
  ∃ j, fst out = Return j
     ∧ jfield "success" j = Some (JBool (ledgerAnswers w env))
     ∧ (ledgerAnswers w env = false -> ∃ e, j = blockchainService.failure e)
     ∧ run_store (snd out) = st
     ∧ run_writes (snd out) = 0%nat
     ∧ (length (run_trace (snd out)) <= 1)%nat.
Proof.
  intros out. subst out. unfold ledgerAnswers.
  destruct w; unfold invoke, registerFarmer, blockchainService.createProduct,
    blockchainService.createBatch, blockchainService.addCertification,
    blockchainService.addTraceabilityRecord, blockchainService.registerQRCode,
    blockchainService.verifyQRCode, blockchainService.failure; unfold_run;
    destruct (env_connect env); simpl;
    try match goal with
        | |- context [match env_send env with _ => _ end] =>
            destruct (env_send env); simpl
        | |- context [match env_call env with _ => _ end] =>
            destruct (env_call env); simpl
        end;
    eexists; (split; [reflexivity|]); repeat split; auto;
    try discriminate; intros _; by eexists.
Qed.

(** *** What an update of a product leaves alone *)

Lemma with_products_update (d : ProductDoc) (st st' : Store) :
  with_products (updateDoc prod_id d) st = Return st' ->
  replaceDoc prod_id d (st_products st) = Some (st_products st')
  ∧ st_batches st' = st_batches st
  ∧ st_certifications st' = st_certifications st
  ∧ st_qrcodes st' = st_qrcodes st.
Proof.
  unfold with_products, updateDoc.
  destruct (replaceDoc prod_id d (st_products st)) as [l|] eqn:E;
    [|discriminate].
  by intros [= <-].
Qed.

(** X28. Whatever the request and its outcome, updateProduct leaves batches,
    certifications, QR codes and the list of product ids unchanged and never
    changes a product's farmer, ledger ids, certification list, batch list
    or QR code; every product other than the addressed one is unchanged, and
    so is the addressed one when the caller is neither its farmer nor an
    admin. *)
Theorem updateProduct_keeps_identity (req : UpdateProductReq) (env : Env)
    (st : Store) :
  let st' := run_store (snd (exec (updateProduct req) env st)) in
  prod_id <$> st_products st' = prod_id <$> st_products st
  ∧ st_batches st' = st_batches st
  ∧ st_certifications st' = st_certifications st
  ∧ st_qrcodes st' = st_qrcodes st
  ∧ ∀ id p, findById prod_id id (st_products st) = Some p ->
      ∃ p', findById prod_id id (st_products st') = Some p'
          ∧ prod_farmer p' = prod_farmer p
          ∧ prod_blockchainProductId p' = prod_blockchainProductId p
          ∧ prod_transactionHash p' = prod_transactionHash p
          ∧ prod_certifications p' = prod_certifications p
          ∧ prod_batches p' = prod_batches p
          ∧ prod_qrCode p' = prod_qrCode p
          ∧ (id ≠ up_id req -> p' = p)
          ∧ (notOwner (prod_farmer p) (up_user req) = true -> p' = p).
Proof.
  intros st'. subst st'. unfold updateProduct. unfold_run.
  destruct (findById prod_id (up_id req) (st_products st)) as [p0|] eqn:Hp0;
    [|simpl; repeat split; intros id p Hp; exists p; by repeat split].
  destruct (notOwner (prod_farmer p0) (up_user req)) eqn:Howner;
    [simpl; repeat split; intros id p Hp; exists p; by repeat split|].
  cbn [run_writes run_store].
  destruct (env_storeFault env 0);
    [simpl; repeat split; intros id p Hp; exists p; by repeat split|].
  destruct (with_products _ st) as [st1|e] eqn:Hw;
    [|simpl; repeat split; intros id p Hp; exists p; by repeat split].
  apply with_products_update in Hw as (Hrep & Hb & Hc & Hq). simpl.
  split; [by apply (replaceDoc_keys prod_id) in Hrep|].
  repeat (split; [done|]).
  intros id p Hp. rewrite (replaceDoc_lookup prod_id _ _ _ id Hrep).
  cbn [prod_id].
  pose proof (BackendProps.findById_key prod_id _ _ _ Hp0) as Hkey.
  rewrite Hkey.
  destruct (String.eqb_spec id (up_id req)) as [->|Hne].
  - rewrite Hp0 in Hp. injection Hp as <-.
    eexists. split; [reflexivity|]. repeat split; try done. congruence.
  - exists p. by repeat split.
Qed.

(** *** A deactivated product and its codes *)

(** X29. deleteProduct by the owner or an admin answers 'Product marked as
    inactive', and it does not change what verifyQRCode answers for any
    code: status, verified flag and message are the same on the store before
    and after the deletion (verifyQRCode never looks at the product's
    isActive flag), so a code of a deactivated product that verified before
    still verifies. *)
Theorem deleted_product_keeps_verdict (id : ObjectId) (user : User)
    (env1 env2 : Env) (st : Store) (p : ProductDoc) (req : VerifyQRCodeReq) :
  findById prod_id id (st_products st) = Some p ->
  notOwner (prod_farmer p) user = false ->
  env_storeFault env1 0 = None ->
  let out1 := exec (deleteProduct id user) env1 st in
  let st1 := run_store (snd out1) in
  fst out1 = Return (json (message "Product marked as inactive"))
  ∧ ∃ r r1,
      fst (exec (verifyQRCode req) env2 st) = Return r
      ∧ fst (exec (verifyQRCode req) env2 st1) = Return r1
      ∧ status r1 = status r
      ∧ jfield "verified" (body r1) = jfield "verified" (body r)
      ∧ jfield "message" (body r1) = jfield "message" (body r).
Proof.
  intros Hp Howner Hw out1 st1. subst st1 out1.
  pose proof (BackendProps.findById_key prod_id _ _ _ Hp) as Hkey.
  destruct (replaceDoc_reread prod_id id (st_products st) p
              (set_prod_isActive false p)) as (ps' & Hrep & _);
    [exact Hp|exact Hkey|].
  pose proof (fun x => replaceDoc_lookup prod_id _ _ _ x Hrep) as Hlook.
  cbn [prod_id set_prod_isActive] in Hlook. rewrite Hkey in Hlook.
  unfold deleteProduct. unfold_run. simpl. rewrite Hp. simpl.
  rewrite Howner. simpl. rewrite Hw.
  unfold with_products, updateDoc. simpl. rewrite Hrep. simpl.
  split; [reflexivity|].
  unfold verifyQRCode, verifyOnBlockchain. unfold_run. simpl.
  destruct (findBy _ (st_qrcodes st)) as [q|]; simpl;
    [|eexists _, _; repeat split].
  destruct (qr_isActive q); simpl; [|eexists _, _; repeat split].
  rewrite Hlook.
  assert (Hsame : ∃ p0 p0',
            findById prod_id (qr_product q) (st_products st) = Some p0
            ∧ (if String.eqb (qr_product q) id
               then Some (set_prod_isActive false p)
               else findById prod_id (qr_product q) (st_products st))
              = Some p0'
          ∨ findById prod_id (qr_product q) (st_products st) = None
            ∧ (if String.eqb (qr_product q) id
               then Some (set_prod_isActive false p)
               else findById prod_id (qr_product q) (st_products st))
              = None).
  { destruct (String.eqb_spec (qr_product q) id) as [->|Hne].
    - exists p, (set_prod_isActive false p). left. by split.
    - destruct (findById prod_id (qr_product q) (st_products st)) as [p0|].
      + exists p0, p0. left. by split.
      + exists p, p. right. by split. }
  destruct Hsame as (p0 & p0' & [[-> ->] | [-> ->]]); simpl;
    eexists _, _; repeat split.
Qed.

Lemma deleted_product_keeps_verdict_witness :
  ∃ r r1,
    fst (exec (verifyQRCode scanLabel) healthy seeded) = Return r
    ∧ fst (exec (verifyQRCode scanLabel) healthy
             (run_store (snd (exec (deleteProduct "p-apples" farmer) healthy
                                seeded)))) = Return r1
    ∧ status r1 = status r
    ∧ jfield "verified" (body r1) = jfield "verified" (body r)
    ∧ jfield "message" (body r1) = jfield "message" (body r).
Proof.
  exact (proj2 (deleted_product_keeps_verdict "p-apples" farmer healthy
                  healthy seeded apples scanLabel eq_refl eq_refl eq_refl)).
Defined.
End BackendExtra.
